(** * vega-server: the query handlers of [server.js]

    A shallow embedding of the two request handlers of the mock
    financial-data API ([GET /prices] and [GET /portfolios]) together with
    the parts of the JavaScript platform they lean on: query-parameter
    truthiness, [String.prototype.split], the [Date] object ([TimeClip],
    [toDateString], [toISOString]), a stable [Array.prototype.sort], and the
    two sources of per-request effects, [uuidv4()] and the wall clock. *)

From Stdlib Require Import ZArith List String Ascii Bool Lia.
From Stdlib Require Import DecimalString.
From Stdlib Require QArith Qround.
From Stdlib Require DecimalN.
Import ListNotations.
Open Scope string_scope.
Open Scope Z_scope.

Set Implicit Arguments.

(** ** JavaScript values reaching the handlers *)

Module JS.

(** A member of [req.query]: [undefined] when the parameter is not in the
    URL, otherwise the decoded string ([?asOf=] gives the empty string).
    Repeated or bracketed parameters, which the query parser turns into
    arrays and objects, are not modelled. *)
Definition QueryParam := option string.

(** ToBoolean on such a value: [undefined] and [""] are falsy. *)
Definition truthy (p : QueryParam) : bool :=
  match p with
  | None => false
  | Some s => negb (s =? "")%string
  end.

(** [s.split(sep)] for a one-character separator: never the empty array,
    [""] splits to [[""]] and a trailing separator leaves an empty piece. *)
Fixpoint split (sep : ascii) (s : string) : list string :=
  match s with
  | EmptyString => [EmptyString]
  | String c rest =>
      if Ascii.eqb c sep then EmptyString :: split sep rest
      else match split sep rest with
           | piece :: pieces => String c piece :: pieces
           | [] => [String c EmptyString]
           end
  end.

(** [arr.includes(x)] on an array of strings (SameValueZero is string
    equality there). *)
Definition includes (arr : list string) (x : string) : bool :=
  existsb (String.eqb x) arr.

(** [arr.sort(cmp)]: ECMAScript requires a stable sort, so for a consistent
    comparator the result is fixed; it is computed here by a stable
    insertion.  The comparator's number is [None] when it is NaN, which the
    sort reads as [+0]. *)
Section Sort.
Variable A : Type.
Variable cmp : A -> A -> option Z.

Definition comes_after (x y : A) : bool :=
  match cmp x y with
  | Some v => 0 <? v
  | None => false
  end.

Fixpoint insert (x : A) (l : list A) : list A :=
  match l with
  | [] => [x]
  | y :: l' => if comes_after x y then y :: insert x l' else x :: l
  end.

Fixpoint sort (l : list A) : list A :=
  match l with
  | [] => []
  | x :: l' => insert x (sort l')
  end.
End Sort.

End JS.

(** ** The Date object *)

Module Date.

Definition msPerDay : Z := 86400000.
Definition maxTime : Z := 8640000000000000.

(** [[DateValue]]: a time value in milliseconds since the epoch, or NaN. *)
Definition t := option Z.

Definition TimeClip (tv : Z) : t :=
  if Z.abs tv <=? maxTime then Some tv else None.

(** [new Date(number)] *)
Definition of_number (n : Z) : t := TimeClip n.

(** [a >= b] and [a <= b] on Date objects compare the time values; any
    comparison with NaN is false. *)
Definition geb (a b : t) : bool :=
  match a, b with
  | Some x, Some y => y <=? x
  | _, _ => false
  end.

Definition leb (a b : t) : bool :=
  match a, b with
  | Some x, Some y => x <=? y
  | _, _ => false
  end.

(** [a - b] on Date objects: the difference of the time values, NaN when
    either is. *)
Definition sub (a b : t) : option Z :=
  match a, b with
  | Some x, Some y => Some (x - y)
  | _, _ => None
  end.

(** [!isNaN(date)] *)
Definition valid (d : t) : bool :=
  match d with Some _ => true | None => false end.

Definition Day (tv : Z) : Z := tv / msPerDay.
Definition TimeWithinDay (tv : Z) : Z := tv mod msPerDay.
Definition WeekDay (tv : Z) : Z := (Day tv + 4) mod 7.

(** Year, month (1 to 12) and day of the month of a day number, in the
    proleptic Gregorian calendar (day 0 is 1970-01-01). *)
Definition civil_from_days (z : Z) : Z * Z * Z :=
  let z := z + 719468 in
  let era := z / 146097 in
  let doe := z - era * 146097 in
  let yoe := (doe - doe / 1460 + doe / 36524 - doe / 146096) / 365 in
  let y := yoe + era * 400 in
  let doy := doe - (365 * yoe + yoe / 4 - yoe / 100) in
  let mp := (5 * doy + 2) / 153 in
  let d := doy - (153 * mp + 2) / 5 + 1 in
  let m := if mp <? 10 then mp + 3 else mp - 9 in
  (if m <=? 2 then y + 1 else y, m, d).

(** The inverse direction, used to read ISO dates. *)
Definition days_from_civil (y m d : Z) : Z :=
  let y := if m <=? 2 then y - 1 else y in
  let era := y / 400 in
  let yoe := y - era * 400 in
  let doy := (153 * (if 2 <? m then m - 3 else m + 9) + 2) / 5 + d - 1 in
  let doe := yoe * 365 + yoe / 4 - yoe / 100 + doy in
  era * 146097 + doe - 719468.

Definition YearFromTime (tv : Z) : Z := fst (fst (civil_from_days (Day tv))).
Definition MonthFromTime (tv : Z) : Z := snd (fst (civil_from_days (Day tv))).
Definition DateFromTime (tv : Z) : Z := snd (civil_from_days (Day tv)).

(** ToZeroPaddedDecimalString *)
Fixpoint zeros (n : nat) : string :=
  match n with O => EmptyString | S n' => String "0" (zeros n') end.

Definition padded (n : Z) (minLength : nat) : string :=
  let s := NilZero.string_of_uint (N.to_uint (Z.to_N n)) in
  (zeros (minLength - String.length s)%nat ++ s)%string.

Definition weekdayName (w : Z) : string :=
  if w =? 0 then "Sun" else if w =? 1 then "Mon" else if w =? 2 then "Tue"
  else if w =? 3 then "Wed" else if w =? 4 then "Thu"
  else if w =? 5 then "Fri" else "Sat".

Definition monthName (m : Z) : string :=
  if m =? 1 then "Jan" else if m =? 2 then "Feb" else if m =? 3 then "Mar"
  else if m =? 4 then "Apr" else if m =? 5 then "May"
  else if m =? 6 then "Jun" else if m =? 7 then "Jul"
  else if m =? 8 then "Aug" else if m =? 9 then "Sep"
  else if m =? 10 then "Oct" else if m =? 11 then "Nov" else "Dec".

(** DateString(tv) of the specification, on a local time value. *)
Definition DateString (tv : Z) : string :=
  let y := YearFromTime tv in
  (weekdayName (WeekDay tv) ++ " " ++ monthName (MonthFromTime tv) ++ " "
     ++ padded (DateFromTime tv) 2 ++ " "
     ++ (if (y <? 0)%Z then "-" else "") ++ padded (Z.abs y) 4)%string.

Section Local.
(** The host's offset of local time from UTC at a given instant, in
    milliseconds. *)
Variable LocalTZA : Z -> Z.

Definition LocalTime (tv : Z) : Z := tv + LocalTZA tv.

(** [date.toDateString()] *)
Definition toDateString (d : t) : string :=
  match d with
  | None => "Invalid Date"
  | Some tv => DateString (LocalTime tv)
  end.
End Local.

(** [date.toISOString()] of a valid date (the handlers call it on
    [new Date()] only). *)
Definition toISOString (tv : Z) : string :=
  let y := YearFromTime tv in
  let ms := TimeWithinDay tv in
  ((if ((0 <=? y) && (y <=? 9999))%Z then padded y 4
    else (if (y <? 0)%Z then "-" else "+") ++ padded (Z.abs y) 6)
     ++ "-" ++ padded (MonthFromTime tv) 2
     ++ "-" ++ padded (DateFromTime tv) 2
     ++ "T" ++ padded (ms / 3600000) 2
     ++ ":" ++ padded ((ms / 60000) mod 60) 2
     ++ ":" ++ padded ((ms / 1000) mod 60) 2
     ++ "." ++ padded (ms mod 1000) 3 ++ "Z")%string.

End Date.

(** ** Per-request effects

    The handlers draw identifiers from [uuidv4()] and read the wall clock
    with [new Date()].  Both are threaded through a world: the identifiers
    the generator is going to hand out, in order, and the current time
    value. *)

Module Eff.

Record World := { entropy : nat -> string; clock : Z }.

Definition M (A : Type) : Type := World -> A * World.

Definition ret {A} (a : A) : M A := fun w => (a, w).

Definition bind {A B} (m : M A) (k : A -> M B) : M B :=
  fun w => let (a, w') := m w in k a w'.

(** [uuidv4()] *)
Definition uuidv4 : M string :=
  fun w => (entropy w O,
            {| entropy := fun n => entropy w (S n); clock := clock w |}).

(** The time value of [new Date()] *)
Definition now : M Z := fun w => (clock w, w).

(** [arr.map(f)] for an effectful callback, left to right. *)
Fixpoint mapM {A B} (f : A -> M B) (l : list A) : M (list B) :=
  match l with
  | [] => ret []
  | a :: l' => bind (f a) (fun b => bind (mapM f l') (fun bs => ret (b :: bs)))
  end.

End Eff.

Notation "x <- m ;; k" := (Eff.bind m (fun x => k))
  (at level 61, m at next level, right associativity).

(** ** Data model *)

Module Price.
(** An element of [historicalPrices]. *)
Record t := { id : string; asset : string; price : Z; timestamp : Z }.
End Price.

Module Position.
(** An element of [positions]. *)
Record t :=
  { id : Z; asset : string; quantity : Z; asOf : string; price : Z }.
End Position.

Module Portfolio.
(** The object built by [GET /portfolios]. *)
Record t := { id : string; asOf : string; positions : list Position.t }.
End Portfolio.

(** An element of the array sent by [GET /prices]: a stored record, or the
    object literal [{ id: uuidv4(), asset: assetId, price: 0 }]. *)
Inductive Entry :=
| Stored (record : Price.t)
| Placeholder (id asset : string) (price : Z).

(** What a handler sends: [res.json(body)], or
    [res.status(status).json({ error })]. *)
Inductive Response (A : Type) :=
| Json (body : A)
| Error (status : Z) (error : string).
Arguments Json {A} body.
Arguments Error {A} status error.

Definition MissingParameter {A} : Response A :=
  Error 400 "assets parameter is required".
Definition InvalidDate {A} : Response A :=
  Error 400 "Invalid date format".

(** ** The handlers *)

Module Server.
Section Handlers.

(** The host's date-string parser (its accepted formats beyond the ISO one
    are implementation-defined): the time value, or [None] for NaN. *)
Variable parse : string -> option Z.
Variable LocalTZA : Z -> Z.

(** The module-level arrays generated when the server starts. *)
Variable historicalPrices : list Price.t.
Variable positions : list Position.t.

(** [new Date(string)] *)
Definition Date_of_string (s : string) : Date.t :=
  match parse s with
  | Some tv => Date.TimeClip tv
  | None => None
  end.

(** [new Date(p)] for a query parameter; [new Date(undefined)] is invalid. *)
Definition Date_of_param (p : JS.QueryParam) : Date.t :=
  match p with
  | Some s => Date_of_string s
  | None => None
  end.

Definition isValidDate (dateString : JS.QueryParam) : bool :=
  Date.valid (Date_of_param dateString).

Definition toDateString := Date.toDateString LocalTZA.

(** [(a, b) => new Date(b.timestamp) - new Date(a.timestamp)] *)
Definition byTimestampDesc (a b : Price.t) : option Z :=
  Date.sub (Date.of_number (Price.timestamp b))
           (Date.of_number (Price.timestamp a)).

(** The callbacks of the three [historicalPrices.filter] calls and of
    [positions.filter], lines 119, 134, 148 and 195. *)
Definition isRequested (requestedAssets : list string) (price : Price.t)
  : bool :=
  JS.includes requestedAssets (Price.asset price).

Definition inRange (fromDate toDate : Date.t) (price : Price.t) : bool :=
  let priceDate := Date.of_number (Price.timestamp price) in
  Date.geb priceDate fromDate && Date.leb priceDate toDate.

Definition onDay (asOfDate : Date.t) (price : Price.t) : bool :=
  (toDateString (Date.of_number (Price.timestamp price))
   =? toDateString asOfDate)%string.

Definition positionOnDay (asOfDate : Date.t) (position : Position.t)
  : bool :=
  (toDateString (Date_of_string (Position.asOf position))
   =? toDateString asOfDate)%string.

(** The body of [requestedAssets.map(assetId => ...)], lines 155-165. *)
Definition latestPrice (filteredPrices : list Price.t) (assetId : string)
  : Eff.M Entry :=
  let assetPrices :=
    JS.sort byTimestampDesc
      (filter (fun price => (Price.asset price =? assetId)%string)
              filteredPrices) in
  match assetPrices with
  | first :: _ => Eff.ret (Stored first)
  | [] => id <- Eff.uuidv4 ;; Eff.ret (Placeholder id assetId 0)
  end.

(** Lines 153-170: the reduction and the response. *)
Definition respondPrices (asOf : JS.QueryParam)
    (requestedAssets : list string) (filteredPrices : list Price.t)
  : Eff.M (Response (list Entry)) :=
  if JS.truthy asOf then
    latestPrices <- Eff.mapM (latestPrice filteredPrices) requestedAssets ;;
    Eff.ret (Json latestPrices)
  else Eff.ret (Json (map Stored filteredPrices)).

(** [GET /prices], with [req.query = { assets, asOf, from, to }]. *)
Definition queryPrices (assetIds asOf from to : JS.QueryParam)
  : Eff.M (Response (list Entry)) :=
  match assetIds with
  | None => Eff.ret MissingParameter
  | Some ids =>
      if (ids =? "")%string then Eff.ret MissingParameter
      else
        let requestedAssets := JS.split "," ids in
        let filteredPrices :=
          filter (isRequested requestedAssets) historicalPrices in
        if JS.truthy from && JS.truthy to then
          if negb (isValidDate from) || negb (isValidDate to)
          then Eff.ret InvalidDate
          else
            let fromDate := Date_of_param from in
            let toDate := Date_of_param to in
            let filteredPrices :=
              filter (inRange fromDate toDate) filteredPrices in
            respondPrices asOf requestedAssets filteredPrices
        else if JS.truthy asOf then
          if negb (isValidDate asOf) then Eff.ret InvalidDate
          else
            let asOfDate := Date_of_param asOf in
            let filteredPrices := filter (onDay asOfDate) filteredPrices in
            respondPrices asOf requestedAssets filteredPrices
        else respondPrices asOf requestedAssets filteredPrices
  end.

(** Lines 200-206: the snapshot object and the response. *)
Definition respondPortfolio (asOf : JS.QueryParam)
    (filteredPositions : list Position.t)
  : Eff.M (Response Portfolio.t) :=
  id <- Eff.uuidv4 ;;
  asOf' <- match asOf with
           | Some s => if (s =? "")%string
                       then tv <- Eff.now ;; Eff.ret (Date.toISOString tv)
                       else Eff.ret s
           | None => tv <- Eff.now ;; Eff.ret (Date.toISOString tv)
           end ;;
  Eff.ret (Json {| Portfolio.id := id;
                   Portfolio.asOf := asOf';
                   Portfolio.positions := filteredPositions |}).

(** [GET /portfolios], with [req.query = { asOf }]. *)
Definition queryPortfolio (asOf : JS.QueryParam)
  : Eff.M (Response Portfolio.t) :=
  if JS.truthy asOf then
    if negb (isValidDate asOf) then Eff.ret InvalidDate
    else
      let asOfDate := Date_of_param asOf in
      let filteredPositions := filter (positionOnDay asOfDate) positions in
      respondPortfolio asOf filteredPositions
  else respondPortfolio asOf positions.

End Handlers.
End Server.
Import Server.

(** ** Vocabulary of the statements *)

Module Price_dec.
Definition eq_dec (a b : Price.t) : {a = b} + {a <> b}.
Proof. decide equality; auto using string_dec, Z.eq_dec. Defined.
End Price_dec.

Definition entryAsset (e : Entry) : string :=
  match e with
  | Stored r => Price.asset r
  | Placeholder _ a _ => a
  end.

(** The identifiers of the placeholders of a response, in order. *)
Fixpoint placeholderIds (l : list Entry) : list string :=
  match l with
  | [] => []
  | Stored _ :: l' => placeholderIds l'
  | Placeholder id _ _ :: l' => id :: placeholderIds l'
  end.

(** A response with the identifiers drawn during the request blanked. *)
Definition anonymise (e : Entry) : Entry :=
  match e with
  | Stored r => Stored r
  | Placeholder _ a p => Placeholder "" a p
  end.

Definition forgetIds (r : Response (list Entry)) : Response (list Entry) :=
  match r with
  | Json l => Json (map anonymise l)
  | Error s e => Error s e
  end.

(** A snapshot with its identifier blanked, and its [asOf] too unless
    [keepAsOf]. *)
Definition forgetSnapshot (keepAsOf : bool) (r : Response Portfolio.t)
  : Response Portfolio.t :=
  match r with
  | Json p => Json {| Portfolio.id := "";
                      Portfolio.asOf := if keepAsOf then Portfolio.asOf p
                                        else "";
                      Portfolio.positions := Portfolio.positions p |}
  | Error s e => Error s e
  end.

(** Whether a response is the [InvalidDate] one. *)
Definition rejectsDate {A} (r : Response A) : bool :=
  match r with
  | Json _ => false
  | Error s e => (s =? 400) && (e =? "Invalid date format")%string
  end.

(** A timestamp that [new Date(timestamp)] turns into a valid date. *)
Definition validTimestamp (r : Price.t) : Prop :=
  Z.abs (Price.timestamp r) <= Date.maxTime.

(** The world after [k] identifiers have been drawn. *)
Definition afterDraws (k : nat) (w w' : Eff.World) : Prop :=
  (forall n, Eff.entropy w' n = Eff.entropy w (k + n)%nat)
  /\ Eff.clock w' = Eff.clock w.

Module Vocab.
Section Vocabulary.

Variable parse : string -> option Z.
Variable LocalTZA : Z -> Z.
Variable historicalPrices : list Price.t.

(** No date parameter that the handler looks at fails [isValidDate]. *)
Definition datesAccepted (asOf from to : JS.QueryParam) : bool :=
  if JS.truthy from && JS.truthy to
  then isValidDate parse from && isValidDate parse to
  else if JS.truthy asOf then isValidDate parse asOf else true.

(** The value of [filteredPrices] when line 153 is reached. *)
Definition filteredCollection (ids : string) (asOf from to : JS.QueryParam)
  : list Price.t :=
  let requested :=
    filter (isRequested (JS.split "," ids)) historicalPrices in
  if JS.truthy from && JS.truthy to
  then filter (inRange (Date_of_param parse from) (Date_of_param parse to))
              requested
  else if JS.truthy asOf
       then filter (onDay LocalTZA (Date_of_param parse asOf)) requested
       else requested.

(** [entry] is what the reduction owes [assetId] over [candidates]: a
    candidate of that asset with no later one, or a placeholder when the
    asset has no candidate. *)
Definition isLatest (candidates : list Price.t) (assetId : string)
    (entry : Entry) : Prop :=
  match entry with
  | Stored r =>
      In r candidates /\ Price.asset r = assetId
      /\ forall r', In r' candidates -> Price.asset r' = assetId ->
                    Price.timestamp r' <= Price.timestamp r
  | Placeholder _ a p =>
      a = assetId /\ p = 0
      /\ forall r', In r' candidates -> Price.asset r' <> assetId
  end.

(** Two dates fall on the same calendar day, as lines 149 and 196 decide
    it. *)
Definition sameCalendarDay (a b : Date.t) : Prop :=
  toDateString LocalTZA a = toDateString LocalTZA b.

End Vocabulary.
End Vocab.
Import Vocab.

(** ** A concrete host, for examples

    A UTC host whose parser reads the ISO date-only form [YYYY-MM-DD] (UTC
    midnight of that day) and the form [YYYY-MM-DDTHH:mm:ss.sssZ] that
    [toISOString] writes, and nothing else. *)

Module Host.

Definition digit (c : ascii) : option Z :=
  let n := Z.of_nat (nat_of_ascii c) in
  if (48 <=? n) && (n <=? 57) then Some (n - 48) else None.

Fixpoint number (acc : Z) (cs : list ascii) : option Z :=
  match cs with
  | [] => Some acc
  | c :: cs' => match digit c with
                | Some d => number (10 * acc + d) cs'
                | None => None
                end
  end.

Definition ymd (y m d : list ascii) : option Z :=
  match number 0 y, number 0 m, number 0 d with
  | Some y, Some m, Some d =>
      let days := Date.days_from_civil y m d in
      match Date.civil_from_days days with
      | (y', m', d') =>
          if (y' =? y) && (m' =? m) && (d' =? d)
          then Some (days * Date.msPerDay) else None
      end
  | _, _, _ => None
  end.

Definition hms (h m s ms : list ascii) : option Z :=
  match number 0 h, number 0 m, number 0 s, number 0 ms with
  | Some h, Some m, Some s, Some ms =>
      if (h <? 24) && (m <? 60) && (s <? 60)
      then Some (((h * 60 + m) * 60 + s) * 1000 + ms) else None
  | _, _, _, _ => None
  end.

Definition parse (s : string) : option Z :=
  match list_ascii_of_string s with
  | [y1; y2; y3; y4; "-"%char; m1; m2; "-"%char; d1; d2] =>
      ymd [y1; y2; y3; y4] [m1; m2] [d1; d2]
  | [y1; y2; y3; y4; "-"%char; m1; m2; "-"%char; d1; d2; "T"%char;
     h1; h2; ":"%char; n1; n2; ":"%char; s1; s2; "."%char; f1; f2; f3;
     "Z"%char] =>
      match ymd [y1; y2; y3; y4] [m1; m2] [d1; d2],
            hms [h1; h2] [n1; n2] [s1; s2] [f1; f2; f3] with
      | Some day, Some time => Some (day + time)
      | _, _ => None
      end
  | _ => None
  end.

Definition LocalTZA (tv : Z) : Z := 0.

(** A generator handing out [id-0], [id-1], ... *)
Definition counter (n : nat) : string :=
  "id-" ++ NilZero.string_of_uint (Nat.to_uint n).

Definition world (time : Z) : Eff.World :=
  {| Eff.entropy := counter; Eff.clock := time |}.

Definition bitcoin_0108 : Price.t :=
  {| Price.id := "p1"; Price.asset := "Bitcoin"; Price.price := 16950;
     Price.timestamp := 1673136000000 |}.
Definition bitcoin_0108_noon : Price.t :=
  {| Price.id := "p2"; Price.asset := "Bitcoin"; Price.price := 17010;
     Price.timestamp := 1673179200000 |}.
Definition bitcoin_0115 : Price.t :=
  {| Price.id := "p3"; Price.asset := "Bitcoin"; Price.price := 20880;
     Price.timestamp := 1673740800000 |}.
Definition ethereum_0108 : Price.t :=
  {| Price.id := "p4"; Price.asset := "Ethereum"; Price.price := 1290;
     Price.timestamp := 1673136000000 |}.

Definition historicalPrices : list Price.t :=
  [bitcoin_0108; bitcoin_0108_noon; bitcoin_0115; ethereum_0108].

Definition position_1 : Position.t :=
  {| Position.id := 1; Position.asset := "a-1"; Position.quantity := 10;
     Position.asOf := "2024-06-15T00:00:00.000Z"; Position.price := 3 |}.
Definition position_2 : Position.t :=
  {| Position.id := 2; Position.asset := "a-1"; Position.quantity := 12;
     Position.asOf := "2024-06-16T00:00:00.000Z"; Position.price := 4 |}.
Definition position_3 : Position.t :=
  {| Position.id := 3; Position.asset := "a-2"; Position.quantity := 7;
     Position.asOf := "2024-06-15T17:45:10.250Z"; Position.price := 9 |}.

Definition positions : list Position.t := [position_1; position_2; position_3].

Definition queryPrices := queryPrices parse LocalTZA historicalPrices.
Definition queryPortfolio := queryPortfolio parse LocalTZA positions.

End Host.

(** ** Vocabulary of the further properties *)

(** The entries a response carries; an error carries none. *)
Definition responseEntries (r : Response (list Entry)) : list Entry :=
  match r with
  | Json l => l
  | Error _ _ => []
  end.

(** [sep] does not occur in [s]. *)
Definition sepFree (sep : ascii) (s : string) : Prop :=
  ~ In sep (list_ascii_of_string s).

Module Further.
Section FurtherVocabulary.

Variable parse : string -> option Z.
Variable LocalTZA : Z -> Z.

(** The callback of the date filter that runs before line 153, whichever
    branch of lines 124-151 it comes from; no filter when neither runs. *)
Definition dateFilter (asOf from to : JS.QueryParam) (price : Price.t)
  : bool :=
  if JS.truthy from && JS.truthy to
  then inRange (Date_of_param parse from) (Date_of_param parse to) price
  else if JS.truthy asOf
       then onDay LocalTZA (Date_of_param parse asOf) price
       else true.

(** A stored entry is, among the candidates of its asset, the first in
    array order of those with the greatest timestamp. *)
Definition isFirstLatest (candidates : list Price.t) (assetId : string)
    (entry : Entry) : Prop :=
  match entry with
  | Stored r =>
      exists earlier later,
        filter (fun p => (Price.asset p =? assetId)%string) candidates
        = (earlier ++ r :: later)%list
        /\ (forall r', In r' earlier ->
                       Price.timestamp r' < Price.timestamp r)
        /\ (forall r', In r' later ->
                       Price.timestamp r' <= Price.timestamp r)
  | Placeholder _ _ _ => True
  end.

End FurtherVocabulary.
End Further.
Import Further.

(** A store in which two Bitcoin records share the latest timestamp. *)
Module HostTies.

Definition bitcoin_0108_again : Price.t :=
  {| Price.id := "p5"; Price.asset := "Bitcoin"; Price.price := 16999;
     Price.timestamp := 1673136000000 |}.

Definition historicalPrices : list Price.t :=
  [Host.ethereum_0108; Host.bitcoin_0108; bitcoin_0108_again].

End HostTies.

(** ** The Date methods of the generators *)

Module DateObj.
Section LocalTimeMethods.

(** The offset of local time from UTC, seen from an instant and seen from a
    local time value: LocalTZA(t, true) and LocalTZA(t, false). *)
Variable LocalTZA : Z -> Z.
Variable LocalTZA_of_local : Z -> Z.

(** UTC(t) *)
Definition UTC (t : Z) : Z := t - LocalTZA_of_local t.

(** MakeDay(year, month, date), the month counted from 0 and carried into
    the year, the date counted on from the first of the month. *)
Definition MakeDay (year month date : Z) : Z :=
  Date.days_from_civil (year + month / 12) (month mod 12 + 1) 1 + date - 1.

(** MakeDate(day, time) *)
Definition MakeDate (day time : Z) : Z := day * Date.msPerDay + time.

(** [date.getTime()], [date.getDate()] and [date.getMonth()]: NaN on an
    invalid date. *)
Definition getTime (d : Date.t) : option Z := d.

Definition getDate (d : Date.t) : option Z :=
  match d with
  | Some t => Some (Date.DateFromTime (Date.LocalTime LocalTZA t))
  | None => None
  end.

Definition getMonth (d : Date.t) : option Z :=
  match d with
  | Some t => Some (Date.MonthFromTime (Date.LocalTime LocalTZA t) - 1)
  | None => None
  end.

(** [date.setDate(dt)]: the date after the call. *)
Definition setDate (d : Date.t) (dt : option Z) : Date.t :=
  match d, dt with
  | Some t, Some dt =>
      let t := Date.LocalTime LocalTZA t in
      let newDate :=
        MakeDate (MakeDay (Date.YearFromTime t) (Date.MonthFromTime t - 1) dt)
                 (Date.TimeWithinDay t) in
      Date.TimeClip (UTC newDate)
  | _, _ => None
  end.

(** [date.setMonth(month)]: the date after the call. *)
Definition setMonth (d : Date.t) (month : option Z) : Date.t :=
  match d, month with
  | Some t, Some m =>
      let t := Date.LocalTime LocalTZA t in
      let newDate :=
        MakeDate (MakeDay (Date.YearFromTime t) m (Date.DateFromTime t))
                 (Date.TimeWithinDay t) in
      Date.TimeClip (UTC newDate)
  | _, _ => None
  end.

(** [x + k] on numbers, NaN staying NaN. *)
Definition plus (x : option Z) (k : Z) : option Z :=
  match x with
  | Some v => Some (v + k)
  | None => None
  end.

End LocalTimeMethods.

(** The date part of the ISO form of a day number: the text before the
    [T] of [toISOString]. *)
Definition isoDateString (day : Z) : string :=
  match JS.split "T" (Date.toISOString (day * Date.msPerDay)) with
  | piece :: _ => piece
  | [] => EmptyString
  end.

End DateObj.

(** ** The startup code *)

Module Asset.
(** An element of [assets]. *)
Record t := { id : string; name : string; type : string }.
End Asset.

(** What the module-level code draws on while it runs: the identifiers of
    [uuidv4()], the doubles of [Math.random()] and the successive readings
    of the clock by [new Date()]. *)
Module Boot.
Section Effects.

(** The doubles, kept abstract. *)
Variable F : Type.

Record World :=
  { uuids : nat -> string; randoms : nat -> F; readings : nat -> Z }.

(** A run returns, throws, or has not finished within its fuel. *)
Inductive Outcome (A : Type) :=
| Returns (a : A) (w : World)
| Throws (error : string)
| Unfinished.
Arguments Returns {A} a w.
Arguments Throws {A} error.
Arguments Unfinished {A}.

Definition M (A : Type) : Type := World -> Outcome A.

Definition ret {A} (a : A) : M A := fun w => Returns a w.

Definition bind {A B} (m : M A) (k : A -> M B) : M B :=
  fun w => match m w with
           | Returns a w' => k a w'
           | Throws e => Throws e
           | Unfinished => Unfinished
           end.

Definition throw {A} (error : string) : M A := fun _ => Throws error.

Definition unfinished {A} : M A := fun _ => Unfinished.

(** [uuidv4()] *)
Definition uuidv4 : M string :=
  fun w => Returns (uuids w O)
                   {| uuids := fun n => uuids w (S n);
                      randoms := randoms w; readings := readings w |}.

(** [Math.random()] *)
Definition random : M F :=
  fun w => Returns (randoms w O)
                   {| uuids := uuids w;
                      randoms := fun n => randoms w (S n);
                      readings := readings w |}.

(** [new Date()] *)
Definition newDate : M Date.t :=
  fun w => Returns (Some (readings w O))
                   {| uuids := uuids w; randoms := randoms w;
                      readings := fun n => readings w (S n) |}.

End Effects.
End Boot.

Arguments Boot.Returns {F A} a w.
Arguments Boot.Throws {F A} error.
Arguments Boot.Unfinished {F A}.
Arguments Boot.ret {F A} a.
Arguments Boot.bind {F A B} m k.
Arguments Boot.throw {F A} error.
Arguments Boot.unfinished {F A}.
Arguments Boot.uuidv4 {F}.
Arguments Boot.random {F}.
Arguments Boot.newDate {F}.

Notation "x <~ m ;; k" := (Boot.bind m (fun x => k))
  (at level 61, m at next level, right associativity).

Module Startup.
Section Generators.

Variable parse : string -> option Z.
Variable LocalTZA : Z -> Z.
Variable LocalTZA_of_local : Z -> Z.

(** The doubles and the operations the generators use on them: the double
    of an integer literal, [*], [+], and [Math.floor] read as an integer. *)
Variable F : Type.
Variable F_of_Z : Z -> F.
Variable F_mul : F -> F -> F.
Variable F_add : F -> F -> F.
Variable F_floor : F -> Z.

Local Abbreviation M := (Boot.M F).
Local Abbreviation getDate := (DateObj.getDate LocalTZA).
Local Abbreviation getMonth := (DateObj.getMonth LocalTZA).
Local Abbreviation setDate := (DateObj.setDate LocalTZA LocalTZA_of_local).
Local Abbreviation setMonth := (DateObj.setMonth LocalTZA LocalTZA_of_local).

(** Lines 20-27: the array literal, its six [uuidv4()] calls in order. *)
Definition assets : M (list Asset.t) :=
  id1 <~ Boot.uuidv4 ;; id2 <~ Boot.uuidv4 ;; id3 <~ Boot.uuidv4 ;;
  id4 <~ Boot.uuidv4 ;; id5 <~ Boot.uuidv4 ;; id6 <~ Boot.uuidv4 ;;
  Boot.ret
    [ {| Asset.id := id1; Asset.name := "Bitcoin"; Asset.type := "crypto" |};
      {| Asset.id := id2; Asset.name := "Ethereum"; Asset.type := "crypto" |};
      {| Asset.id := id3; Asset.name := "Apple Inc."; Asset.type := "stock" |};
      {| Asset.id := id4; Asset.name := "Google"; Asset.type := "stock" |};
      {| Asset.id := id5; Asset.name := "US Dollar"; Asset.type := "fiat" |};
      {| Asset.id := id6; Asset.name := "British Pound";
         Asset.type := "fiat" |} ].

(** [date.toISOString()], which throws on an invalid date. *)
Definition toISOString (d : Date.t) : M string :=
  match d with
  | Some t => Boot.ret (Date.toISOString t)
  | None => Boot.throw "RangeError: Invalid time value"
  end.

(** [date.toISOString().split('T')[0]] *)
Definition isoDay (d : Date.t) : M string :=
  iso <~ toISOString d ;;
  Boot.ret match JS.split "T" iso with
           | piece :: _ => piece
           | [] => EmptyString
           end.

(** The [while] loop of lines 44-53, for one asset; [fuel] bounds the
    number of tests of its condition. *)
Fixpoint weekly (fuel : nat) (price : F) (endDate : Date.t)
    (asset : Asset.t) (currentDate : Date.t) (prices : list Price.t)
  : M (list Price.t) :=
  match fuel with
  | O => Boot.unfinished
  | S fuel' =>
      match currentDate with
      | Some time =>
          if Date.leb currentDate endDate then
            r <~ Boot.random ;;
            let newPrice := F_add price (F_mul r (F_of_Z 1000)) in
            id <~ Boot.uuidv4 ;;
            let prices :=
              (prices ++ [ {| Price.id := id;
                              Price.asset := Asset.name asset;
                              Price.price := F_floor newPrice;
                              Price.timestamp := time |} ])%list in
            weekly fuel' price endDate asset
                   (setDate currentDate
                            (DateObj.plus (getDate currentDate) 7))
                   prices
          else Boot.ret prices
      | None => Boot.ret prices
      end
  end.

(** The [for ... of assets] loop of lines 42-54. *)
Fixpoint forAssets (fuel : nat) (price : F) (startDate endDate : Date.t)
    (assets : list Asset.t) (prices : list Price.t) : M (list Price.t) :=
  match assets with
  | [] => Boot.ret prices
  | asset :: rest =>
      prices <~ weekly fuel price endDate asset startDate prices ;;
      forAssets fuel price startDate endDate rest prices
  end.

(** Lines 36-56. *)
Definition generateHistoricalPrices (fuel : nat) (assets : list Asset.t)
  : M (list Price.t) :=
  let startDate := Date_of_string parse "2023-01-01" in
  endDate <~ Boot.newDate ;;
  r <~ Boot.random ;;
  let price := F_mul r (F_of_Z 10000) in
  forAssets fuel price startDate endDate assets [].

(** The callback of [assets.forEach], lines 72-81, over the whole array:
    [index] and [positions] are the variables it updates. *)
Fixpoint forEachAsset (date : Date.t) (assets : list Asset.t) (index : Z)
    (positions : list Position.t) : M (Z * list Position.t) :=
  match assets with
  | [] => Boot.ret (index, positions)
  | asset :: rest =>
      q <~ Boot.random ;;
      asOf <~ toISOString date ;;
      p <~ Boot.random ;;
      let position :=
        {| Position.id := index;
           Position.asset := Asset.id asset;
           Position.quantity := F_floor (F_mul q (F_of_Z 100)) + 1;
           Position.asOf := asOf;
           Position.price := F_floor (F_mul p (F_of_Z 10)) + 1 |} in
      forEachAsset date rest (index + 1) (positions ++ [position])%list
  end.

(** The [do ... while] loop of lines 70-84; [fuel] bounds the number of
    runs of its body. *)
Fixpoint daily (fuel : nat) (endDate : string) (assets : list Asset.t)
    (currentDate : string) (index : Z) (positions : list Position.t)
  : M (list Position.t) :=
  match fuel with
  | O => Boot.unfinished
  | S fuel' =>
      let date := Date_of_string parse currentDate in
      state <~ forEachAsset date assets index positions ;;
      let date := setDate date (DateObj.plus (getDate date) 1) in
      currentDate <~ isoDay date ;;
      if (negb (currentDate =? endDate))%string
      then daily fuel' endDate assets currentDate (fst state) (snd state)
      else Boot.ret (snd state)
  end.

(** Lines 61-87. *)
Definition generatePositionsForTheMonth (fuel : nat) (assets : list Asset.t)
  : M (list Position.t) :=
  today <~ Boot.newDate ;;
  endDate <~ isoDay today ;;
  startDate <~ Boot.newDate ;;
  let startDate :=
    setMonth startDate (DateObj.plus (getMonth startDate) (-1)) in
  currentDate <~ isoDay startDate ;;
  daily fuel endDate assets currentDate 1 [].

(** Lines 20-90: the three module-level constants, in the order the module
    computes them. *)
Definition startup (fuel : nat)
  : M (list Asset.t * list Price.t * list Position.t) :=
  assets <~ assets ;;
  historicalPrices <~ generateHistoricalPrices fuel assets ;;
  positions <~ generatePositionsForTheMonth fuel assets ;;
  Boot.ret (assets, historicalPrices, positions).

End Generators.
End Startup.

(** ** Vocabulary of the statements about the startup code *)

Module Gen.

Definition msPerWeek : Z := 7 * Date.msPerDay.

(** The time value of [new Date('2023-01-01')], an ISO date read as UTC. *)
Definition firstWeek : Z := 1672531200000.

(** How many of [t], [t] + 7 days, [t] + 14 days, ... are not after [e]. *)
Definition weeksUntil (t e : Z) : nat := Z.to_nat ((e - t) / msPerWeek + 1).

(** How many days [setMonth(getMonth() - 1)] takes an instant back, on a
    host at a fixed [offset] from UTC. *)
Definition monthBack (offset t : Z) : Z :=
  let l := t + offset in
  Date.Day l
  - DateObj.MakeDay (Date.YearFromTime l) (Date.MonthFromTime l - 2)
                    (Date.DateFromTime l).

(** The text of [toISOString] before its [T], for a day number. *)
Definition datePart (day : Z) : string :=
  let y := fst (fst (Date.civil_from_days day)) in
  ((if ((0 <=? y) && (y <=? 9999))%Z then Date.padded y 4
    else (if (y <? 0)%Z then "-" else "+") ++ Date.padded (Z.abs y) 6)
     ++ "-" ++ Date.padded (snd (fst (Date.civil_from_days day))) 2
     ++ "-" ++ Date.padded (snd (Date.civil_from_days day)) 2)%string.

Section Streams.
Variable F : Type.

(** [w'] is [w] after [i] identifiers, [j] doubles and [r] clock readings
    have been taken. *)
Definition drawn (i j r : nat) (w w' : Boot.World F) : Prop :=
  (forall n, Boot.uuids w' n = Boot.uuids w (i + n)%nat)
  /\ (forall n, Boot.randoms w' n = Boot.randoms w (j + n)%nat)
  /\ (forall n, Boot.readings w' n = Boot.readings w (r + n)%nat).

End Streams.

End Gen.

Module GenForms.
Section Forms.

Variable F : Type.
Variable F_of_Z : Z -> F.
Variable F_mul : F -> F -> F.
Variable F_add : F -> F -> F.
Variable F_floor : F -> Z.

(** The record pushed for [asset] in week [k] counted from [t], when its
    identifier and its double are the draws number [at + k] of [w]. *)
Definition weekRecord (price : F) (asset : Asset.t) (w : Boot.World F)
    (t : Z) (at_ k : nat) : Price.t :=
  {| Price.id := Boot.uuids w (at_ + k)%nat;
     Price.asset := Asset.name asset;
     Price.price :=
       F_floor (F_add price
                      (F_mul (Boot.randoms w (at_ + k)%nat) (F_of_Z 1000)));
     Price.timestamp := t + Z.of_nat k * Gen.msPerWeek |}.

(** The records of [n] weeks for each asset in turn, the draws counted on
    from [at_]. *)
Fixpoint weekBlocks (price : F) (w : Boot.World F) (t : Z) (n : nat)
    (assets : list Asset.t) (at_ : nat) : list Price.t :=
  match assets with
  | [] => []
  | asset :: rest =>
      (map (weekRecord price asset w t at_) (seq 0 n)
       ++ weekBlocks price w t n rest (at_ + n)%nat)%list
  end.

(** The position pushed for the asset number [i] on [day], [at_] positions
    having been pushed before that day's. *)
Definition dayPosition (w : Boot.World F) (day : Z) (at_ : nat)
    (i : nat) (asset : Asset.t) : Position.t :=
  {| Position.id := 1 + Z.of_nat (at_ + i);
     Position.asset := Asset.id asset;
     Position.quantity :=
       F_floor (F_mul (Boot.randoms w (2 * (at_ + i))%nat) (F_of_Z 100)) + 1;
     Position.asOf := Date.toISOString (day * Date.msPerDay);
     Position.price :=
       F_floor (F_mul (Boot.randoms w (2 * (at_ + i) + 1)%nat) (F_of_Z 10))
       + 1 |}.

(** [f 0 a0; f 1 a1; ...] *)
Fixpoint mapi {A B} (f : nat -> A -> B) (i : nat) (l : list A) : list B :=
  match l with
  | [] => []
  | a :: rest => f i a :: mapi f (S i) rest
  end.

(** The positions of [n] days from [day] on, [at_] positions having been
    pushed before. *)
Fixpoint dayBlocks (w : Boot.World F) (assets : list Asset.t) (day : Z)
    (n : nat) (at_ : nat) : list Position.t :=
  match n with
  | O => []
  | S n' =>
      (mapi (dayPosition w day at_) 0 assets
       ++ dayBlocks w assets (day + 1) n' (at_ + List.length assets)%nat)%list
  end.

End Forms.
End GenForms.

(** ** A concrete host for the startup code

    The UTC host of the examples, with doubles that are exact: rationals,
    on which [*], [+] and [Math.floor] agree with the doubles as long as no
    rounding occurs, as with the dyadic draws below. *)

Module HostBoot.

Definition F : Type := QArith_base.Q.
Definition F_of_Z : Z -> F := QArith_base.inject_Z.
Definition F_mul : F -> F -> F := QArith_base.Qmult.
Definition F_add : F -> F -> F := QArith_base.Qplus.
Definition F_floor : F -> Z := Qround.Qfloor.

Definition LocalTZA_of_local (t : Z) : Z := 0.

(** [Math.random()] handing out 0, 1/4, 1/2, 3/4, 0, ... *)
Definition quarters (n : nat) : F :=
  QArith_base.Qmake (Z.of_nat (n mod 4)) 4.

(** A world whose clock reads [time], then a millisecond more at each
    reading. *)
Definition world (time : Z) : Boot.World F :=
  {| Boot.uuids := Host.counter;
     Boot.randoms := quarters;
     Boot.readings := fun n => time + Z.of_nat n |}.

Definition assets := Startup.assets (F := F).
Definition generateHistoricalPrices :=
  Startup.generateHistoricalPrices Host.parse Host.LocalTZA
    LocalTZA_of_local F_of_Z F_mul F_add F_floor.
Definition generatePositionsForTheMonth :=
  Startup.generatePositionsForTheMonth Host.parse Host.LocalTZA
    LocalTZA_of_local F_of_Z F_mul F_floor.

Definition twoAssets : list Asset.t :=
  [ {| Asset.id := "a-1"; Asset.name := "Bitcoin"; Asset.type := "crypto" |};
    {| Asset.id := "a-2"; Asset.name := "Google"; Asset.type := "stock" |} ].

End HostBoot.

(** ** A host on Paris time in the spring of 2024

    One hour ahead of UTC until 2024-03-31T01:00Z, two hours from then on;
    a local time in the skipped hour is read with the offset before it. *)

Module HostParis.

Definition springForward : Z := 1711846800000.

Definition LocalTZA (t : Z) : Z :=
  if t <? springForward then 3600000 else 7200000.

Definition LocalTZA_of_local (t : Z) : Z :=
  if t <? springForward + 7200000 then 3600000 else 7200000.

Definition daily :=
  Startup.daily Host.parse LocalTZA LocalTZA_of_local
    HostBoot.F_of_Z HostBoot.F_mul HostBoot.F_floor.
Definition generatePositionsForTheMonth :=
  Startup.generatePositionsForTheMonth Host.parse LocalTZA LocalTZA_of_local
    HostBoot.F_of_Z HostBoot.F_mul HostBoot.F_floor.

End HostParis.

(** ** Vocabulary of the statements about calendar days *)

Module LocalDay.
Section LocalDays.

Variable LocalTZA : Z -> Z.

(** The number of the local calendar day of a date, none for an invalid
    one. *)
Definition of_date (d : Date.t) : option Z :=
  match d with
  | Some tv => Some (Date.Day (Date.LocalTime LocalTZA tv))
  | None => None
  end.

(** Both dates are invalid, or both are valid and of the same local day. *)
Definition same (a b : Date.t) : bool :=
  match of_date a, of_date b with
  | Some x, Some y => x =? y
  | None, None => true
  | _, _ => false
  end.

End LocalDays.
End LocalDay.

(** * Facts about the platform model *)

Module SortFacts.
Section Generic.
Variable A : Type.
Variable cmp : A -> A -> option Z.

Lemma insert_In (x y : A) (l : list A) :
  In y (JS.insert cmp x l) <-> y = x \/ In y l.
Proof.
  induction l as [|z l IH]; simpl.
  - intuition.
  - destruct (JS.comes_after cmp x z); simpl; rewrite ?IH; intuition.
Qed.

Lemma sort_In (y : A) (l : list A) : In y (JS.sort cmp l) <-> In y l.
Proof.
  induction l as [|x l IH]; simpl; [tauto|].
  rewrite insert_In, IH. intuition.
Qed.

Lemma sort_nil_inv (l : list A) : JS.sort cmp l = [] -> l = [].
Proof.
  destruct l as [|x l]; [reflexivity|]. intros E.
  assert (H : In x (JS.sort cmp (x :: l))) by (apply sort_In; now left).
  rewrite E in H. destruct H.
Qed.

(** With a comparator that is the difference of two keys, the sorted
    array starts with an element of greatest key. *)
Variable key : A -> Z.

Lemma sort_head_max (l : list A) :
  (forall y z, In y l -> In z l -> cmp y z = Some (key z - key y)) ->
  forall h t, JS.sort cmp l = h :: t ->
  forall y, In y l -> key y <= key h.
Proof.
  induction l as [|x l IH]; intros Hcmp h t E y Hy; [destruct Hy|].
  simpl in E.
  assert (Hcmp' : forall y z, In y l -> In z l ->
                              cmp y z = Some (key z - key y))
    by (intros; apply Hcmp; now right).
  destruct (JS.sort cmp l) as [|h' t'] eqn:Es.
  - apply sort_nil_inv in Es. subst l. simpl in E.
    injection E as <- _. destruct Hy as [->|[]]. lia.
  - specialize (IH Hcmp' h' t' eq_refl).
    assert (Hh' : In h' l) by (apply sort_In; rewrite Es; now left).
    simpl in E. unfold JS.comes_after in E.
    rewrite (Hcmp x h') in E by (simpl; auto).
    destruct (0 <? key h' - key x) eqn:Hlt; injection E as <- _.
    + apply Z.ltb_lt in Hlt.
      destruct Hy as [->|Hy]; [lia | now apply IH].
    + apply Z.ltb_ge in Hlt.
      destruct Hy as [->|Hy]; [lia|]. specialize (IH y Hy). lia.
Qed.
End Generic.
End SortFacts.

Module DateFacts.

Lemma TimeClip_Some (n tv : Z) :
  Date.TimeClip n = Some tv -> tv = n /\ Z.abs n <= Date.maxTime.
Proof.
  unfold Date.TimeClip. destruct (Z.abs n <=? Date.maxTime) eqn:E.
  - intros [= <-]. apply Z.leb_le in E. auto.
  - discriminate.
Qed.

Lemma TimeClip_value (n : Z) :
  Z.abs n <= Date.maxTime -> Date.TimeClip n = Some n.
Proof.
  intros H. unfold Date.TimeClip.
  apply Z.leb_le in H. now rewrite H.
Qed.

(** [toDateString] of a valid date never reads "Invalid Date": it starts
    with the name of a weekday. *)
Lemma DateString_not_Invalid (tv : Z) : Date.DateString tv <> "Invalid Date".
Proof.
  unfold Date.DateString, Date.weekdayName.
  repeat match goal with
         | |- context [if ?b then _ else _] =>
             lazymatch b with
             | (_ =? _)%Z => destruct b
             end
         end; simpl; discriminate.
Qed.

Lemma toDateString_valid (tza : Z -> Z) (d : Date.t) (tv : Z) :
  Date.toDateString tza d = Date.toDateString tza (Some tv) ->
  exists dv, d = Some dv.
Proof.
  destruct d as [dv|]; [eauto|]. simpl. intros E.
  symmetry in E. now apply DateString_not_Invalid in E.
Qed.

(** The time of day plays no part in [toDateString]: two instants on the
    same local day number render alike. *)
Lemma toDateString_same_Day (tza : Z -> Z) (a b : Z) :
  Date.Day (Date.LocalTime tza a) = Date.Day (Date.LocalTime tza b) ->
  Date.toDateString tza (Some a) = Date.toDateString tza (Some b).
Proof.
  intros E. simpl.
  unfold Date.DateString, Date.YearFromTime, Date.MonthFromTime,
    Date.DateFromTime, Date.WeekDay.
  now rewrite E.
Qed.

End DateFacts.

Module EffFacts.

Lemma mapM_Forall2 {A B} (R : A -> B -> Prop) (f : A -> Eff.M B) :
  (forall a w, R a (fst (f a w))) ->
  forall l w, Forall2 R l (fst (Eff.mapM f l w)).
Proof.
  intros Hf. induction l as [|a l IH]; intros w; simpl.
  - constructor.
  - unfold Eff.bind, Eff.ret. specialize (Hf a w).
    destruct (f a w) as [b w1]. specialize (IH w1).
    destruct (Eff.mapM f l w1) as [bs w2]. simpl in *.
    now constructor.
Qed.

(** What a callback's result shows through [g] does not depend on the
    world: then neither does what the mapped array shows. *)
Lemma mapM_oblivious {A B C} (g : B -> C) (f : A -> Eff.M B) :
  (forall a w1 w2, g (fst (f a w1)) = g (fst (f a w2))) ->
  forall l w1 w2,
    map g (fst (Eff.mapM f l w1)) = map g (fst (Eff.mapM f l w2)).
Proof.
  intros Hf. induction l as [|a l IH]; intros w1 w2; simpl; [reflexivity|].
  unfold Eff.bind, Eff.ret. specialize (Hf a w1 w2).
  destruct (f a w1) as [b1 u1], (f a w2) as [b2 u2].
  specialize (IH u1 u2).
  destruct (Eff.mapM f l u1) as [bs1 v1], (Eff.mapM f l u2) as [bs2 v2].
  simpl in *. now rewrite Hf, IH.
Qed.

Lemma afterDraws_0 (w : Eff.World) : afterDraws 0 w w.
Proof. split; auto. Qed.

End EffFacts.

(** * Facts about the handlers *)

Section HandlerFacts.

Variable parse : string -> option Z.
Variable LocalTZA : Z -> Z.
Variable historicalPrices : list Price.t.
Variable positions : list Position.t.

Local Abbreviation queryPrices :=
  (Server.queryPrices parse LocalTZA historicalPrices).
Local Abbreviation queryPortfolio :=
  (Server.queryPortfolio parse LocalTZA positions).
Local Abbreviation filteredCollection :=
  (Vocab.filteredCollection parse LocalTZA historicalPrices).
Local Abbreviation datesAccepted := (Vocab.datesAccepted parse).
Local Abbreviation isValidDate := (Server.isValidDate parse).
Local Abbreviation Date_of_param := (Server.Date_of_param parse).

Lemma isValidDate_value (p : JS.QueryParam) :
  isValidDate p = true -> exists tv, Date_of_param p = Some tv.
Proof.
  unfold Server.isValidDate, Date.valid.
  destruct (Date_of_param p) as [tv|]; [eauto | discriminate].
Qed.

Lemma eqb_empty_false (ids : string) : ids <> "" -> (ids =? "")%string = false.
Proof. intros H. now apply String.eqb_neq. Qed.

(** ** The filters *)

Lemma inRange_bounds (f t : Z) (r : Price.t) :
  inRange (Some f) (Some t) r = true ->
  f <= Price.timestamp r <= t /\ validTimestamp r.
Proof.
  unfold inRange, Date.of_number. intros H.
  destruct (Date.TimeClip (Price.timestamp r)) as [tv|] eqn:E;
    [|discriminate].
  apply DateFacts.TimeClip_Some in E as [-> Hv]. simpl in H.
  apply andb_true_iff in H as [H1 H2].
  apply Z.leb_le in H1, H2. unfold validTimestamp. lia.
Qed.

Lemma inRange_complete (f t : Z) (r : Price.t) :
  Z.abs f <= Date.maxTime -> Z.abs t <= Date.maxTime ->
  f <= Price.timestamp r <= t ->
  inRange (Some f) (Some t) r = true.
Proof.
  intros Hf Ht Hr. unfold inRange, Date.of_number.
  rewrite DateFacts.TimeClip_value by lia. simpl.
  apply andb_true_iff. split; apply Z.leb_le; lia.
Qed.

Lemma onDay_valid (tv : Z) (r : Price.t) :
  onDay LocalTZA (Some tv) r = true -> validTimestamp r.
Proof.
  unfold onDay, toDateString. intros H. apply String.eqb_eq in H.
  apply DateFacts.toDateString_valid in H as [dv E].
  unfold Date.of_number in E.
  now apply DateFacts.TimeClip_Some in E as [_ Hv].
Qed.

(** ** The dispatch of [GET /prices] *)

Lemma queryPrices_accepted (ids : string) (asOf from to : JS.QueryParam) :
  ids <> "" -> datesAccepted asOf from to = true ->
  queryPrices (Some ids) asOf from to
  = respondPrices asOf (JS.split "," ids)
                  (filteredCollection ids asOf from to).
Proof.
  intros Hids Hd.
  unfold Server.queryPrices, Vocab.filteredCollection,
    Vocab.datesAccepted in *.
  rewrite (eqb_empty_false Hids).
  destruct (JS.truthy from && JS.truthy to).
  - apply andb_true_iff in Hd as [-> ->]. reflexivity.
  - destruct (JS.truthy asOf); [rewrite Hd|]; reflexivity.
Qed.

Lemma queryPrices_rejected (ids : string) (asOf from to : JS.QueryParam) :
  ids <> "" -> datesAccepted asOf from to = false ->
  queryPrices (Some ids) asOf from to = Eff.ret InvalidDate.
Proof.
  intros Hids Hd.
  unfold Server.queryPrices, Vocab.datesAccepted in *.
  rewrite (eqb_empty_false Hids).
  destruct (JS.truthy from && JS.truthy to).
  - apply andb_false_iff in Hd as [-> | ->]; simpl;
      rewrite ?orb_true_r; reflexivity.
  - destruct (JS.truthy asOf); [rewrite Hd; reflexivity | discriminate].
Qed.

(** Whenever the reduction runs, it runs over records with valid
    timestamps: both date filters drop the others. *)
Lemma reduced_candidates_valid (ids : string) (asOf from to : JS.QueryParam) :
  JS.truthy asOf = true -> datesAccepted asOf from to = true ->
  Forall validTimestamp (filteredCollection ids asOf from to).
Proof.
  intros Ha Hd.
  unfold Vocab.filteredCollection, Vocab.datesAccepted in *.
  apply Forall_forall. intros r Hr.
  destruct (JS.truthy from && JS.truthy to).
  - apply andb_true_iff in Hd as [Hf Ht].
    apply isValidDate_value in Hf as [f Hf], Ht as [t Ht].
    rewrite Hf, Ht in Hr. apply filter_In in Hr as [_ Hr].
    now apply inRange_bounds in Hr.
  - rewrite Ha in *. apply isValidDate_value in Hd as [a Hd].
    rewrite Hd in Hr. apply filter_In in Hr as [_ Hr].
    now apply onDay_valid in Hr.
Qed.

(** ** The reduction *)

Lemma byTimestampDesc_valid (y z : Price.t) :
  validTimestamp y -> validTimestamp z ->
  byTimestampDesc y z = Some (Price.timestamp z - Price.timestamp y).
Proof.
  unfold byTimestampDesc, Date.of_number, validTimestamp. intros Hy Hz.
  now rewrite !DateFacts.TimeClip_value.
Qed.

Lemma latestPrice_isLatest (candidates : list Price.t) (assetId : string)
    (w : Eff.World) :
  Forall validTimestamp candidates ->
  isLatest candidates assetId (fst (latestPrice candidates assetId w)).
Proof.
  intros Hv. rewrite Forall_forall in Hv. unfold latestPrice.
  set (mine := filter _ candidates).
  assert (Hmine : forall r, In r mine <->
                            In r candidates /\ Price.asset r = assetId).
  { intros r. unfold mine. rewrite filter_In, String.eqb_eq. tauto. }
  destruct (JS.sort byTimestampDesc mine) as [|first rest] eqn:Es; simpl.
  - apply SortFacts.sort_nil_inv in Es.
    repeat split. intros r' Hin Hasset.
    assert (H : In r' mine) by (apply Hmine; auto).
    rewrite Es in H. destruct H.
  - assert (Hfirst : In first mine)
      by (apply (SortFacts.sort_In byTimestampDesc); rewrite Es; now left).
    apply Hmine in Hfirst as Hf. destruct Hf as [Hin Hasset].
    repeat split; auto. intros r' Hin' Hasset'.
    apply (@SortFacts.sort_head_max _ byTimestampDesc Price.timestamp mine)
      with (t := rest); auto.
    + intros y z Hy Hz. apply Hmine in Hy as [Hy _], Hz as [Hz _].
      apply byTimestampDesc_valid; auto.
    + apply Hmine; auto.
Qed.

Lemma latestPrice_asset (candidates : list Price.t) (assetId : string)
    (w : Eff.World) :
  entryAsset (fst (latestPrice candidates assetId w)) = assetId.
Proof.
  unfold latestPrice.
  destruct (JS.sort byTimestampDesc _) as [|first rest] eqn:Es; simpl;
    [reflexivity|].
  assert (H : In first (first :: rest)) by now left.
  rewrite <- Es in H. apply SortFacts.sort_In in H.
  apply filter_In in H as [_ H]. now apply String.eqb_eq in H.
Qed.

Lemma latestPrice_oblivious (candidates : list Price.t) (assetId : string)
    (w1 w2 : Eff.World) :
  anonymise (fst (latestPrice candidates assetId w1))
  = anonymise (fst (latestPrice candidates assetId w2)).
Proof.
  unfold latestPrice.
  now destruct (JS.sort byTimestampDesc _).
Qed.

Lemma latestPrice_run (candidates : list Price.t) (assetId : string)
    (w : Eff.World) :
  (exists r, latestPrice candidates assetId w = (Stored r, w))
  \/ latestPrice candidates assetId w
     = (Placeholder (Eff.entropy w 0%nat) assetId 0,
        {| Eff.entropy := fun n => Eff.entropy w (S n);
           Eff.clock := Eff.clock w |}).
Proof.
  unfold latestPrice.
  destruct (JS.sort byTimestampDesc _) as [|first rest].
  - right. reflexivity.
  - left. exists first. reflexivity.
Qed.

(** The placeholders of one reduction carry the identifiers the generator
    hands out during it, one draw each, in order. *)
Lemma latestPrices_draws (candidates : list Price.t) (l : list string) :
  forall w out w',
    Eff.mapM (latestPrice candidates) l w = (out, w') ->
    let k := List.length (placeholderIds out) in
    placeholderIds out = map (Eff.entropy w) (seq 0 k)
    /\ afterDraws k w w'.
Proof.
  induction l as [|a l IH]; intros w out w' E; simpl in E.
  - injection E as <- <-. split; [reflexivity | apply EffFacts.afterDraws_0].
  - unfold Eff.bind, Eff.ret in E.
    destruct (latestPrice_run candidates a w) as [[r Er] | Er];
      rewrite Er in E;
      match type of E with
      | context [Eff.mapM _ l ?u] =>
          destruct (Eff.mapM (latestPrice candidates) l u) as [bs w2] eqn:El
      end;
      injection E as <- <-; apply IH in El; simpl in *.
    + exact El.
    + destruct El as [IHids [IHe IHc]]. split.
      * f_equal. rewrite IHids at 1. rewrite <- seq_shift, map_map.
        reflexivity.
      * split; [intros n; rewrite IHe; reflexivity | exact IHc].
Qed.

End HandlerFacts.

(** * The claims of the specification *)

Section ListFacts.
Variable A : Type.

Lemma filter_twice (p q : A -> bool) (l : list A) :
  filter q (filter p l) = filter (fun x => p x && q x) l.
Proof.
  induction l as [|x l IH]; simpl; [reflexivity|].
  destruct (p x); simpl; [destruct (q x)|]; now rewrite IH.
Qed.

Lemma count_occ_filter_if (dec : forall a b : A, {a = b} + {a <> b})
    (p : A -> bool) (l : list A) (x : A) :
  count_occ dec (filter p l) x
  = if p x then count_occ dec l x else 0%nat.
Proof.
  induction l as [|y l IH]; simpl; [now destruct (p x)|].
  destruct (p y) eqn:Py; simpl; destruct (dec y x) as [->|Hne];
    rewrite IH; try reflexivity.
  - now rewrite Py.
  - now rewrite Py.
Qed.

Lemma Forall2_In_r {B} (R : A -> B -> Prop) (l : list A) (l' : list B) :
  Forall2 R l l' -> forall b, In b l' -> exists a, In a l /\ R a b.
Proof.
  induction 1 as [|a b l l' Hab _ IH]; intros b0 [].
  - subst. exists a. split; [now left | assumption].
  - destruct (IH b0 H) as [a0 [Hin HR]]. exists a0. split; [now right | assumption].
Qed.

Lemma Forall2_impl_In {B} (R R' : A -> B -> Prop) (l : list A)
    (l' : list B) :
  Forall2 R l l' ->
  (forall a b, In a l -> R a b -> R' a b) ->
  Forall2 R' l l'.
Proof.
  induction 1 as [|a b l l' Hab _ IH]; intros Himp; constructor.
  - apply Himp; [now left | assumption].
  - apply IH. intros a0 b0 Hin. apply Himp. now right.
Qed.
End ListFacts.

Section Claims.

Variable parse : string -> option Z.
Variable LocalTZA : Z -> Z.
Variable historicalPrices : list Price.t.
Variable positions : list Position.t.

Local Abbreviation queryPrices :=
  (Server.queryPrices parse LocalTZA historicalPrices).
Local Abbreviation queryPortfolio :=
  (Server.queryPortfolio parse LocalTZA positions).
Local Abbreviation filteredCollection :=
  (Vocab.filteredCollection parse LocalTZA historicalPrices).
Local Abbreviation datesAccepted := (Vocab.datesAccepted parse).
Local Abbreviation isValidDate := (Server.isValidDate parse).
Local Abbreviation Date_of_param := (Server.Date_of_param parse).
Local Abbreviation Date_of_string := (Server.Date_of_string parse).
Local Abbreviation sameCalendarDay := (Vocab.sameCalendarDay LocalTZA).

Lemma respondPrices_reduced (asOf : JS.QueryParam) (requested : list string)
    (candidates : list Price.t) (w : Eff.World) :
  JS.truthy asOf = true ->
  fst (respondPrices asOf requested candidates w)
  = Json (fst (Eff.mapM (latestPrice candidates) requested w)).
Proof.
  intros Ha. unfold respondPrices. rewrite Ha. unfold Eff.bind, Eff.ret.
  now destruct (Eff.mapM _ requested w).
Qed.

Lemma respondPrices_plain (asOf : JS.QueryParam) (requested : list string)
    (candidates : list Price.t) (w : Eff.World) :
  JS.truthy asOf = false ->
  respondPrices asOf requested candidates w
  = (Json (map Stored candidates), w).
Proof. intros Ha. unfold respondPrices. now rewrite Ha. Qed.

(** C5: [queryPrices] with [assetIds] absent or empty fails with
    [MissingParameter] whatever the other parameters are; it sends no
    list and draws no identifier. *)
Theorem queryPrices_missing_assets
    (asOf from to : JS.QueryParam) (w : Eff.World) :
  queryPrices None asOf from to w = (MissingParameter, w)
  /\ queryPrices (Some "") asOf from to w = (MissingParameter, w).
Proof. split; reflexivity. Qed.

(** C9: a price query with exactly one of [from] and [to] is answered as
    the same query with neither: the lone bound is not even validated, and
    no range filter runs. *)
Theorem queryPrices_lone_bound_ignored
    (assetIds asOf : JS.QueryParam) (bound : string) (w : Eff.World) :
  queryPrices assetIds asOf (Some bound) None w
  = queryPrices assetIds asOf None None w
  /\ queryPrices assetIds asOf None (Some bound) w
     = queryPrices assetIds asOf None None w.
Proof.
  unfold Server.queryPrices. simpl JS.truthy.
  rewrite andb_false_r. split; reflexivity.
Qed.

(** C7: with a non-empty [assetIds] and no date parameter, [queryPrices]
    sends the stored prices whose asset is among the requested names, in
    store order, each as many times as the store holds it. *)
Theorem queryPrices_assets_only (ids : string) (w : Eff.World) :
  ids <> "" ->
  let requested := JS.split "," ids in
  let subset := filter (isRequested requested) historicalPrices in
  queryPrices (Some ids) None None None w = (Json (map Stored subset), w)
  /\ (forall r, In r subset <->
                In r historicalPrices /\ In (Price.asset r) requested)
  /\ (forall r, count_occ Price_dec.eq_dec subset r
                = if JS.includes requested (Price.asset r)
                  then count_occ Price_dec.eq_dec historicalPrices r
                  else 0%nat).
Proof.
  intros Hids requested subset. split; [|split].
  - unfold Server.queryPrices.
    rewrite (eqb_empty_false Hids). reflexivity.
  - intros r. unfold subset. rewrite filter_In.
    unfold isRequested, JS.includes. rewrite existsb_exists.
    split; intros [Hin H]; split; auto.
    + destruct H as [a [Ha E]]. apply String.eqb_eq in E. now subst.
    + exists (Price.asset r). split; [assumption | apply String.eqb_refl].
  - intros r. unfold subset. apply count_occ_filter_if.
Qed.

Lemma Date_of_param_clipped (p : JS.QueryParam) (tv : Z) :
  Date_of_param p = Some tv -> Z.abs tv <= Date.maxTime.
Proof.
  destruct p as [s|]; [|discriminate]. simpl.
  unfold Server.Date_of_string.
  destruct (parse s) as [n|]; [|discriminate].
  intros E. apply DateFacts.TimeClip_Some in E as [-> H]. exact H.
Qed.

Lemma Date_of_param_valid (p : JS.QueryParam) (tv : Z) :
  Date_of_param p = Some tv -> isValidDate p = true.
Proof. unfold Server.isValidDate. now intros ->. Qed.

(** The reduced response, whichever filter ran before the reduction. *)
Lemma queryPrices_reduced (ids : string) (asOf from to : JS.QueryParam)
    (w : Eff.World) :
  ids <> "" -> JS.truthy asOf = true -> datesAccepted asOf from to = true ->
  let candidates := filteredCollection ids asOf from to in
  exists latest,
    Eff.mapM (latestPrice candidates) (JS.split "," ids) w
    = (latest, snd (queryPrices (Some ids) asOf from to w))
    /\ fst (queryPrices (Some ids) asOf from to w) = Json latest
    /\ Forall2 (isLatest candidates) (JS.split "," ids) latest
    /\ map entryAsset latest = JS.split "," ids.
Proof.
  intros Hids Ha Hd candidates.
  assert (Hv : Forall validTimestamp candidates)
    by (apply reduced_candidates_valid; assumption).
  rewrite queryPrices_accepted by assumption. fold candidates.
  unfold respondPrices. rewrite Ha. unfold Eff.bind, Eff.ret.
  assert (HL : Forall2 (isLatest candidates) (JS.split "," ids)
                 (fst (Eff.mapM (latestPrice candidates)
                                (JS.split "," ids) w))).
  { apply EffFacts.mapM_Forall2. intros a u.
    now apply latestPrice_isLatest. }
  assert (HA : Forall2 (fun a e => entryAsset e = a) (JS.split "," ids)
                 (fst (Eff.mapM (latestPrice candidates)
                                (JS.split "," ids) w))).
  { apply EffFacts.mapM_Forall2. intros a u. apply latestPrice_asset. }
  destruct (Eff.mapM (latestPrice candidates) (JS.split "," ids) w)
    as [latest w'].
  simpl in *. exists latest. repeat split; auto.
  clear HL. induction HA; simpl; congruence.
Qed.

(** C8: with a complete range whose two ends parse, [queryPrices] answers
    with a list, and every stored record in it has its timestamp between
    the two instants, ends included, compared in milliseconds; when [asOf]
    is absent the list is exactly the requested records in that interval. *)
Theorem queryPrices_range_bounds
    (ids : string) (asOf from to : JS.QueryParam) (f t : Z) (w : Eff.World) :
  ids <> "" ->
  JS.truthy from = true -> JS.truthy to = true ->
  Date_of_param from = Some f -> Date_of_param to = Some t ->
  exists out,
    fst (queryPrices (Some ids) asOf from to w) = Json out
    /\ (forall r, In (Stored r) out ->
                  In r historicalPrices
                  /\ f <= Price.timestamp r <= t)
    /\ (JS.truthy asOf = false ->
        out = map Stored
                  (filter (fun r => isRequested (JS.split "," ids) r
                                    && ((f <=? Price.timestamp r)
                                        && (Price.timestamp r <=? t)))
                          historicalPrices)).
Proof.
  intros Hids Hf Ht Ef Et.
  assert (Hd : datesAccepted asOf from to = true).
  { unfold Vocab.datesAccepted. rewrite Hf, Ht. simpl.
    now rewrite (Date_of_param_valid from Ef), (Date_of_param_valid to Et). }
  assert (Hc : filteredCollection ids asOf from to
               = filter (inRange (Some f) (Some t))
                        (filter (isRequested (JS.split "," ids))
                                historicalPrices)).
  { unfold Vocab.filteredCollection. now rewrite Hf, Ht, Ef, Et. }
  assert (Hin : forall r, In r (filteredCollection ids asOf from to) ->
                          In r historicalPrices
                          /\ f <= Price.timestamp r <= t).
  { intros r Hr. rewrite Hc in Hr.
    apply filter_In in Hr as [Hr Hb]. apply filter_In in Hr as [Hr _].
    apply inRange_bounds in Hb as [Hb _]. auto. }
  destruct (JS.truthy asOf) eqn:Ha.
  - destruct (@queryPrices_reduced ids asOf from to w Hids Ha Hd)
      as [latest [_ [E [HL _]]]].
    exists latest. split; [exact E|]. split; [|discriminate].
    intros r Hr.
    destruct (Forall2_In_r HL (Stored r) Hr) as [a [_ [Hcand _]]].
    now apply Hin.
  - rewrite queryPrices_accepted, respondPrices_plain by assumption. simpl.
    eexists. split; [reflexivity|]. split.
    + intros r Hr. apply in_map_iff in Hr as [r' [[= ->] Hr]].
      now apply Hin.
    + intros _. f_equal. rewrite Hc, filter_twice.
      apply filter_ext. intros r. f_equal.
      unfold inRange, Date.of_number.
      pose proof (Date_of_param_clipped from Ef).
      pose proof (Date_of_param_clipped to Et).
      destruct ((f <=? Price.timestamp r) && (Price.timestamp r <=? t))
        eqn:Eb.
      * apply andb_true_iff in Eb as [H1 H2]. apply Z.leb_le in H1, H2.
        rewrite DateFacts.TimeClip_value by lia. simpl.
        apply andb_true_iff. split; apply Z.leb_le; lia.
      * destruct (Date.TimeClip (Price.timestamp r)) as [tv|] eqn:Ec;
          [|reflexivity].
        apply DateFacts.TimeClip_Some in Ec as [-> _]. simpl. exact Eb.
Qed.

Lemma isRequested_In (requested : list string) (r : Price.t) :
  In (Price.asset r) requested -> isRequested requested r = true.
Proof.
  intros H. unfold isRequested, JS.includes. apply existsb_exists.
  exists (Price.asset r). split; [assumption | apply String.eqb_refl].
Qed.

(** C4 (amended): with a valid [asOf] and no complete range, [queryPrices]
    answers with one entry per requested name, in the order of [assetIds]:
    the entry of a name is a stored record of that asset on the day of
    [asOf] with no later one that day, or, when the store has no record of
    that asset on that day, a placeholder with that name, price 0 and an
    identifier drawn from the generator for it alone. *)
Theorem queryPrices_latest_per_asset
    (ids : string) (asOf from to : JS.QueryParam) (w : Eff.World) :
  ids <> "" ->
  JS.truthy asOf = true -> isValidDate asOf = true ->
  JS.truthy from && JS.truthy to = false ->
  let sameDay := filter (onDay LocalTZA (Date_of_param asOf))
                        historicalPrices in
  exists latest,
    fst (queryPrices (Some ids) asOf from to w) = Json latest
    /\ Forall2 (isLatest sameDay) (JS.split "," ids) latest
    /\ List.length latest = List.length (JS.split "," ids)
    /\ placeholderIds latest
       = map (Eff.entropy w)
             (seq 0 (List.length (placeholderIds latest))).
Proof.
  intros Hids Ha Hv Hr sameDay.
  assert (Hd : datesAccepted asOf from to = true)
    by (unfold Vocab.datesAccepted; now rewrite Hr, Ha).
  destruct (@queryPrices_reduced ids asOf from to w Hids Ha Hd)
    as [latest [Erun [E [HL HA]]]].
  exists latest. split; [exact E|]. split; [|split].
  - assert (Hc : filteredCollection ids asOf from to
                 = filter (onDay LocalTZA (Date_of_param asOf))
                          (filter (isRequested (JS.split "," ids))
                                  historicalPrices))
      by (unfold Vocab.filteredCollection; now rewrite Hr, Ha).
    rewrite Hc in HL. eapply Forall2_impl_In; [exact HL|].
    intros a e Hin Hlatest.
    assert (Hsame : forall r, Price.asset r = a ->
              (In r sameDay <->
               In r (filter (onDay LocalTZA (Date_of_param asOf))
                            (filter (isRequested (JS.split "," ids))
                                    historicalPrices)))).
    { intros r Hr'. unfold sameDay. rewrite !filter_In.
      rewrite (isRequested_In (JS.split "," ids) r) by now rewrite Hr'.
      tauto. }
    destruct e as [r | id a' p]; simpl in *.
    + destruct Hlatest as [Hcand [Hasset Hmax]].
      split; [now apply Hsame|]. split; [assumption|].
      intros r' Hr' Hasset'. apply Hmax; [|assumption].
      now apply Hsame.
    + destruct Hlatest as [Hname [Hprice Hnone]].
      repeat split; auto. intros r' Hr' Hasset'.
      apply (Hnone r'); [|assumption]. now apply Hsame.
  - rewrite <- HA. now rewrite length_map.
  - now apply latestPrices_draws in Erun as [Hids' _].
Qed.

(** C10: when the reduction runs, the response has one entry per
    occurrence of a name in the requested list, repeated names included:
    the assets of the entries, read in order, are the requested list, so
    the two have equal lengths. *)
Theorem queryPrices_one_entry_per_occurrence
    (ids : string) (asOf from to : JS.QueryParam) (w : Eff.World) :
  ids <> "" ->
  JS.truthy asOf = true -> datesAccepted asOf from to = true ->
  exists latest,
    fst (queryPrices (Some ids) asOf from to w) = Json latest
    /\ map entryAsset latest = JS.split "," ids
    /\ List.length latest = List.length (JS.split "," ids).
Proof.
  intros Hids Ha Hd.
  destruct (@queryPrices_reduced ids asOf from to w Hids Ha Hd)
    as [latest [_ [E [_ HA]]]].
  exists latest. repeat split; auto.
  rewrite <- HA. now rewrite length_map.
Qed.

(** C1 (amended): the reduction follows [asOf] alone.  Whenever the dates
    of a query are accepted, a supplied [asOf] makes [queryPrices] answer
    with the latest record per requested name over the filtered
    collection, also when that collection was filtered by a complete
    range; without [asOf] it answers with the filtered collection as it
    is. *)
Theorem queryPrices_reduction_follows_asOf
    (ids : string) (asOf from to : JS.QueryParam) (w : Eff.World) :
  ids <> "" -> datesAccepted asOf from to = true ->
  let candidates := filteredCollection ids asOf from to in
  if JS.truthy asOf
  then exists latest,
      fst (queryPrices (Some ids) asOf from to w) = Json latest
      /\ Forall2 (isLatest candidates) (JS.split "," ids) latest
  else queryPrices (Some ids) asOf from to w
       = (Json (map Stored candidates), w).
Proof.
  intros Hids Hd candidates. destruct (JS.truthy asOf) eqn:Ha.
  - destruct (@queryPrices_reduced ids asOf from to w Hids Ha Hd)
      as [latest [_ [E [HL _]]]].
    exists latest. auto.
  - rewrite queryPrices_accepted, respondPrices_plain by assumption.
    reflexivity.
Qed.

(** ** Rejection of dates *)

Lemma respondPrices_Json (asOf : JS.QueryParam) (requested : list string)
    (candidates : list Price.t) (w : Eff.World) :
  exists out, fst (respondPrices asOf requested candidates w) = Json out.
Proof.
  destruct (JS.truthy asOf) eqn:Ha.
  - rewrite respondPrices_reduced by assumption. eauto.
  - rewrite respondPrices_plain by assumption. simpl. eauto.
Qed.

Lemma respondPortfolio_Json (asOf : JS.QueryParam)
    (filtered : list Position.t) (w : Eff.World) :
  fst (respondPortfolio asOf filtered w)
  = Json {| Portfolio.id := Eff.entropy w 0%nat;
            Portfolio.asOf :=
              match asOf with
              | Some s => if (s =? "")%string
                          then Date.toISOString (Eff.clock w) else s
              | None => Date.toISOString (Eff.clock w)
              end;
            Portfolio.positions := filtered |}.
Proof.
  unfold respondPortfolio, Eff.bind, Eff.ret, Eff.uuidv4, Eff.now.
  destruct asOf as [s|]; [destruct (s =? "")%string|]; reflexivity.
Qed.

(** C2 (amended): [queryPortfolio] fails with [InvalidDate] exactly when
    [asOf] is supplied, non-empty and unparseable; [queryPrices] fails with
    it exactly when [assetIds] is non-empty and either [from] and [to] are
    both non-empty and one of them is unparseable, or they are not both
    non-empty and [asOf] is non-empty and unparseable. *)
Theorem invalid_date_rejection
    (assetIds asOf from to : JS.QueryParam) (w : Eff.World) :
  rejectsDate (fst (queryPortfolio asOf w))
  = JS.truthy asOf && negb (isValidDate asOf)
  /\ rejectsDate (fst (queryPrices assetIds asOf from to w))
     = JS.truthy assetIds
       && (if JS.truthy from && JS.truthy to
           then negb (isValidDate from) || negb (isValidDate to)
           else JS.truthy asOf && negb (isValidDate asOf)).
Proof.
  split.
  - unfold Server.queryPortfolio.
    destruct (JS.truthy asOf); simpl.
    + destruct (isValidDate asOf); simpl; [|reflexivity].
      now rewrite respondPortfolio_Json.
    + now rewrite respondPortfolio_Json.
  - destruct assetIds as [ids|]; [|reflexivity]. simpl JS.truthy.
    destruct (ids =? "")%string eqn:Eids.
    + apply String.eqb_eq in Eids. subst ids. reflexivity.
    + simpl negb. rewrite andb_true_l. apply String.eqb_neq in Eids.
      destruct (datesAccepted asOf from to) eqn:Hd.
      * rewrite queryPrices_accepted by assumption.
        destruct (respondPrices_Json asOf (JS.split "," ids)
                    (filteredCollection ids asOf from to) w) as [out ->].
        unfold Vocab.datesAccepted in Hd. simpl.
        destruct (JS.truthy from && JS.truthy to).
        -- apply andb_true_iff in Hd as [-> ->]. reflexivity.
        -- destruct (JS.truthy asOf); [now rewrite Hd | reflexivity].
      * rewrite queryPrices_rejected by assumption.
        unfold Vocab.datesAccepted in Hd. simpl.
        destruct (JS.truthy from && JS.truthy to).
        -- apply andb_false_iff in Hd as [-> | ->]; simpl;
             now rewrite ?orb_true_r.
        -- destruct (JS.truthy asOf); [now rewrite Hd | discriminate].
Qed.

(** ** Repeated calls *)

(** C3 (amended): two calls with the same inputs on the same store agree
    on everything but what is drawn during the request.  The responses of
    [queryPrices] are equal once the identifiers of placeholders are
    blanked, and equal as they are when [asOf] is absent; the responses of
    [queryPortfolio] are equal once the snapshot identifier is blanked,
    and, when [asOf] is absent, the snapshot [asOf] as well. *)
Theorem repeated_calls_agree_up_to_draws
    (assetIds asOf from to : JS.QueryParam) (w1 w2 : Eff.World) :
  forgetIds (fst (queryPrices assetIds asOf from to w1))
  = forgetIds (fst (queryPrices assetIds asOf from to w2))
  /\ (if JS.truthy asOf then True
      else fst (queryPrices assetIds asOf from to w1)
           = fst (queryPrices assetIds asOf from to w2))
  /\ forgetSnapshot (JS.truthy asOf) (fst (queryPortfolio asOf w1))
     = forgetSnapshot (JS.truthy asOf) (fst (queryPortfolio asOf w2)).
Proof.
  split; [|split].
  - destruct assetIds as [ids|]; [|reflexivity].
    destruct (ids =? "")%string eqn:Eids.
    + apply String.eqb_eq in Eids. subst ids. reflexivity.
    + apply String.eqb_neq in Eids.
      destruct (datesAccepted asOf from to) eqn:Hd.
      * rewrite queryPrices_accepted by assumption.
        destruct (JS.truthy asOf) eqn:Ha.
        -- rewrite !respondPrices_reduced by assumption. simpl. f_equal.
           apply EffFacts.mapM_oblivious. intros a u1 u2.
           apply latestPrice_oblivious.
        -- now rewrite !respondPrices_plain by assumption.
      * now rewrite queryPrices_rejected by assumption.
  - destruct (JS.truthy asOf) eqn:Ha; [exact I|].
    destruct assetIds as [ids|]; [|reflexivity].
    destruct (ids =? "")%string eqn:Eids.
    + apply String.eqb_eq in Eids. subst ids. reflexivity.
    + apply String.eqb_neq in Eids.
      destruct (datesAccepted asOf from to) eqn:Hd.
      * rewrite queryPrices_accepted by assumption.
        now rewrite !respondPrices_plain by assumption.
      * now rewrite queryPrices_rejected by assumption.
  - unfold Server.queryPortfolio.
    destruct (JS.truthy asOf) eqn:Ha.
    + destruct (isValidDate asOf); simpl; [|reflexivity].
      rewrite !respondPortfolio_Json. simpl.
      destruct asOf as [s|]; [|discriminate]. simpl in Ha.
      destruct (s =? "")%string; [discriminate | reflexivity].
    + rewrite !respondPortfolio_Json. reflexivity.
Qed.

(** ** The portfolio snapshot *)

(** C6: with a valid [asOf], [queryPortfolio] answers with the positions
    whose [asOf] falls on the calendar day of the query's, in store order,
    whatever their time of day, and the snapshot's [asOf] is the string
    given; with no [asOf] it answers with all the positions and the
    snapshot's [asOf] is the current instant in ISO form. *)
Theorem queryPortfolio_snapshot (asOf : JS.QueryParam) (w : Eff.World) :
  (JS.truthy asOf = true -> isValidDate asOf = true) ->
  exists snapshot,
    fst (queryPortfolio asOf w) = Json snapshot
    /\ if JS.truthy asOf
       then Some (Portfolio.asOf snapshot) = asOf
            /\ Portfolio.positions snapshot
               = filter (positionOnDay parse LocalTZA (Date_of_param asOf))
                        positions
            /\ (forall p, In p (Portfolio.positions snapshot) <->
                          In p positions
                          /\ sameCalendarDay
                               (Date_of_string (Position.asOf p))
                               (Date_of_param asOf))
            /\ (forall p tv tq,
                   In p positions ->
                   Date_of_string (Position.asOf p) = Some tv ->
                   Date_of_param asOf = Some tq ->
                   Date.Day (Date.LocalTime LocalTZA tv)
                   = Date.Day (Date.LocalTime LocalTZA tq) ->
                   In p (Portfolio.positions snapshot))
       else Portfolio.asOf snapshot = Date.toISOString (Eff.clock w)
            /\ Portfolio.positions snapshot = positions.
Proof.
  intros Hv. unfold Server.queryPortfolio.
  destruct (JS.truthy asOf) eqn:Ha.
  - rewrite (Hv eq_refl). cbn [negb].
    rewrite respondPortfolio_Json. eexists. split; [reflexivity|].
    simpl. destruct asOf as [s|]; [|discriminate]. simpl in Ha.
    destruct (s =? "")%string; [discriminate|].
    assert (Hin : forall p,
               In p (filter (positionOnDay parse LocalTZA
                               (Date_of_param (Some s))) positions) <->
               In p positions
               /\ sameCalendarDay (Date_of_string (Position.asOf p))
                                  (Date_of_param (Some s))).
    { intros p. rewrite filter_In. unfold positionOnDay, toDateString,
        Vocab.sameCalendarDay. now rewrite String.eqb_eq. }
    repeat split; try apply Hin; auto.
    intros p tv tq Hp Etv Etq Hday. apply Hin. split; [assumption|].
    unfold Vocab.sameCalendarDay. rewrite Etv, Etq.
    now apply DateFacts.toDateString_same_Day.
  - rewrite respondPortfolio_Json. eexists. split; [reflexivity|].
    simpl. destruct asOf as [s|]; [|auto]. simpl in Ha.
    destruct (s =? "")%string; [auto | discriminate].
Qed.

End Claims.

(** * The claims on the example host *)

Example split_keeps_empty_pieces :
  JS.split "," "a,,b," = ["a"; ""; "b"; ""].
Proof. reflexivity. Qed.

Example toISOString_example :
  Date.toISOString 1718473510250 = "2024-06-15T17:45:10.250Z".
Proof. reflexivity. Qed.

Example toDateString_example :
  Date.toDateString Host.LocalTZA (Some 1673179200000) = "Sun Jan 08 2023".
Proof. reflexivity. Qed.

Example parse_examples :
  Host.parse "2023-01-08" = Some 1673136000000
  /\ Host.parse "2024-06-15T17:45:10.250Z" = Some 1718473510250
  /\ Host.parse "not-a-date" = None.
Proof. repeat split. Qed.

(** The example of the specification: one match, then none. *)
Example queryPrices_spec_example :
  fst (Server.queryPrices Host.parse Host.LocalTZA [Host.bitcoin_0108]
         (Some "Bitcoin") (Some "2023-01-08") None None (Host.world 0))
  = Json [Stored Host.bitcoin_0108]
  /\ fst (Server.queryPrices Host.parse Host.LocalTZA [Host.bitcoin_0108]
            (Some "Bitcoin") (Some "2099-01-01") None None (Host.world 0))
     = Json [Placeholder "id-0" "Bitcoin" 0].
Proof. split; reflexivity. Qed.

(** The range is compared by the instant: a record at noon of the day of
    [to] is past a [to] that parses to that day's midnight. *)
Example range_is_not_day_truncated :
  fst (Host.queryPrices (Some "Bitcoin") None
         (Some "2023-01-08") (Some "2023-01-08") (Host.world 0))
  = Json [Stored Host.bitcoin_0108].
Proof. reflexivity. Qed.

Lemma queryPrices_assets_only_witness :
  Host.queryPrices (Some "Bitcoin") None None None (Host.world 0)
  = (Json [Stored Host.bitcoin_0108; Stored Host.bitcoin_0108_noon;
           Stored Host.bitcoin_0115],
     Host.world 0).
Proof.
  assert (H : "Bitcoin" <> "") by discriminate.
  exact (proj1 (@queryPrices_assets_only Host.parse Host.LocalTZA
                  Host.historicalPrices "Bitcoin" (Host.world 0) H)).
Defined.

Lemma queryPrices_range_bounds_witness :
  exists out,
    fst (Host.queryPrices (Some "Bitcoin,Ethereum") (Some "2023-01-08")
           (Some "2023-01-08") (Some "2023-01-14") (Host.world 0))
    = Json out
    /\ forall r, In (Stored r) out ->
                 1673136000000 <= Price.timestamp r <= 1673654400000.
Proof.
  assert (H : "Bitcoin,Ethereum" <> "") by discriminate.
  destruct (@queryPrices_range_bounds Host.parse Host.LocalTZA
              Host.historicalPrices "Bitcoin,Ethereum" (Some "2023-01-08")
              (Some "2023-01-08") (Some "2023-01-14")
              1673136000000 1673654400000 (Host.world 0)
              H eq_refl eq_refl eq_refl eq_refl)
    as [out [E [Hin _]]].
  exists out. split; [exact E|]. intros r Hr. exact (proj2 (Hin r Hr)).
Defined.

Lemma queryPrices_latest_per_asset_witness :
  exists latest,
    fst (Host.queryPrices (Some "Bitcoin,Google") (Some "2023-01-08")
           None None (Host.world 0))
    = Json latest
    /\ List.length latest = 2%nat.
Proof.
  assert (H : "Bitcoin,Google" <> "") by discriminate.
  destruct (@queryPrices_latest_per_asset Host.parse Host.LocalTZA
              Host.historicalPrices "Bitcoin,Google" (Some "2023-01-08")
              None None (Host.world 0) H eq_refl eq_refl eq_refl)
    as [latest [E [_ [Hlen _]]]].
  exists latest. split; [exact E | exact Hlen].
Defined.

Lemma queryPrices_one_entry_per_occurrence_witness :
  exists latest,
    fst (Host.queryPrices (Some "Bitcoin,Bitcoin") (Some "2023-01-08")
           None None (Host.world 0))
    = Json latest
    /\ map entryAsset latest = ["Bitcoin"; "Bitcoin"]
    /\ List.length latest = 2%nat.
Proof.
  assert (H : "Bitcoin,Bitcoin" <> "") by discriminate.
  exact (@queryPrices_one_entry_per_occurrence Host.parse Host.LocalTZA
           Host.historicalPrices "Bitcoin,Bitcoin" (Some "2023-01-08")
           None None (Host.world 0) H eq_refl eq_refl).
Defined.

Lemma queryPrices_reduction_follows_asOf_witness :
  exists latest,
    fst (Host.queryPrices (Some "Bitcoin") (Some "2023-01-08")
           (Some "2023-01-01") (Some "2023-01-31") (Host.world 0))
    = Json latest
    /\ Forall2 (isLatest [Host.bitcoin_0108; Host.bitcoin_0108_noon;
                          Host.bitcoin_0115])
               ["Bitcoin"] latest.
Proof.
  assert (H : "Bitcoin" <> "") by discriminate.
  exact (@queryPrices_reduction_follows_asOf Host.parse Host.LocalTZA
           Host.historicalPrices "Bitcoin" (Some "2023-01-08")
           (Some "2023-01-01") (Some "2023-01-31") (Host.world 0)
           H eq_refl).
Defined.

Lemma queryPortfolio_snapshot_witness :
  exists snapshot,
    fst (Host.queryPortfolio (Some "2024-06-15") (Host.world 1718409600123))
    = Json snapshot
    /\ Portfolio.positions snapshot = [Host.position_1; Host.position_3].
Proof.
  destruct (@queryPortfolio_snapshot Host.parse Host.LocalTZA Host.positions
              (Some "2024-06-15") (Host.world 1718409600123)
              (fun _ => eq_refl))
    as [snapshot [E [_ [Hpos _]]]].
  exists snapshot. split; [exact E | exact Hpos].
Defined.

(** C1, as stated, fails: with a complete range and [asOf] the three
    Bitcoin records of January 2023 pass the range filter, and the response
    is the latest of them alone. *)
Lemma range_with_asOf_is_reduced :
  let asOf := Some "2023-01-08" in
  let from := Some "2023-01-01" in
  let to := Some "2023-01-31" in
  let filtered := filteredCollection Host.parse Host.LocalTZA
                    Host.historicalPrices "Bitcoin" asOf from to in
  let response := fst (Host.queryPrices (Some "Bitcoin") asOf from to
                         (Host.world 0)) in
  JS.truthy from && JS.truthy to = true
  /\ filtered = [Host.bitcoin_0108; Host.bitcoin_0108_noon; Host.bitcoin_0115]
  /\ response = Json [Stored Host.bitcoin_0115]
  /\ response <> Json (map Stored filtered).
Proof.
  cbv zeta. repeat split; try (vm_compute; reflexivity).
  vm_compute. discriminate.
Qed.

(** C2, as stated, fails: an unparseable lone [from] is not looked at, and
    neither is an unparseable [asOf] next to a complete range. *)
Lemma unparseable_dates_accepted :
  isValidDate Host.parse (Some "not-a-date") = false
  /\ fst (Host.queryPrices (Some "Ethereum") None (Some "not-a-date") None
            (Host.world 0))
     = Json [Stored Host.ethereum_0108]
  /\ fst (Host.queryPrices (Some "Ethereum") None (Some "not-a-date") None
            (Host.world 0))
     <> InvalidDate
  /\ fst (Host.queryPrices (Some "Ethereum") (Some "not-a-date")
            (Some "2023-01-01") (Some "2023-01-31") (Host.world 0))
     = Json [Stored Host.ethereum_0108].
Proof.
  repeat split; try (vm_compute; reflexivity).
  vm_compute. discriminate.
Qed.

(** C3, as stated, fails: the second of two identical calls carries the
    next identifier of the generator. *)
Lemma repeated_calls_differ :
  (let (first, w) := Host.queryPortfolio None (Host.world 0) in
   first = Json {| Portfolio.id := "id-0";
                   Portfolio.asOf := "1970-01-01T00:00:00.000Z";
                   Portfolio.positions := Host.positions |}
   /\ fst (Host.queryPortfolio None w)
      = Json {| Portfolio.id := "id-1";
                Portfolio.asOf := "1970-01-01T00:00:00.000Z";
                Portfolio.positions := Host.positions |}
   /\ fst (Host.queryPortfolio None w) <> first)
  /\ (let (first, w) := Host.queryPrices (Some "Google") (Some "2023-01-08")
                          None None (Host.world 0) in
      first = Json [Placeholder "id-0" "Google" 0]
      /\ fst (Host.queryPrices (Some "Google") (Some "2023-01-08")
                None None w)
         = Json [Placeholder "id-1" "Google" 0]
      /\ fst (Host.queryPrices (Some "Google") (Some "2023-01-08")
                None None w) <> first).
Proof. vm_compute. repeat split; discriminate. Qed.

(** C4, as stated, fails when a complete range comes with the valid [asOf]:
    the entry of Bitcoin is then the latest record of the range, which is
    not a record of the day of [asOf]. *)
Lemma latest_of_range_not_of_day :
  let asOf := Some "2023-01-08" in
  let sameDay := filter (onDay Host.LocalTZA (Date_of_param Host.parse asOf))
                        Host.historicalPrices in
  let response := fst (Host.queryPrices (Some "Bitcoin") asOf
                         (Some "2023-01-01") (Some "2023-01-31")
                         (Host.world 0)) in
  isValidDate Host.parse asOf = true
  /\ response = Json [Stored Host.bitcoin_0115]
  /\ sameDay = [Host.bitcoin_0108; Host.bitcoin_0108_noon; Host.ethereum_0108]
  /\ ~ Forall2 (isLatest sameDay) (JS.split "," "Bitcoin")
               [Stored Host.bitcoin_0115].
Proof.
  cbv zeta. split; [reflexivity|]. split; [vm_compute; reflexivity|].
  split; [vm_compute; reflexivity|].
  intros H. inversion H as [|a e l l' Hlatest Hrest]; subst.
  destruct Hlatest as [Hin _]. vm_compute in Hin.
  destruct Hin as [E | [E | [E | []]]]; discriminate E.
Qed.

(** * Further properties of the handlers *)

Section SplitFacts.

Variable sep : ascii.

Lemma split_not_nil (s : string) : JS.split sep s <> [].
Proof.
  destruct s as [|c rest]; simpl; [discriminate|].
  destruct (Ascii.eqb c sep); [discriminate|].
  destruct (JS.split sep rest); discriminate.
Qed.

Lemma concat_cons (x : string) (l : list string) :
  l <> [] ->
  String.concat (String sep "") (x :: l)
  = (x ++ String sep (String.concat (String sep "") l))%string.
Proof. destruct l; [congruence | reflexivity]. Qed.

Lemma concat_split (s : string) :
  String.concat (String sep "") (JS.split sep s) = s.
Proof.
  induction s as [|c rest IH]; [reflexivity|]. simpl JS.split.
  destruct (Ascii.eqb c sep) eqn:E.
  - apply Ascii.eqb_eq in E. subst c.
    rewrite concat_cons by apply split_not_nil. simpl. now rewrite IH.
  - pose proof (split_not_nil rest) as Hne.
    destruct (JS.split sep rest) as [|piece pieces]; [congruence|].
    destruct pieces as [|piece' pieces].
    + simpl in *. now rewrite IH.
    + rewrite concat_cons by discriminate.
      rewrite concat_cons in IH by discriminate.
      rewrite <- IH. reflexivity.
Qed.

Lemma split_pieces_sepFree (s piece : string) :
  In piece (JS.split sep s) -> sepFree sep piece.
Proof.
  revert piece. induction s as [|c rest IH]; intros piece; simpl.
  - intros [<-|[]]. intros [].
  - destruct (Ascii.eqb c sep) eqn:E.
    + intros [<-|H]; [intros [] | now apply IH].
    + apply Ascii.eqb_neq in E.
      destruct (JS.split sep rest) as [|p ps].
      * intros [<-|[]]. intros [H|[]]. congruence.
      * intros [<-|H]; [|apply IH; now right].
        intros [H|H]; [congruence|]. apply (IH p); [now left | exact H].
Qed.

Lemma split_app_sep (s1 s2 : string) :
  JS.split sep (s1 ++ String sep s2)
  = (JS.split sep s1 ++ JS.split sep s2)%list.
Proof.
  induction s1 as [|c rest IH]; simpl.
  - now rewrite Ascii.eqb_refl.
  - destruct (Ascii.eqb c sep); rewrite IH; [reflexivity|].
    pose proof (split_not_nil rest) as Hne.
    destruct (JS.split sep rest); [congruence | reflexivity].
Qed.

Lemma split_sepFree (s : string) : sepFree sep s -> JS.split sep s = [s].
Proof.
  unfold sepFree. induction s as [|c rest IH]; simpl; [reflexivity|].
  intros H. destruct (Ascii.eqb c sep) eqn:E.
  - apply Ascii.eqb_eq in E. subst c. exfalso. apply H. now left.
  - rewrite IH; [reflexivity|]. intros Hin. apply H. now right.
Qed.

Lemma split_concat (l : list string) :
  l <> [] -> (forall piece, In piece l -> sepFree sep piece) ->
  JS.split sep (String.concat (String sep "") l) = l.
Proof.
  induction l as [|x l IH]; [congruence|]. intros _ Hfree.
  destruct l as [|y l].
  - simpl. apply split_sepFree, Hfree. now left.
  - rewrite concat_cons by discriminate. rewrite split_app_sep.
    rewrite split_sepFree by (apply Hfree; now left).
    rewrite IH; [reflexivity | discriminate |].
    intros piece Hin. apply Hfree. now right.
Qed.

(** X1: [s.split(sep)] and [pieces.join(sep)] undo each other: the pieces
    of a string are never none, hold no separator, and joined give the
    string back; a non-empty array of separator-free pieces, joined, splits
    back to itself. *)
Theorem split_join_round_trip (s : string) (l : list string) :
  (JS.split sep s <> []
   /\ (forall piece, In piece (JS.split sep s) -> sepFree sep piece)
   /\ String.concat (String sep "") (JS.split sep s) = s)
  /\ (l <> [] -> (forall piece, In piece l -> sepFree sep piece) ->
      JS.split sep (String.concat (String sep "") l) = l).
Proof.
  split; [split; [|split]|].
  - apply split_not_nil.
  - apply split_pieces_sepFree.
  - apply concat_split.
  - apply split_concat.
Qed.

End SplitFacts.

Section StableSortFacts.

Variable A : Type.
Variable cmp : A -> A -> option Z.
Variable key : A -> Z.

(** With a comparator that is the difference of two keys, the sorted array
    starts with the first, in the order of the input, of the elements of
    greatest key. *)
Lemma sort_head_first_max (l : list A) :
  (forall y z, In y l -> In z l -> cmp y z = Some (key z - key y)) ->
  forall h t, JS.sort cmp l = h :: t ->
  exists before after,
    l = (before ++ h :: after)%list
    /\ (forall y, In y before -> key y < key h)
    /\ (forall y, In y after -> key y <= key h).
Proof.
  induction l as [|x l IH]; intros Hcmp h t E; [discriminate|].
  simpl in E.
  assert (Hcmp' : forall y z, In y l -> In z l ->
                              cmp y z = Some (key z - key y))
    by (intros; apply Hcmp; now right).
  destruct (JS.sort cmp l) as [|h' t'] eqn:Es.
  - apply SortFacts.sort_nil_inv in Es. subst l. simpl in E.
    injection E as <- _. exists [], []. repeat split; intros y [].
  - destruct (IH Hcmp' h' t' eq_refl) as [before [after [El [Hb Ha]]]].
    assert (Hh' : In h' l)
      by (apply (SortFacts.sort_In cmp); rewrite Es; now left).
    simpl in E. unfold JS.comes_after in E.
    rewrite (Hcmp x h') in E by (simpl; auto).
    destruct (0 <? key h' - key x) eqn:Hlt; injection E as <- _.
    + apply Z.ltb_lt in Hlt. exists (x :: before), after.
      split; [now rewrite El|]. split; [|exact Ha].
      intros y [<-|Hy]; [lia | now apply Hb].
    + apply Z.ltb_ge in Hlt. exists [], l.
      split; [reflexivity|]. split; [intros y []|].
      intros y Hy. rewrite El in Hy. apply in_app_or in Hy.
      destruct Hy as [Hy|[<-|Hy]].
      * specialize (Hb y Hy). lia.
      * lia.
      * specialize (Ha y Hy). lia.
Qed.

End StableSortFacts.

Section EffFurther.

Lemma mapM_app {A B} (f : A -> Eff.M B) (l1 l2 : list A) (w : Eff.World) :
  Eff.mapM f (l1 ++ l2)%list w
  = let (out1, w1) := Eff.mapM f l1 w in
    let (out2, w2) := Eff.mapM f l2 w1 in
    ((out1 ++ out2)%list, w2).
Proof.
  revert w. induction l1 as [|a l1 IH]; intros w; simpl.
  - unfold Eff.ret. now destruct (Eff.mapM f l2 w).
  - unfold Eff.bind, Eff.ret. destruct (f a w) as [b w0].
    rewrite IH. destruct (Eff.mapM f l1 w0) as [out1 w1].
    now destruct (Eff.mapM f l2 w1).
Qed.

Lemma mapM_ext_in {A B} (f g : A -> Eff.M B) (l : list A) :
  (forall a w, In a l -> f a w = g a w) ->
  forall w, Eff.mapM f l w = Eff.mapM g l w.
Proof.
  induction l as [|a l IH]; intros Hfg w; simpl; [reflexivity|].
  unfold Eff.bind. rewrite Hfg by now left.
  destruct (g a w) as [b w0]. rewrite IH; [reflexivity|].
  intros a0 w1 Hin. apply Hfg. now right.
Qed.

Lemma afterDraws_trans (j k : nat) (w0 w1 w2 : Eff.World) :
  afterDraws j w0 w1 -> afterDraws k w1 w2 -> afterDraws (j + k) w0 w2.
Proof.
  intros [He1 Hc1] [He2 Hc2]. split; [|congruence].
  intros n. rewrite He2, He1. f_equal. lia.
Qed.

End EffFurther.

Section FurtherHandlers.

Variable parse : string -> option Z.
Variable LocalTZA : Z -> Z.
Variable historicalPrices : list Price.t.
Variable positions : list Position.t.

Local Abbreviation queryPrices :=
  (Server.queryPrices parse LocalTZA historicalPrices).
Local Abbreviation queryPortfolio :=
  (Server.queryPortfolio parse LocalTZA positions).
Local Abbreviation filteredCollection :=
  (Vocab.filteredCollection parse LocalTZA historicalPrices).
Local Abbreviation datesAccepted := (Vocab.datesAccepted parse).
Local Abbreviation isValidDate := (Server.isValidDate parse).
Local Abbreviation Date_of_param := (Server.Date_of_param parse).
Local Abbreviation Date_of_string := (Server.Date_of_string parse).
Local Abbreviation dateFilter := (Further.dateFilter parse LocalTZA).

Lemma filter_all (A : Type) (l : list A) : filter (fun _ => true) l = l.
Proof. induction l as [|x l IH]; simpl; congruence. Qed.

Lemma filteredCollection_dateFilter
    (ids : string) (asOf from to : JS.QueryParam) :
  filteredCollection ids asOf from to
  = filter (dateFilter asOf from to)
           (filter (isRequested (JS.split "," ids)) historicalPrices).
Proof.
  unfold Vocab.filteredCollection, Further.dateFilter.
  destruct (JS.truthy from && JS.truthy to); [reflexivity|].
  destruct (JS.truthy asOf); [reflexivity|].
  now rewrite filter_all.
Qed.

Lemma dateFilter_valid (asOf from to : JS.QueryParam) (r : Price.t) :
  datesAccepted asOf from to = true ->
  JS.truthy from && JS.truthy to = true \/ JS.truthy asOf = true ->
  dateFilter asOf from to r = true -> validTimestamp r.
Proof.
  unfold Vocab.datesAccepted, Further.dateFilter. intros Hd Hsome Hr.
  destruct (JS.truthy from && JS.truthy to).
  - apply andb_true_iff in Hd as [Hf Ht].
    apply isValidDate_value in Hf as [f Hf], Ht as [t Ht].
    rewrite Hf, Ht in Hr. now apply inRange_bounds in Hr.
  - destruct Hsome as [Hsome|Ha]; [discriminate|]. rewrite Ha in *.
    apply isValidDate_value in Hd as [a Hd]. rewrite Hd in Hr.
    now apply onDay_valid in Hr.
Qed.

(** The entry of a requested name is computed the same over the whole
    store: the membership filter of line 119 keeps every record of that
    name. *)
Lemma latestPrice_restrict (keep : Price.t -> bool) (requested : list string)
    (assetId : string) (w : Eff.World) :
  In assetId requested ->
  latestPrice (filter keep (filter (isRequested requested) historicalPrices))
              assetId w
  = latestPrice (filter keep historicalPrices) assetId w.
Proof.
  intros Hin. unfold latestPrice. rewrite !filter_twice.
  assert (E : forall l : list Price.t,
             filter (fun x => isRequested requested x
                              && (keep x
                                  && (Price.asset x =? assetId)%string)) l
             = filter (fun x => keep x && (Price.asset x =? assetId)%string)
                      l).
  { intros l. apply filter_ext. intros x.
    destruct (Price.asset x =? assetId)%string eqn:E.
    - apply String.eqb_eq in E.
      rewrite (isRequested_In requested x) by now rewrite E.
      reflexivity.
    - now rewrite !andb_false_r. }
  now rewrite E.
Qed.

Lemma queryPrices_reduced_run
    (ids : string) (asOf from to : JS.QueryParam) (w : Eff.World) :
  ids <> "" -> JS.truthy asOf = true -> datesAccepted asOf from to = true ->
  queryPrices (Some ids) asOf from to w
  = let (latest, w') :=
      Eff.mapM (latestPrice (filter (dateFilter asOf from to)
                                    historicalPrices))
               (JS.split "," ids) w in
    (Json latest, w').
Proof.
  intros Hids Ha Hd. rewrite queryPrices_accepted by assumption.
  unfold respondPrices. rewrite Ha. unfold Eff.bind, Eff.ret.
  rewrite filteredCollection_dateFilter.
  rewrite (@mapM_ext_in _ _
             (latestPrice (filter (dateFilter asOf from to)
                             (filter (isRequested (JS.split "," ids))
                                     historicalPrices)))
             (latestPrice (filter (dateFilter asOf from to)
                                  historicalPrices))).
  - reflexivity.
  - intros a u Hin. now apply latestPrice_restrict.
Qed.

Lemma latestPrice_isFirstLatest (candidates : list Price.t)
    (assetId : string) (w : Eff.World) :
  Forall validTimestamp candidates ->
  isFirstLatest candidates assetId (fst (latestPrice candidates assetId w)).
Proof.
  intros Hv. rewrite Forall_forall in Hv. unfold latestPrice.
  set (mine := filter _ candidates).
  destruct (JS.sort byTimestampDesc mine) as [|first rest] eqn:Es;
    simpl; [exact I|].
  apply (@sort_head_first_max _ byTimestampDesc Price.timestamp mine)
    with (t := rest); [|exact Es].
  intros y z Hy Hz. unfold mine in Hy, Hz.
  apply filter_In in Hy as [Hy _], Hz as [Hz _].
  apply byTimestampDesc_valid; auto.
Qed.

(** X2: when several records of an asset share the latest timestamp, the
    reduced response carries the one stored first: the entry of a name is
    preceded in the store, among the records of that name that passed the
    date filter, by strictly earlier timestamps only, and followed by none
    later. *)
Theorem queryPrices_ties_go_to_first
    (ids : string) (asOf from to : JS.QueryParam) (w : Eff.World) :
  ids <> "" -> JS.truthy asOf = true -> datesAccepted asOf from to = true ->
  exists latest,
    fst (queryPrices (Some ids) asOf from to w) = Json latest
    /\ Forall2 (isFirstLatest (filter (dateFilter asOf from to)
                                      historicalPrices))
               (JS.split "," ids) latest.
Proof.
  intros Hids Ha Hd. rewrite queryPrices_reduced_run by assumption.
  pose proof (@EffFacts.mapM_Forall2 _ _
                (isFirstLatest (filter (dateFilter asOf from to)
                                       historicalPrices))
                (latestPrice (filter (dateFilter asOf from to)
                                     historicalPrices))) as H.
  match type of H with
  | ?P -> _ => assert (Hp : P)
  end.
  { intros a u. apply latestPrice_isFirstLatest.
    apply Forall_forall. intros r Hr. apply filter_In in Hr as [_ Hr].
    apply (dateFilter_valid asOf from to); auto. }
  specialize (H Hp (JS.split "," ids) w).
  destruct (Eff.mapM _ (JS.split "," ids) w) as [latest w'].
  exists latest. split; [reflexivity | exact H].
Qed.

(** X3: the reduced response to a list of names is the response to its
    first part followed by the response to the rest, the second computed in
    the world the first leaves: the entry of a name does not depend on the
    other names requested. *)
Theorem queryPrices_reduction_concatenates
    (ids1 ids2 : string) (asOf from to : JS.QueryParam) (w : Eff.World) :
  ids1 <> "" -> ids2 <> "" ->
  JS.truthy asOf = true -> datesAccepted asOf from to = true ->
  exists latest1 w1 latest2 w2,
    queryPrices (Some ids1) asOf from to w = (Json latest1, w1)
    /\ queryPrices (Some ids2) asOf from to w1 = (Json latest2, w2)
    /\ queryPrices (Some (ids1 ++ "," ++ ids2)) asOf from to w
       = (Json (latest1 ++ latest2)%list, w2).
Proof.
  intros H1 H2 Ha Hd.
  assert (H12 : (ids1 ++ "," ++ ids2)%string <> "")
    by (destruct ids1; [congruence | discriminate]).
  destruct (Eff.mapM (latestPrice (filter (dateFilter asOf from to)
                                          historicalPrices))
                     (JS.split "," ids1) w) as [latest1 w1] eqn:E1.
  destruct (Eff.mapM (latestPrice (filter (dateFilter asOf from to)
                                          historicalPrices))
                     (JS.split "," ids2) w1) as [latest2 w2] eqn:E2.
  exists latest1, w1, latest2, w2.
  rewrite !queryPrices_reduced_run by assumption.
  change (ids1 ++ "," ++ ids2)%string with (ids1 ++ String "," ids2)%string.
  rewrite split_app_sep, mapM_app, E1, E2. auto.
Qed.

Lemma placeholderIds_Stored (l : list Price.t) :
  placeholderIds (map Stored l) = [].
Proof. induction l as [|r l IH]; simpl; assumption || reflexivity. Qed.

(** X4: [queryPrices] draws from the identifier generator once for each
    placeholder of its response, and not at all when it answers with an
    error or with no placeholder; it never touches the clock. *)
Theorem queryPrices_draws
    (assetIds asOf from to : JS.QueryParam) (w : Eff.World) :
  let run := queryPrices assetIds asOf from to w in
  afterDraws (List.length (placeholderIds (responseEntries (fst run))))
             w (snd run).
Proof.
  destruct assetIds as [ids|]; [|apply EffFacts.afterDraws_0].
  destruct (ids =? "")%string eqn:Eids.
  - apply String.eqb_eq in Eids. subst ids. apply EffFacts.afterDraws_0.
  - apply String.eqb_neq in Eids.
    destruct (datesAccepted asOf from to) eqn:Hd.
    + cbv zeta. rewrite queryPrices_accepted by assumption.
      destruct (JS.truthy asOf) eqn:Ha.
      * unfold respondPrices. rewrite Ha. unfold Eff.bind, Eff.ret.
        destruct (Eff.mapM _ (JS.split "," ids) w) as [latest w'] eqn:E.
        simpl. now apply latestPrices_draws in E as [_ H].
      * rewrite respondPrices_plain by assumption. simpl.
        rewrite placeholderIds_Stored. apply EffFacts.afterDraws_0.
    + cbv zeta. rewrite queryPrices_rejected by assumption.
      apply EffFacts.afterDraws_0.
Qed.

(** X5: [queryPortfolio] draws exactly one identifier when it answers with
    a snapshot and none when it rejects the date; the clock is read, never
    changed. *)
Theorem queryPortfolio_draws (asOf : JS.QueryParam) (w : Eff.World) :
  let run := queryPortfolio asOf w in
  afterDraws (if rejectsDate (fst run) then 0 else 1) w (snd run).
Proof.
  assert (Hsnap : forall filtered,
             afterDraws 1 w (snd (respondPortfolio asOf filtered w))
             /\ rejectsDate (fst (respondPortfolio asOf filtered w)) = false).
  { intros filtered.
    unfold respondPortfolio, Eff.bind, Eff.ret, Eff.uuidv4, Eff.now.
    destruct asOf as [s|]; [destruct (s =? "")%string|];
      simpl; (split; [split|]); auto. }
  cbv zeta. unfold Server.queryPortfolio.
  destruct (JS.truthy asOf); [destruct (isValidDate asOf)|]; simpl.
  - destruct (Hsnap (filter (positionOnDay parse LocalTZA
                                (Date_of_param asOf)) positions))
      as [H ->]. exact H.
  - apply EffFacts.afterDraws_0.
  - destruct (Hsnap positions) as [H ->]. exact H.
Qed.

Lemma Forall2_Forall_r {A B} (R : A -> B -> Prop) (P : B -> Prop)
    (l : list A) (l' : list B) :
  Forall2 R l l' ->
  (forall a b, In a l -> R a b -> P b) ->
  Forall P l'.
Proof.
  induction 1 as [|a b l l' Hab _ IH]; intros Himp; constructor.
  - apply (Himp a); [now left | assumption].
  - apply IH. intros a0 b0 Hin. apply (Himp a0). now right.
Qed.

Lemma isRequested_true (requested : list string) (r : Price.t) :
  isRequested requested r = true -> In (Price.asset r) requested.
Proof.
  unfold isRequested, JS.includes. rewrite existsb_exists.
  intros [a [Ha E]]. apply String.eqb_eq in E. now subst.
Qed.

(** X6: whatever the date parameters, [queryPrices] makes nothing up: a
    stored entry of its response is a record of the store whose asset is one
    of the requested names, and a placeholder has a requested name and
    price 0. *)
Theorem queryPrices_entries_sound
    (ids : string) (asOf from to : JS.QueryParam) (w : Eff.World) :
  Forall (fun entry =>
            match entry with
            | Stored r => In r historicalPrices
                          /\ In (Price.asset r) (JS.split "," ids)
            | Placeholder _ a p => In a (JS.split "," ids) /\ p = 0
            end)
         (responseEntries (fst (queryPrices (Some ids) asOf from to w))).
Proof.
  destruct (ids =? "")%string eqn:Eids.
  { apply String.eqb_eq in Eids. subst ids. constructor. }
  apply String.eqb_neq in Eids.
  destruct (datesAccepted asOf from to) eqn:Hd.
  2:{ rewrite queryPrices_rejected by assumption. constructor. }
  assert (Hcand : forall r, In r (filteredCollection ids asOf from to) ->
                            In r historicalPrices
                            /\ In (Price.asset r) (JS.split "," ids)).
  { intros r Hr. rewrite filteredCollection_dateFilter in Hr.
    apply filter_In in Hr as [Hr _]. apply filter_In in Hr as [Hr Hreq].
    split; [assumption | now apply isRequested_true]. }
  destruct (JS.truthy asOf) eqn:Ha.
  - destruct (@queryPrices_reduced parse LocalTZA historicalPrices
                ids asOf from to w Eids Ha Hd) as [latest [_ [-> [HL _]]]].
    simpl. eapply Forall2_Forall_r; [exact HL|].
    intros a [r|id a' p] Hin Hlatest; simpl in *.
    + destruct Hlatest as [Hr _]. now apply Hcand.
    + destruct Hlatest as [-> [-> _]]. auto.
  - rewrite queryPrices_accepted, respondPrices_plain by assumption.
    simpl. apply Forall_forall. intros e He.
    apply in_map_iff in He as [r [<- Hr]]. now apply Hcand.
Qed.

Lemma same_day_toDateString (a b : JS.QueryParam) (ta tb : Z) :
  Date_of_param a = Some ta -> Date_of_param b = Some tb ->
  Date.Day (Date.LocalTime LocalTZA ta)
  = Date.Day (Date.LocalTime LocalTZA tb) ->
  toDateString LocalTZA (Date_of_param a)
  = toDateString LocalTZA (Date_of_param b).
Proof.
  intros -> -> Hday. now apply DateFacts.toDateString_same_Day.
Qed.

(** X7: only the local calendar day of [asOf] matters to [GET /prices]: two
    non-empty [asOf] strings that parse to instants of the same local day
    get the same response and leave the same world, the rest of the query
    being equal. *)
Theorem queryPrices_asOf_day_only
    (assetIds asOf asOf' from to : JS.QueryParam) (t t' : Z)
    (w : Eff.World) :
  JS.truthy asOf = true -> JS.truthy asOf' = true ->
  Date_of_param asOf = Some t -> Date_of_param asOf' = Some t' ->
  Date.Day (Date.LocalTime LocalTZA t)
  = Date.Day (Date.LocalTime LocalTZA t') ->
  queryPrices assetIds asOf from to w = queryPrices assetIds asOf' from to w.
Proof.
  intros Ha Ha' Et Et' Hday.
  pose proof (same_day_toDateString asOf asOf' Et Et' Hday) as Hs.
  unfold Server.queryPrices, respondPrices, Server.isValidDate.
  rewrite Ha, Ha', Et, Et'. simpl Date.valid. cbn [negb].
  destruct assetIds as [ids|]; [|reflexivity].
  destruct (ids =? "")%string; [reflexivity|].
  destruct (JS.truthy from && JS.truthy to); [reflexivity|].
  unfold onDay. rewrite Et, Et' in Hs. now rewrite Hs.
Qed.

(** X8: likewise for [GET /portfolios]: two such [asOf] strings get
    snapshots with the same identifier and the same positions, each
    carrying its own [asOf] string. *)
Theorem queryPortfolio_asOf_day_only
    (asOf asOf' : string) (t t' : Z) (w : Eff.World) :
  asOf <> "" -> asOf' <> "" ->
  Date_of_string asOf = Some t -> Date_of_string asOf' = Some t' ->
  Date.Day (Date.LocalTime LocalTZA t)
  = Date.Day (Date.LocalTime LocalTZA t') ->
  exists id kept,
    fst (queryPortfolio (Some asOf) w)
    = Json {| Portfolio.id := id; Portfolio.asOf := asOf;
              Portfolio.positions := kept |}
    /\ fst (queryPortfolio (Some asOf') w)
       = Json {| Portfolio.id := id; Portfolio.asOf := asOf';
                 Portfolio.positions := kept |}.
Proof.
  intros Ha Ha' Et Et' Hday.
  pose proof (same_day_toDateString (Some asOf) (Some asOf') Et Et' Hday)
    as Hs.
  assert (Hrun : forall s tv,
             s <> "" -> Date_of_string s = Some tv ->
             fst (queryPortfolio (Some s) w)
             = Json {| Portfolio.id := Eff.entropy w 0%nat;
                       Portfolio.asOf := s;
                       Portfolio.positions :=
                         filter (positionOnDay parse LocalTZA (Some tv))
                                positions |}).
  { intros s tv Hne Etv.
    unfold Server.queryPortfolio, Server.isValidDate.
    cbn [JS.truthy Server.Date_of_param].
    rewrite (eqb_empty_false Hne), Etv. cbn [negb Date.valid].
    rewrite respondPortfolio_Json. now rewrite (eqb_empty_false Hne). }
  exists (Eff.entropy w 0%nat),
    (filter (positionOnDay parse LocalTZA (Some t)) positions).
  split; [now apply Hrun|]. rewrite (Hrun asOf' t') by assumption.
  do 2 f_equal. apply filter_ext. intros p.
  unfold positionOnDay, toDateString in *.
  simpl in Hs. rewrite Et, Et' in Hs. simpl in Hs. simpl.
  now rewrite Hs.
Qed.

(** X9: a date filter never lets through a record whose timestamp is out
    of the range of [Date]: when a complete range or an [asOf] is supplied,
    every stored entry of the response has a valid timestamp (a rejected
    request has no entry at all). *)
Theorem queryPrices_dated_entries_valid
    (assetIds asOf from to : JS.QueryParam) (w : Eff.World) (r : Price.t) :
  JS.truthy from && JS.truthy to = true \/ JS.truthy asOf = true ->
  In (Stored r)
     (responseEntries (fst (queryPrices assetIds asOf from to w))) ->
  validTimestamp r.
Proof.
  intros Hsome Hr.
  destruct assetIds as [ids|]; [|destruct Hr].
  destruct (ids =? "")%string eqn:Eids.
  { apply String.eqb_eq in Eids. subst ids. destruct Hr. }
  apply String.eqb_neq in Eids.
  destruct (datesAccepted asOf from to) eqn:Hd.
  2:{ rewrite queryPrices_rejected in Hr by assumption. destruct Hr. }
  assert (Hcand : forall r', In r' (filteredCollection ids asOf from to) ->
                             validTimestamp r').
  { intros r' Hr'. rewrite filteredCollection_dateFilter in Hr'.
    apply filter_In in Hr' as [_ Hr'].
    now apply (dateFilter_valid asOf from to). }
  destruct (JS.truthy asOf) eqn:Ha.
  - destruct (@queryPrices_reduced parse LocalTZA historicalPrices
                ids asOf from to w Eids Ha Hd) as [latest [_ [E [HL _]]]].
    rewrite E in Hr. simpl in Hr.
    destruct (Forall2_In_r HL (Stored r) Hr) as [a [_ [Hin _]]].
    now apply Hcand.
  - rewrite queryPrices_accepted, respondPrices_plain in Hr by assumption.
    simpl in Hr. apply in_map_iff in Hr as [r' [[= ->] Hr]].
    now apply Hcand.
Qed.

(** X10: the outcomes of [GET /prices] are three and no more: a list,
    exactly when [assetIds] is non-empty and the dates looked at parse; the
    400 for the missing parameter, exactly when [assetIds] is absent or
    empty; the 400 for the date otherwise.  No other status is sent. *)
Theorem queryPrices_outcomes
    (assetIds asOf from to : JS.QueryParam) (w : Eff.World) :
  match fst (queryPrices assetIds asOf from to w) with
  | Json _ =>
      JS.truthy assetIds = true /\ datesAccepted asOf from to = true
  | Error status error =>
      status = 400
      /\ ((error = "assets parameter is required"
           /\ JS.truthy assetIds = false)
          \/ (error = "Invalid date format"
              /\ JS.truthy assetIds = true
              /\ datesAccepted asOf from to = false))
  end.
Proof.
  destruct assetIds as [ids|]; [|simpl; auto].
  destruct (ids =? "")%string eqn:Eids.
  - apply String.eqb_eq in Eids. subst ids. simpl. auto.
  - assert (Ht : JS.truthy (Some ids) = true) by (simpl; now rewrite Eids).
    apply String.eqb_neq in Eids.
    destruct (datesAccepted asOf from to) eqn:Hd.
    + rewrite queryPrices_accepted by assumption.
      destruct (respondPrices_Json asOf (JS.split "," ids)
                  (filteredCollection ids asOf from to) w) as [out ->].
      auto.
    + rewrite queryPrices_rejected by assumption. simpl. auto.
Qed.

Lemma latestPrice_placeholder_iff (candidates : list Price.t)
    (assetId : string) (w : Eff.World) :
  (exists id, fst (latestPrice candidates assetId w)
              = Placeholder id assetId 0)
  <-> (forall r, In r candidates -> Price.asset r <> assetId).
Proof.
  unfold latestPrice.
  set (mine := filter _ candidates).
  assert (Hmine : forall r, In r mine <->
                            In r candidates /\ Price.asset r = assetId).
  { intros r. unfold mine. rewrite filter_In, String.eqb_eq. tauto. }
  destruct (JS.sort byTimestampDesc mine) as [|first rest] eqn:Es; simpl.
  - apply SortFacts.sort_nil_inv in Es. split; [|eauto].
    intros _ r Hr Hasset.
    assert (H : In r mine) by (apply Hmine; auto).
    rewrite Es in H. destruct H.
  - assert (Hfirst : In first mine)
      by (apply (SortFacts.sort_In byTimestampDesc); rewrite Es; now left).
    apply Hmine in Hfirst as [Hin Hasset].
    split; [intros [id H]; discriminate H|].
    intros Hnone. exfalso. now apply (Hnone first).
Qed.

Lemma reduced_placeholders
    (ids : string) (asOf from to : JS.QueryParam) (w : Eff.World) :
  ids <> "" -> JS.truthy asOf = true -> datesAccepted asOf from to = true ->
  exists latest,
    fst (queryPrices (Some ids) asOf from to w) = Json latest
    /\ Forall2 (fun assetId entry =>
                  (exists id, entry = Placeholder id assetId 0)
                  <-> (forall r, In r historicalPrices ->
                                 Price.asset r = assetId ->
                                 dateFilter asOf from to r = false))
               (JS.split "," ids) latest.
Proof.
  intros Hids Ha Hd. rewrite queryPrices_reduced_run by assumption.
  set (candidates := filter (dateFilter asOf from to) historicalPrices).
  assert (H : Forall2 (fun assetId entry =>
                         (exists id, entry = Placeholder id assetId 0)
                         <-> (forall r, In r historicalPrices ->
                                        Price.asset r = assetId ->
                                        dateFilter asOf from to r = false))
                      (JS.split "," ids)
                      (fst (Eff.mapM (latestPrice candidates)
                                     (JS.split "," ids) w))).
  { apply EffFacts.mapM_Forall2. intros a u.
    rewrite latestPrice_placeholder_iff. unfold candidates.
    split.
    - intros Hnone r Hr Hasset.
      destruct (dateFilter asOf from to r) eqn:E; [|reflexivity].
      exfalso. apply (Hnone r); [|assumption].
      apply filter_In. auto.
    - intros Hnone r Hr Hasset. apply filter_In in Hr as [Hr E].
      rewrite (Hnone r Hr Hasset) in E. discriminate E. }
  destruct (Eff.mapM (latestPrice candidates) (JS.split "," ids) w)
    as [latest w'].
  exists latest. split; [reflexivity | exact H].
Qed.

(** X11: in a reduced response a name gets a placeholder exactly when no
    stored record of that name passes the date filter, be it for an unknown
    or empty name, a day without a record, or a range that holds none. *)
Theorem queryPrices_placeholder_iff_no_match
    (ids : string) (asOf from to : JS.QueryParam) (w : Eff.World) :
  ids <> "" -> JS.truthy asOf = true -> datesAccepted asOf from to = true ->
  exists latest,
    fst (queryPrices (Some ids) asOf from to w) = Json latest
    /\ Forall2 (fun assetId entry =>
                  (exists id, entry = Placeholder id assetId 0)
                  <-> (forall r, In r historicalPrices ->
                                 Price.asset r = assetId ->
                                 dateFilter asOf from to r = false))
               (JS.split "," ids) latest.
Proof. intros Hids Ha Hd. now apply reduced_placeholders. Qed.

(** X12: a complete range whose [from] is later than its [to] matches
    nothing: without [asOf] the response is the empty list, and with it
    every requested name gets a placeholder. *)
Theorem queryPrices_inverted_range
    (ids : string) (asOf from to : JS.QueryParam) (f t : Z) (w : Eff.World) :
  ids <> "" ->
  JS.truthy from = true -> JS.truthy to = true ->
  Date_of_param from = Some f -> Date_of_param to = Some t ->
  t < f ->
  exists out,
    fst (queryPrices (Some ids) asOf from to w) = Json out
    /\ if JS.truthy asOf
       then Forall2 (fun assetId entry =>
                       exists id, entry = Placeholder id assetId 0)
                    (JS.split "," ids) out
       else out = [].
Proof.
  intros Hids Hf Ht Ef Et Hlt.
  assert (Hd : datesAccepted asOf from to = true).
  { unfold Vocab.datesAccepted. rewrite Hf, Ht. simpl.
    now rewrite (Date_of_param_valid parse from Ef),
      (Date_of_param_valid parse to Et). }
  assert (Hnone : forall r, dateFilter asOf from to r = false).
  { intros r. unfold Further.dateFilter. rewrite Hf, Ht, Ef, Et. simpl.
    destruct (inRange (Some f) (Some t) r) eqn:E; [|reflexivity].
    apply inRange_bounds in E as [E _]. lia. }
  destruct (JS.truthy asOf) eqn:Ha.
  - destruct (@reduced_placeholders ids asOf from to w Hids Ha Hd)
      as [latest [E HL]].
    exists latest. split; [exact E|].
    eapply Forall2_impl_In; [exact HL|].
    intros a e _ Hiff. apply Hiff. intros r _ _. apply Hnone.
  - rewrite queryPrices_accepted, respondPrices_plain by assumption.
    simpl. eexists. split; [reflexivity|].
    rewrite filteredCollection_dateFilter.
    assert (E : forall l, filter (dateFilter asOf from to) l = []).
    { induction l as [|x l IH]; simpl; [reflexivity|]. now rewrite Hnone. }
    now rewrite E.
Qed.

End FurtherHandlers.

(** * The further properties on the example host *)

(** Two Bitcoin records of the same instant: the one stored first is
    sent. *)
Example tie_goes_to_first_stored :
  fst (Server.queryPrices Host.parse Host.LocalTZA HostTies.historicalPrices
         (Some "Bitcoin") (Some "2023-01-08") None None (Host.world 0))
  = Json [Stored Host.bitcoin_0108].
Proof. vm_compute. reflexivity. Qed.

Lemma queryPrices_ties_go_to_first_witness :
  exists latest,
    fst (Server.queryPrices Host.parse Host.LocalTZA
           HostTies.historicalPrices
           (Some "Bitcoin") (Some "2023-01-08") None None (Host.world 0))
    = Json latest
    /\ Forall2 (isFirstLatest
                  [Host.ethereum_0108; Host.bitcoin_0108;
                   HostTies.bitcoin_0108_again])
               ["Bitcoin"] latest.
Proof.
  assert (H : "Bitcoin" <> "") by discriminate.
  exact (@queryPrices_ties_go_to_first Host.parse Host.LocalTZA
           HostTies.historicalPrices "Bitcoin" (Some "2023-01-08")
           None None (Host.world 0) H eq_refl eq_refl).
Defined.

Lemma queryPrices_reduction_concatenates_witness :
  exists latest1 w1 latest2 w2,
    Host.queryPrices (Some "Google,Bitcoin") (Some "2023-01-08") None None
      (Host.world 0) = (Json latest1, w1)
    /\ Host.queryPrices (Some "Apple Inc.") (Some "2023-01-08") None None w1
       = (Json latest2, w2)
    /\ Host.queryPrices (Some "Google,Bitcoin,Apple Inc.")
         (Some "2023-01-08") None None (Host.world 0)
       = (Json (latest1 ++ latest2)%list, w2).
Proof.
  assert (H1 : "Google,Bitcoin" <> "") by discriminate.
  assert (H2 : "Apple Inc." <> "") by discriminate.
  exact (@queryPrices_reduction_concatenates Host.parse Host.LocalTZA
           Host.historicalPrices "Google,Bitcoin" "Apple Inc."
           (Some "2023-01-08") None None (Host.world 0)
           H1 H2 eq_refl eq_refl).
Defined.

Lemma queryPrices_asOf_day_only_witness :
  Host.queryPrices (Some "Bitcoin") (Some "2023-01-08") None None
    (Host.world 0)
  = Host.queryPrices (Some "Bitcoin") (Some "2023-01-08T17:45:10.250Z")
      None None (Host.world 0).
Proof.
  exact (@queryPrices_asOf_day_only Host.parse Host.LocalTZA
           Host.historicalPrices (Some "Bitcoin")
           (Some "2023-01-08") (Some "2023-01-08T17:45:10.250Z") None None
           1673136000000 1673199910250 (Host.world 0)
           eq_refl eq_refl eq_refl eq_refl eq_refl).
Defined.

Lemma queryPortfolio_asOf_day_only_witness :
  exists id kept,
    fst (Host.queryPortfolio (Some "2024-06-15") (Host.world 0))
    = Json {| Portfolio.id := id; Portfolio.asOf := "2024-06-15";
              Portfolio.positions := kept |}
    /\ fst (Host.queryPortfolio (Some "2024-06-15T23:59:59.999Z")
              (Host.world 0))
       = Json {| Portfolio.id := id;
                 Portfolio.asOf := "2024-06-15T23:59:59.999Z";
                 Portfolio.positions := kept |}.
Proof.
  assert (H1 : "2024-06-15" <> "") by discriminate.
  assert (H2 : "2024-06-15T23:59:59.999Z" <> "") by discriminate.
  exact (@queryPortfolio_asOf_day_only Host.parse Host.LocalTZA
           Host.positions "2024-06-15" "2024-06-15T23:59:59.999Z"
           1718409600000 1718495999999 (Host.world 0)
           H1 H2 eq_refl eq_refl eq_refl).
Defined.

Lemma queryPrices_dated_entries_valid_witness :
  validTimestamp Host.bitcoin_0108_noon.
Proof.
  apply (@queryPrices_dated_entries_valid Host.parse Host.LocalTZA
           Host.historicalPrices (Some "Bitcoin") (Some "2023-01-08")
           None None (Host.world 0) Host.bitcoin_0108_noon).
  - right. reflexivity.
  - vm_compute. left. reflexivity.
Defined.

Lemma queryPrices_placeholder_iff_no_match_witness :
  exists latest,
    fst (Host.queryPrices (Some "Bitcoin,,Google") (Some "2023-01-08")
           None None (Host.world 0))
    = Json latest
    /\ List.length latest = 3%nat.
Proof.
  assert (H : "Bitcoin,,Google" <> "") by discriminate.
  destruct (@queryPrices_placeholder_iff_no_match Host.parse Host.LocalTZA
              Host.historicalPrices "Bitcoin,,Google" (Some "2023-01-08")
              None None (Host.world 0) H eq_refl eq_refl)
    as [latest [E HL]].
  exists latest. split; [exact E|].
  apply Forall2_length in HL. rewrite <- HL. reflexivity.
Defined.

Lemma queryPrices_inverted_range_witness :
  exists out,
    fst (Host.queryPrices (Some "Bitcoin") None
           (Some "2023-01-31") (Some "2023-01-01") (Host.world 0))
    = Json out
    /\ out = [].
Proof.
  assert (H : "Bitcoin" <> "") by discriminate.
  assert (Hlt : 1672531200000 < 1675123200000) by reflexivity.
  exact (@queryPrices_inverted_range Host.parse Host.LocalTZA
           Host.historicalPrices "Bitcoin" None
           (Some "2023-01-31") (Some "2023-01-01")
           1675123200000 1672531200000 (Host.world 0)
           H eq_refl eq_refl eq_refl eq_refl Hlt).
Defined.

(** * Facts about the calendar *)

Module CalendarFacts.

Ltac split_tests :=
  repeat match goal with
         | |- context [if ?c then _ else _] =>
             let E := fresh "E" in
             destruct c eqn:E;
             [first [apply Z.leb_le in E | apply Z.ltb_lt in E]
             |first [apply Z.leb_gt in E | apply Z.ltb_ge in E]]
         end.

(** Months run from 1 to 12 and days of the month from 1 to 31. *)
Lemma civil_from_days_range (z : Z) :
  1 <= snd (fst (Date.civil_from_days z)) <= 12
  /\ 1 <= snd (Date.civil_from_days z) <= 31.
Proof.
  unfold Date.civil_from_days. cbv zeta. cbn [fst snd].
  set (era := (z + 719468) / 146097).
  set (doe := z + 719468 - era * 146097).
  assert (Hdoe : 0 <= doe < 146097)
    by (subst doe era; Z.div_mod_to_equations; lia).
  clearbody doe.
  set (yoe := (doe - doe / 1460 + doe / 36524 - doe / 146096) / 365).
  assert (Hyoe : 0 <= doe - (365 * yoe + yoe / 4 - yoe / 100) <= 365)
    by (subst yoe; Z.div_mod_to_equations; lia).
  set (doy := doe - (365 * yoe + yoe / 4 - yoe / 100)) in *.
  clearbody doy.
  set (mp := (5 * doy + 2) / 153) in *.
  assert (Hmp : 0 <= mp <= 11 /\ 0 <= doy - (153 * mp + 2) / 5 <= 30)
    by (subst mp; Z.div_mod_to_equations; lia).
  clearbody mp.
  destruct (mp <? 10) eqn:E1;
    [apply Z.ltb_lt in E1 | apply Z.ltb_ge in E1]; lia.
Qed.

(** The day number of the civil date of a day number is that day number. *)
Lemma days_from_civil_from_days (z : Z) :
  Date.days_from_civil (fst (fst (Date.civil_from_days z)))
                       (snd (fst (Date.civil_from_days z)))
                       (snd (Date.civil_from_days z))
  = z.
Proof.
  unfold Date.civil_from_days, Date.days_from_civil. cbv zeta.
  cbn [fst snd].
  set (era := (z + 719468) / 146097).
  set (doe := z + 719468 - era * 146097).
  assert (Hdoe : 0 <= doe < 146097)
    by (subst doe era; Z.div_mod_to_equations; lia).
  assert (Hz : z = era * 146097 + doe - 719468) by (subst doe; lia).
  clearbody doe. clearbody era. subst z.
  set (yoe := (doe - doe / 1460 + doe / 36524 - doe / 146096) / 365).
  assert (Hyoe : 0 <= yoe <= 399
                 /\ 0 <= doe - (365 * yoe + yoe / 4 - yoe / 100) <= 365)
    by (subst yoe; Z.div_mod_to_equations; lia).
  clearbody yoe.
  set (doy := doe - (365 * yoe + yoe / 4 - yoe / 100)) in *.
  assert (Hdoe' : doe = 365 * yoe + yoe / 4 - yoe / 100 + doy)
    by (subst doy; lia).
  clearbody doy. subst doe.
  set (mp := (5 * doy + 2) / 153).
  assert (Hmp : 0 <= mp <= 11) by (subst mp; Z.div_mod_to_equations; lia).
  destruct (mp <? 10) eqn:E1;
    [apply Z.ltb_lt in E1 | apply Z.ltb_ge in E1].
  - replace (mp + 3 <=? 2) with false by (symmetry; apply Z.leb_gt; lia).
    replace (2 <? mp + 3) with true by (symmetry; apply Z.ltb_lt; lia).
    replace (mp + 3 - 3) with mp by lia.
    replace ((yoe + era * 400) / 400) with era
      by (Z.div_mod_to_equations; lia).
    subst mp; Z.div_mod_to_equations; lia.
  - replace (mp - 9 <=? 2) with true by (symmetry; apply Z.leb_le; lia).
    replace (2 <? mp - 9) with false by (symmetry; apply Z.ltb_ge; lia).
    replace (mp - 9 + 9) with mp by lia.
    replace (yoe + era * 400 + 1 - 1) with (yoe + era * 400) by lia.
    replace ((yoe + era * 400) / 400) with era
      by (Z.div_mod_to_equations; lia).
    subst mp; Z.div_mod_to_equations; lia.
Qed.

Lemma days_from_civil_date (y m d k : Z) :
  Date.days_from_civil y m (d + k) = Date.days_from_civil y m d + k.
Proof. unfold Date.days_from_civil. cbv zeta. lia. Qed.

(** Counting the date on from the first of its own month gives the day. *)
Lemma MakeDay_same_month (y m d : Z) :
  1 <= m <= 12 ->
  DateObj.MakeDay y (m - 1) d = Date.days_from_civil y m d.
Proof.
  intros Hm. unfold DateObj.MakeDay.
  replace ((m - 1) / 12) with 0 by (Z.div_mod_to_equations; lia).
  replace ((m - 1) mod 12 + 1) with m by (Z.div_mod_to_equations; lia).
  rewrite Z.add_0_r.
  replace d with (1 + (d - 1)) at 2 by lia.
  rewrite days_from_civil_date. lia.
Qed.

(** The same date of the month before lies 28 to 31 days back. *)
Lemma previous_month_length (y m d : Z) :
  1 <= m <= 12 ->
  28 <= Date.days_from_civil y m d - DateObj.MakeDay y (m - 2) d <= 31.
Proof.
  intros Hm. unfold DateObj.MakeDay.
  set (q := (m - 2) / 12). set (m' := (m - 2) mod 12 + 1).
  assert (Hq : (m = 1 /\ q = -1 /\ m' = 12)
               \/ (2 <= m /\ q = 0 /\ m' = m - 1))
    by (subst q m'; Z.div_mod_to_equations; lia).
  clearbody q m'.
  unfold Date.days_from_civil. cbv zeta.
  destruct Hq as [[-> [-> ->]] | [Hm2 [-> ->]]].
  - split_tests; try lia. Z.div_mod_to_equations; lia.
  - split_tests; try lia.
    all: Z.div_mod_to_equations; lia.
Qed.

Lemma Day_plus_days (t k : Z) :
  Date.Day (t + k * Date.msPerDay) = Date.Day t + k.
Proof.
  unfold Date.Day, Date.msPerDay. Z.div_mod_to_equations; lia.
Qed.

Lemma TimeWithinDay_split (t : Z) :
  t = Date.Day t * Date.msPerDay + Date.TimeWithinDay t.
Proof.
  unfold Date.Day, Date.TimeWithinDay, Date.msPerDay.
  Z.div_mod_to_equations; lia.
Qed.

End CalendarFacts.


(** * Facts about the startup code *)

Module BootFacts.
Section Streams.
Variable F : Type.

Lemma drawn_refl (w : Boot.World F) : Gen.drawn 0 0 0 w w.
Proof. repeat split. Qed.

Lemma drawn_trans (i j r i' j' r' : nat) (w0 w1 w2 : Boot.World F) :
  Gen.drawn i j r w0 w1 -> Gen.drawn i' j' r' w1 w2 ->
  Gen.drawn (i + i') (j + j') (r + r') w0 w2.
Proof.
  intros [Hu [Hr Hc]] [Hu' [Hr' Hc']]. repeat split; intros n.
  - rewrite Hu', Hu. f_equal. lia.
  - rewrite Hr', Hr. f_equal. lia.
  - rewrite Hc', Hc. f_equal. lia.
Qed.

End Streams.
End BootFacts.

Section FixedOffset.

(** A host at a fixed offset from UTC. *)
Variable LocalTZA : Z -> Z.
Variable LocalTZA_of_local : Z -> Z.
Variable offset : Z.
Hypothesis tza_fixed : forall t, LocalTZA t = offset.
Hypothesis tza_of_local_fixed : forall t, LocalTZA_of_local t = offset.

Local Abbreviation getDate := (DateObj.getDate LocalTZA).
Local Abbreviation getMonth := (DateObj.getMonth LocalTZA).
Local Abbreviation setDate := (DateObj.setDate LocalTZA LocalTZA_of_local).
Local Abbreviation setMonth := (DateObj.setMonth LocalTZA LocalTZA_of_local).

(** [date.setDate(date.getDate() + k)] moves a date by [k] days. *)
Lemma setDate_getDate_plus (t k : Z) :
  setDate (Some t) (DateObj.plus (getDate (Some t)) k)
  = Date.TimeClip (t + k * Date.msPerDay).
Proof.
  unfold DateObj.setDate, DateObj.getDate, DateObj.plus, DateObj.UTC,
    DateObj.MakeDate, Date.LocalTime.
  cbv zeta. rewrite tza_fixed, tza_of_local_fixed. f_equal.
  set (l := t + offset).
  unfold Date.YearFromTime, Date.MonthFromTime, Date.DateFromTime.
  pose proof (CalendarFacts.civil_from_days_range (Date.Day l)) as [Hm _].
  rewrite CalendarFacts.MakeDay_same_month by exact Hm.
  rewrite CalendarFacts.days_from_civil_date,
    CalendarFacts.days_from_civil_from_days.
  pose proof (CalendarFacts.TimeWithinDay_split l). lia.
Qed.

(** [date.setMonth(date.getMonth() - 1)] moves a date back by the number
    of days between the first of the month before and that of its own. *)
Lemma setMonth_getMonth_back (t : Z) :
  setMonth (Some t) (DateObj.plus (getMonth (Some t)) (-1))
  = Date.TimeClip (t - Gen.monthBack offset t * Date.msPerDay)
  /\ 28 <= Gen.monthBack offset t <= 31.
Proof.
  unfold DateObj.setMonth, DateObj.getMonth, DateObj.plus, DateObj.UTC,
    DateObj.MakeDate, Date.LocalTime, Gen.monthBack.
  cbv zeta. rewrite tza_fixed, tza_of_local_fixed.
  set (l := t + offset).
  replace (Date.MonthFromTime l - 1 + -1) with (Date.MonthFromTime l - 2)
    by lia.
  split.
  - f_equal. pose proof (CalendarFacts.TimeWithinDay_split l). lia.
  - unfold Date.YearFromTime, Date.MonthFromTime, Date.DateFromTime.
    pose proof (CalendarFacts.civil_from_days_range (Date.Day l)) as [Hm _].
    pose proof (CalendarFacts.previous_month_length
                  (fst (fst (Date.civil_from_days (Date.Day l))))
                  (snd (Date.civil_from_days (Date.Day l))) Hm) as H.
    rewrite CalendarFacts.days_from_civil_from_days in H. exact H.
Qed.

End FixedOffset.

Section PricesGenerator.

Variable parse : string -> option Z.
Variable LocalTZA : Z -> Z.
Variable LocalTZA_of_local : Z -> Z.
Variable F : Type.
Variable F_of_Z : Z -> F.
Variable F_mul : F -> F -> F.
Variable F_add : F -> F -> F.
Variable F_floor : F -> Z.
Variable offset : Z.
Hypothesis tza_fixed : forall t, LocalTZA t = offset.
Hypothesis tza_of_local_fixed : forall t, LocalTZA_of_local t = offset.

Local Abbreviation weekly :=
  (Startup.weekly LocalTZA LocalTZA_of_local F_of_Z F_mul F_add F_floor).
Local Abbreviation forAssets :=
  (Startup.forAssets LocalTZA LocalTZA_of_local F_of_Z F_mul F_add F_floor).
Local Abbreviation generateHistoricalPrices :=
  (Startup.generateHistoricalPrices parse LocalTZA LocalTZA_of_local
     F_of_Z F_mul F_add F_floor).
Local Abbreviation weekRecord :=
  (GenForms.weekRecord F_of_Z F_mul F_add F_floor).
Local Abbreviation weekBlocks :=
  (GenForms.weekBlocks F_of_Z F_mul F_add F_floor).

Lemma weeksUntil_step (t e : Z) :
  t <= e ->
  Gen.weeksUntil t e = S (Gen.weeksUntil (t + Gen.msPerWeek) e).
Proof.
  intros H. unfold Gen.weeksUntil, Gen.msPerWeek, Date.msPerDay.
  rewrite <- Z2Nat.inj_succ by (Z.div_mod_to_equations; lia).
  f_equal. Z.div_mod_to_equations; lia.
Qed.

Lemma weeksUntil_past (t e : Z) : e < t -> Gen.weeksUntil t e = O.
Proof.
  intros H. unfold Gen.weeksUntil, Gen.msPerWeek, Date.msPerDay.
  assert (Hq : (e - t) / (7 * 86400000) + 1 <= 0)
    by (Z.div_mod_to_equations; lia).
  lia.
Qed.

Lemma weekRecord_shift (price : F) (asset : Asset.t) (w : Boot.World F)
    (t : Z) (at_ k : nat) :
  weekRecord price asset w t at_ (S k)
  = weekRecord price asset w (t + Gen.msPerWeek) (S at_) k.
Proof.
  unfold GenForms.weekRecord.
  replace (at_ + S k)%nat with (S at_ + k)%nat by lia.
  f_equal. lia.
Qed.

(** The [while] loop of one asset: with fuel for one test more than weeks
    to push, it returns, having pushed one record a week. *)
Lemma weekly_run (price : F) (asset : Asset.t) (e : Z)
    (w0 : Boot.World F) (r : nat) :
  e <= Date.maxTime ->
  forall fuel t at_ prices w,
    Gen.drawn at_ at_ r w0 w ->
    - Date.maxTime <= t ->
    (Gen.weeksUntil t e < fuel)%nat ->
    exists w',
      weekly fuel price (Some e) asset (Date.TimeClip t) prices w
      = Boot.Returns
          (prices ++ map (weekRecord price asset w0 t at_)
                         (seq 0 (Gen.weeksUntil t e)))%list
          w'
      /\ Gen.drawn (at_ + Gen.weeksUntil t e) (at_ + Gen.weeksUntil t e) r
                   w0 w'.
Proof.
  intros He. induction fuel as [|fuel IH]; intros t at_ prices w Hw Ht Hfuel;
    [lia|].
  simpl Startup.weekly. unfold Date.TimeClip at 1.
  destruct (Z.abs t <=? Date.maxTime) eqn:Eclip.
  - apply Z.leb_le in Eclip.
    rewrite DateFacts.TimeClip_value by exact Eclip.
    change (Date.leb (Some t) (Some e)) with (t <=? e).
    destruct (t <=? e) eqn:Ele.
    + apply Z.leb_le in Ele.
      rewrite (weeksUntil_step Ele) in *.
      unfold Boot.bind, Boot.random, Boot.uuidv4. cbv beta iota.
      rewrite (@setDate_getDate_plus LocalTZA LocalTZA_of_local offset
                 tza_fixed tza_of_local_fixed).
      change (7 * Date.msPerDay) with Gen.msPerWeek.
      match goal with
      | |- context [Startup.weekly _ _ _ _ _ _ fuel _ _ _ _ ?ps ?w1] =>
          destruct (IH (t + Gen.msPerWeek) (S at_) ps w1)
            as [w' [Erun Hdrawn]]
      end.
      * destruct Hw as [Hu [Hr Hc]]. repeat split; intros n; simpl.
        -- rewrite Hu. f_equal. lia.
        -- rewrite Hr. f_equal. lia.
        -- apply Hc.
      * unfold Gen.msPerWeek, Date.msPerDay. lia.
      * lia.
      * exists w'. split.
        -- rewrite Erun. f_equal. rewrite <- app_assoc. f_equal.
           simpl. f_equal.
           ++ destruct Hw as [Hu [Hr _]].
              unfold GenForms.weekRecord. simpl.
              rewrite Hu, Hr, Nat.add_0_r, Z.add_0_r. reflexivity.
           ++ rewrite <- seq_shift, map_map. apply map_ext.
              intros k. symmetry. apply weekRecord_shift.
        -- replace (at_ + S (Gen.weeksUntil (t + Gen.msPerWeek) e))%nat
             with (S at_ + Gen.weeksUntil (t + Gen.msPerWeek) e)%nat by lia.
           exact Hdrawn.
    + apply Z.leb_gt in Ele. rewrite (weeksUntil_past Ele).
      exists w. split; [now rewrite app_nil_r|].
      now rewrite !Nat.add_0_r.
  - apply Z.leb_gt in Eclip.
    assert (Ht' : e < t) by lia.
    rewrite (weeksUntil_past Ht').
    exists w. split; [now rewrite app_nil_r|].
    now rewrite !Nat.add_0_r.
Qed.

Lemma forAssets_run (price : F) (e t : Z) (w0 : Boot.World F) (r : nat)
    (fuel : nat) :
  e <= Date.maxTime -> - Date.maxTime <= t ->
  (Gen.weeksUntil t e < fuel)%nat ->
  forall assets at_ prices w,
    Gen.drawn at_ at_ r w0 w ->
    exists w',
      forAssets fuel price (Date.TimeClip t) (Some e) assets prices w
      = Boot.Returns
          (prices
           ++ weekBlocks price w0 t (Gen.weeksUntil t e) assets at_)%list
          w'
      /\ Gen.drawn (at_ + Gen.weeksUntil t e * List.length assets)
                   (at_ + Gen.weeksUntil t e * List.length assets) r w0 w'.
Proof.
  intros He Ht Hfuel.
  induction assets as [|asset rest IH]; intros at_ prices w Hw; simpl.
  - exists w. split; [now rewrite app_nil_r|].
    now rewrite Nat.mul_0_r, Nat.add_0_r.
  - unfold Boot.bind at 1.
    destruct (@weekly_run price asset e w0 r He fuel t at_ prices w
                Hw Ht Hfuel) as [w1 [-> Hw1]].
    destruct (IH (at_ + Gen.weeksUntil t e)%nat
                 (prices ++ map (weekRecord price asset w0 t at_)
                                (seq 0 (Gen.weeksUntil t e)))%list
                 w1 Hw1) as [w' [-> Hw']].
    exists w'. split; [now rewrite <- app_assoc|].
    replace (at_ + Gen.weeksUntil t e * S (List.length rest))%nat
      with (at_ + Gen.weeksUntil t e
            + Gen.weeksUntil t e * List.length rest)%nat by lia.
    exact Hw'.
Qed.

Lemma weekBlocks_length (price : F) (w : Boot.World F) (t : Z) (n : nat)
    (assets : list Asset.t) (at_ : nat) :
  List.length (weekBlocks price w t n assets at_)
  = (List.length assets * n)%nat.
Proof.
  revert at_. induction assets as [|a rest IH]; intros at_; simpl;
    [reflexivity|].
  now rewrite length_app, length_map, length_seq, IH.
Qed.

Lemma weekBlocks_assets_times (price : F) (w : Boot.World F) (t : Z)
    (n : nat) (assets : list Asset.t) (at_ : nat) :
  map (fun r => (Price.asset r, Price.timestamp r))
      (weekBlocks price w t n assets at_)
  = flat_map (fun a => map (fun k => (Asset.name a,
                                      t + Z.of_nat k * Gen.msPerWeek))
                           (seq 0 n))
             assets.
Proof.
  revert at_. induction assets as [|a rest IH]; intros at_; simpl;
    [reflexivity|].
  now rewrite map_app, map_map, IH.
Qed.

Lemma map_seq_from {A} (f : nat -> A) (n : nat) :
  forall a, map (fun k => f (a + k)%nat) (seq 0 n) = map f (seq a n).
Proof.
  induction n as [|n IH]; intros a; simpl; [reflexivity|].
  rewrite Nat.add_0_r. f_equal. rewrite <- seq_shift, map_map, <- IH.
  apply map_ext. intros k. f_equal. lia.
Qed.

Lemma weekBlocks_ids (price : F) (w : Boot.World F) (t : Z) (n : nat)
    (assets : list Asset.t) (at_ : nat) :
  map Price.id (weekBlocks price w t n assets at_)
  = map (Boot.uuids w) (seq at_ (List.length assets * n)).
Proof.
  revert at_. induction assets as [|a rest IH]; intros at_; simpl;
    [reflexivity|].
  rewrite map_app, map_map, IH, seq_app, map_app. f_equal.
  apply (map_seq_from (Boot.uuids w)).
Qed.


(** The generator as a whole: the blocks of every asset, built on the
    world left by the clock reading and the draw of the base price. *)
Lemma generateHistoricalPrices_run (fuel : nat) (assets : list Asset.t)
    (w : Boot.World F) :
  parse "2023-01-01" = Some Gen.firstWeek ->
  Boot.readings w 0%nat <= Date.maxTime ->
  (Gen.weeksUntil Gen.firstWeek (Boot.readings w 0%nat) < fuel)%nat ->
  let n := Gen.weeksUntil Gen.firstWeek (Boot.readings w 0%nat) in
  let w1 := {| Boot.uuids := Boot.uuids w;
               Boot.randoms := fun k => Boot.randoms w (S k);
               Boot.readings := fun k => Boot.readings w (S k) |} in
  exists w',
    generateHistoricalPrices fuel assets w
    = Boot.Returns
        (weekBlocks (F_mul (Boot.randoms w 0%nat) (F_of_Z 10000))
                    w1 Gen.firstWeek n assets 0)
        w'
    /\ Gen.drawn (n * List.length assets) (S (n * List.length assets)) 1
                 w w'.
Proof.
  intros Hparse He Hfuel n w1.
  unfold Startup.generateHistoricalPrices, Date_of_string.
  rewrite Hparse.
  unfold Boot.bind, Boot.newDate, Boot.random. cbv beta iota.
  destruct (@forAssets_run (F_mul (Boot.randoms w 0%nat) (F_of_Z 10000))
              (Boot.readings w 0%nat) Gen.firstWeek w1 0 fuel He
              ltac:(unfold Gen.firstWeek, Date.maxTime; lia) Hfuel
              assets 0%nat [] w1 (BootFacts.drawn_refl w1))
    as [w' [Erun Hdrawn]].
  exists w'. split; [exact Erun|].
  destruct Hdrawn as [Hu [Hr Hc]]. fold n in Hu, Hr, Hc.
  repeat split; intros k; [rewrite Hu | rewrite Hr | rewrite Hc];
    simpl; reflexivity.
Qed.

Lemma week_not_after (t e : Z) (k : nat) :
  (k < Gen.weeksUntil t e)%nat -> t + Z.of_nat k * Gen.msPerWeek <= e.
Proof.
  unfold Gen.weeksUntil, Gen.msPerWeek, Date.msPerDay. intros Hk.
  assert (Hq : Z.of_nat k <= (e - t) / (7 * 86400000)) by lia.
  Z.div_mod_to_equations; nia.
Qed.

(** X13: on a host at a fixed offset from UTC, with one test of fuel more
    than the weeks from 2023-01-01T00:00Z to the clock reading,
    [generateHistoricalPrices] returns: for each asset in turn, one record a
    week, timestamped midnight UTC of 2023-01-01 and every seventh day after
    it up to the reading, and named after the asset.  Every timestamp is a
    valid date; with a clock before 2023 the store is empty. *)
Theorem generateHistoricalPrices_weekly
    (fuel : nat) (assets : list Asset.t) (w : Boot.World F) :
  parse "2023-01-01" = Some Gen.firstWeek ->
  Boot.readings w 0%nat <= Date.maxTime ->
  (Gen.weeksUntil Gen.firstWeek (Boot.readings w 0%nat) < fuel)%nat ->
  let n := Gen.weeksUntil Gen.firstWeek (Boot.readings w 0%nat) in
  exists prices w',
    generateHistoricalPrices fuel assets w = Boot.Returns prices w'
    /\ map (fun r => (Price.asset r, Price.timestamp r)) prices
       = flat_map (fun a =>
                     map (fun k => (Asset.name a,
                                    Gen.firstWeek
                                    + Z.of_nat k * Gen.msPerWeek))
                         (seq 0 n))
                  assets
    /\ List.length prices = (List.length assets * n)%nat
    /\ Forall (fun r => Gen.firstWeek <= Price.timestamp r
                                      <= Boot.readings w 0%nat
                        /\ validTimestamp r)
              prices.
Proof.
  intros Hparse He Hfuel n.
  destruct (generateHistoricalPrices_run assets w Hparse He Hfuel)
    as [w' [Erun _]].
  eexists. exists w'. split; [exact Erun|]. fold n.
  split; [apply weekBlocks_assets_times|].
  split; [apply weekBlocks_length|].
  match goal with
  | |- Forall ?P ?l =>
      assert (Hts : Forall (fun p => P {| Price.id := ""; Price.asset := "";
                                          Price.price := 0;
                                          Price.timestamp := snd p |})
                           (map (fun r => (Price.asset r, Price.timestamp r))
                                l))
  end.
  { rewrite weekBlocks_assets_times. apply Forall_forall. intros p Hp.
    apply in_flat_map in Hp as [a [_ Hp]].
    apply in_map_iff in Hp as [k [<- Hk]]. apply in_seq in Hk.
    unfold validTimestamp. cbn [Price.timestamp snd].
    pose proof (@week_not_after Gen.firstWeek (Boot.readings w 0%nat) k
                  ltac:(fold n; lia)) as Hle.
    assert (0 <= Z.of_nat k * Gen.msPerWeek)
      by (unfold Gen.msPerWeek, Date.msPerDay; lia).
    unfold Gen.firstWeek, Date.maxTime in *. lia. }
  rewrite Forall_map in Hts. exact Hts.
Qed.


End PricesGenerator.

(** * Facts about the ISO form *)

Module IsoFacts.

Lemma list_ascii_app (a b : string) :
  list_ascii_of_string (a ++ b)
  = (list_ascii_of_string a ++ list_ascii_of_string b)%list.
Proof. induction a as [|c a IH]; simpl; congruence. Qed.

Lemma sepFree_app (sep : ascii) (a b : string) :
  sepFree sep a -> sepFree sep b -> sepFree sep (a ++ b).
Proof.
  unfold sepFree. rewrite list_ascii_app. intros Ha Hb Hin.
  apply in_app_or in Hin. tauto.
Qed.

Lemma sepFree_cons (sep c : ascii) (s : string) :
  c <> sep -> sepFree sep s -> sepFree sep (String c s).
Proof. unfold sepFree. simpl. intros Hc Hs [H|H]; auto. Qed.

Lemma sepFree_empty (sep : ascii) : sepFree sep "".
Proof. intros []. Qed.

Lemma zeros_sepFree (n : nat) : sepFree "T" (Date.zeros n).
Proof.
  induction n as [|n IH]; simpl;
    [apply sepFree_empty | apply sepFree_cons; [discriminate | exact IH]].
Qed.

Lemma digits_sepFree (u : Decimal.uint) :
  sepFree "T" (NilEmpty.string_of_uint u).
Proof.
  induction u; simpl;
    [apply sepFree_empty | apply sepFree_cons; [discriminate | assumption]..].
Qed.

Lemma padded_sepFree (n : Z) (k : nat) : sepFree "T" (Date.padded n k).
Proof.
  unfold Date.padded. cbv zeta. apply sepFree_app; [apply zeros_sepFree|].
  unfold NilZero.string_of_uint.
  destruct (N.to_uint (Z.to_N n));
    try apply digits_sepFree.
  apply sepFree_cons; [discriminate | apply sepFree_empty].
Qed.

Lemma datePart_sepFree (day : Z) : sepFree "T" (Gen.datePart day).
Proof.
  unfold Gen.datePart. cbv zeta.
  repeat first
    [ apply padded_sepFree
    | apply sepFree_app
    | apply sepFree_cons; [discriminate|]
    | apply sepFree_empty
    | match goal with
      | |- sepFree _ (if ?c then _ else _) => destruct c
      end ].
Qed.

Lemma append_assoc (a b c : string) : ((a ++ b) ++ c = a ++ (b ++ c))%string.
Proof. induction a as [|x a IH]; simpl; congruence. Qed.

(** The ISO form is the date part of the day, a [T], and the time. *)
Lemma toISOString_parts (t : Z) :
  exists time,
    Date.toISOString t
    = (Gen.datePart (Date.Day t) ++ String "T" time)%string.
Proof.
  unfold Date.toISOString, Gen.datePart, Date.YearFromTime,
    Date.MonthFromTime, Date.DateFromTime. cbv zeta.
  eexists. rewrite !append_assoc. simpl. reflexivity.
Qed.

Lemma split_T_head (t : Z) :
  match JS.split "T" (Date.toISOString t) with
  | piece :: _ => piece
  | [] => EmptyString
  end = Gen.datePart (Date.Day t).
Proof.
  destruct (toISOString_parts t) as [time ->].
  rewrite split_app_sep, split_sepFree by apply datePart_sepFree.
  reflexivity.
Qed.

Lemma Day_of_day (day : Z) : Date.Day (day * Date.msPerDay) = day.
Proof. unfold Date.Day, Date.msPerDay. Z.div_mod_to_equations; lia. Qed.

(** [date.toISOString().split('T')[0]] depends on the day alone. *)
Lemma isoDateString_datePart (day : Z) :
  DateObj.isoDateString day = Gen.datePart day.
Proof.
  unfold DateObj.isoDateString. rewrite split_T_head. now rewrite Day_of_day.
Qed.

End IsoFacts.

Section PositionsGenerator.

Variable parse : string -> option Z.
Variable LocalTZA : Z -> Z.
Variable LocalTZA_of_local : Z -> Z.
Variable F : Type.
Variable F_of_Z : Z -> F.
Variable F_mul : F -> F -> F.
Variable F_floor : F -> Z.

Local Abbreviation forEachAsset :=
  (Startup.forEachAsset F_of_Z F_mul F_floor).
Local Abbreviation daily :=
  (Startup.daily parse LocalTZA LocalTZA_of_local F_of_Z F_mul F_floor).
Local Abbreviation generatePositionsForTheMonth :=
  (Startup.generatePositionsForTheMonth parse LocalTZA LocalTZA_of_local
     F_of_Z F_mul F_floor).
Local Abbreviation dayPosition := (GenForms.dayPosition F_of_Z F_mul F_floor).
Local Abbreviation dayBlocks := (GenForms.dayBlocks F_of_Z F_mul F_floor).

Lemma isoDay_run (t : Z) (w : Boot.World F) :
  Startup.isoDay (Some t) w
  = Boot.Returns (DateObj.isoDateString (Date.Day t)) w.
Proof.
  unfold Startup.isoDay, Startup.toISOString, Boot.bind, Boot.ret.
  now rewrite IsoFacts.split_T_head, IsoFacts.isoDateString_datePart.
Qed.

(** One run of [assets.forEach] on a valid date: a position for each
    asset, two doubles drawn for each. *)
Lemma forEachAsset_run (w0 : Boot.World F) (day : Z) (at_ : nat) (r : nat) :
  forall assets i index positions w,
    index = 1 + Z.of_nat (at_ + i) ->
    Gen.drawn 0 (2 * (at_ + i)) r w0 w ->
    exists w',
      forEachAsset (Some (day * Date.msPerDay)) assets index positions w
      = Boot.Returns
          (index + Z.of_nat (List.length assets),
           (positions ++ GenForms.mapi (dayPosition w0 day at_) i assets)%list)
          w'
      /\ Gen.drawn 0 (2 * (at_ + i + List.length assets)) r w0 w'.
Proof.
  induction assets as [|asset rest IH]; intros i index positions w Hi Hw.
  - exists w. cbn [Startup.forEachAsset GenForms.mapi List.length].
    rewrite Nat.add_0_r, app_nil_r, Z.add_0_r. auto.
  - cbn [Startup.forEachAsset Startup.toISOString GenForms.mapi List.length].
    unfold Boot.bind, Boot.random, Boot.ret. cbv beta iota.
    match goal with
    | |- context [Startup.forEachAsset _ _ _ _ rest ?ix ?ps ?w1] =>
        destruct (IH (S i) ix ps w1) as [w' [Erun Hdrawn]]
    end.
    + lia.
    + destruct Hw as [Hu [Hr Hc]]. repeat split; intros n;
        cbn [Boot.uuids Boot.randoms Boot.readings].
      * apply Hu.
      * rewrite Hr. f_equal. lia.
      * apply Hc.
    + exists w'. split.
      * rewrite Erun. f_equal. f_equal; [lia|].
        rewrite <- app_assoc. f_equal.
        cbn [app]. f_equal.
        destruct Hw as [_ [Hr _]].
        unfold GenForms.dayPosition.
        cbn [Boot.uuids Boot.randoms Boot.readings].
        rewrite !Hr, Hi, Nat.add_0_r. reflexivity.
      * replace (at_ + i + S (List.length rest))%nat
          with (at_ + S i + List.length rest)%nat by lia.
        exact Hdrawn.
Qed.

Variable offset : Z.
Hypothesis tza_fixed : forall t, LocalTZA t = offset.
Hypothesis tza_of_local_fixed : forall t, LocalTZA_of_local t = offset.

Section Window.

(** The days the loop goes through, and the end date it looks for: the
    host's parser reads their ISO dates, and they are in the range of
    [Date]. *)
Variable startDay endDay : Z.
Hypothesis parse_window :
  forall day, startDay <= day <= endDay ->
              parse (DateObj.isoDateString day) = Some (day * Date.msPerDay).
Hypothesis window_valid :
  - Date.maxTime <= startDay * Date.msPerDay
  /\ endDay * Date.msPerDay <= Date.maxTime.

Lemma isoDateString_injective (a b : Z) :
  startDay <= a <= endDay -> startDay <= b <= endDay ->
  DateObj.isoDateString a = DateObj.isoDateString b -> a = b.
Proof.
  intros Ha Hb E. pose proof (parse_window Ha) as Pa.
  rewrite E, (parse_window Hb) in Pa. injection Pa as Pa.
  unfold Date.msPerDay in Pa. lia.
Qed.

Lemma window_date (day : Z) :
  startDay <= day <= endDay ->
  Date_of_string parse (DateObj.isoDateString day)
  = Some (day * Date.msPerDay).
Proof.
  intros Hd. unfold Date_of_string. rewrite (parse_window Hd).
  apply DateFacts.TimeClip_value. unfold Date.msPerDay in *. lia.
Qed.

(** The [do ... while] loop over the [S n] days from [day] to the eve of
    [endDay]. *)
Lemma daily_run (assets : list Asset.t) (w0 : Boot.World F) (r : nat) :
  forall n fuel day at_ positions w,
    startDay <= day -> day + Z.of_nat (S n) = endDay ->
    (S n <= fuel)%nat ->
    Gen.drawn 0 (2 * at_) r w0 w ->
    exists w',
      daily fuel (DateObj.isoDateString endDay) assets
            (DateObj.isoDateString day) (1 + Z.of_nat at_) positions w
      = Boot.Returns (positions ++ dayBlocks w0 assets day (S n) at_)%list w'
      /\ Gen.drawn 0 (2 * (at_ + S n * List.length assets)) r w0 w'.
Proof.
  induction n as [|n IH]; intros fuel day at_ positions w Hday Hend Hfuel Hw;
    (destruct fuel as [|fuel]; [lia|]);
    cbn [Startup.daily]; rewrite window_date by lia;
    unfold Boot.bind at 1;
    (destruct (@forEachAsset_run w0 day at_ r assets 0%nat
                 (1 + Z.of_nat at_) positions w
                 ltac:(f_equal; f_equal; lia)
                 ltac:(now rewrite Nat.add_0_r))
       as [w1 [-> Hw1]]);
    rewrite Nat.add_0_r in Hw1;
    rewrite (@setDate_getDate_plus LocalTZA LocalTZA_of_local offset
               tza_fixed tza_of_local_fixed);
    replace (day * Date.msPerDay + 1 * Date.msPerDay)
      with ((day + 1) * Date.msPerDay) by lia;
    rewrite DateFacts.TimeClip_value
      by (unfold Date.msPerDay in *; lia);
    unfold Boot.bind at 1; rewrite isoDay_run, IsoFacts.Day_of_day;
    cbn [fst snd].
  - replace (day + 1) with endDay by lia.
    rewrite String.eqb_refl. cbn [negb]. exists w1.
    split; [|now rewrite Nat.mul_1_l].
    unfold Boot.ret. f_equal. cbn [GenForms.dayBlocks].
    now rewrite app_nil_r.
  - assert (Hne : (DateObj.isoDateString (day + 1)
                   =? DateObj.isoDateString endDay)%string = false).
    { apply String.eqb_neq. intros E.
      apply isoDateString_injective in E; lia. }
    rewrite Hne. cbn [negb].
    replace (1 + Z.of_nat at_ + Z.of_nat (List.length assets))
      with (1 + Z.of_nat (at_ + List.length assets)) by lia.
    destruct (IH fuel (day + 1) (at_ + List.length assets)%nat
                 (positions
                  ++ GenForms.mapi (dayPosition w0 day at_) 0 assets)%list
                 w1 ltac:(lia) ltac:(lia) ltac:(lia) Hw1)
      as [w' [-> Hw']].
    exists w'. split.
    + f_equal. rewrite <- app_assoc. reflexivity.
    + replace (at_ + S (S n) * List.length assets)%nat
        with (at_ + List.length assets + S n * List.length assets)%nat
        by lia.
      exact Hw'.
Qed.

End Window.

Lemma mapi_length {A B} (f : nat -> A -> B) (l : list A) :
  forall i, List.length (GenForms.mapi f i l) = List.length l.
Proof. induction l as [|a l IH]; intros i; simpl; congruence. Qed.

Lemma mapi_map {A B C} (g : B -> C) (h : nat -> C) (k : A -> C)
    (f : nat -> A -> B) (l : list A) :
  forall i,
    ((forall j a, g (f j a) = h j) ->
     map g (GenForms.mapi f i l) = map h (seq i (List.length l)))
    /\ ((forall j a, g (f j a) = k a) ->
        map g (GenForms.mapi f i l) = map k l).
Proof.
  induction l as [|a l IH]; intros i; simpl; [auto|].
  split; intros H; rewrite H; f_equal; now apply IH.
Qed.

Lemma flat_map_of_map {A B C} (f : B -> list C) (g : A -> B) (l : list A) :
  flat_map f (map g l) = flat_map (fun x => f (g x)) l.
Proof. induction l as [|a l IH]; simpl; congruence. Qed.

Lemma dayBlocks_length (w : Boot.World F) (assets : list Asset.t) (n : nat) :
  forall day at_,
    List.length (dayBlocks w assets day n at_)
    = (n * List.length assets)%nat.
Proof.
  induction n as [|n IH]; intros day at_; simpl; [reflexivity|].
  now rewrite length_app, mapi_length, IH.
Qed.

Lemma dayBlocks_asOf_asset (w : Boot.World F) (assets : list Asset.t)
    (n : nat) :
  forall day at_,
    map (fun p => (Position.asOf p, Position.asset p))
        (dayBlocks w assets day n at_)
    = flat_map (fun j =>
                  map (fun a => (Date.toISOString
                                   ((day + Z.of_nat j) * Date.msPerDay),
                                 Asset.id a))
                      assets)
               (seq 0 n).
Proof.
  induction n as [|n IH]; intros day at_; [reflexivity|].
  cbn [GenForms.dayBlocks seq flat_map]. rewrite map_app, IH. f_equal.
  - rewrite Z.add_0_r.
    apply (mapi_map (fun p => (Position.asOf p, Position.asset p))
                    (fun _ => ("", ""))). reflexivity.
  - rewrite <- seq_shift, flat_map_of_map.
    apply flat_map_ext. intros j. apply map_ext. intros a.
    do 3 f_equal. lia.
Qed.

Lemma dayBlocks_by_index {C} (g : Position.t -> C) (h : nat -> C)
    (w : Boot.World F) (assets : list Asset.t) (n : nat) :
  (forall day at_ i a, g (dayPosition w day at_ i a) = h (at_ + i)%nat) ->
  forall day at_,
    map g (dayBlocks w assets day n at_)
    = map h (seq at_ (n * List.length assets)).
Proof.
  intros Hg. induction n as [|n IH]; intros day at_; [reflexivity|].
  cbn [GenForms.dayBlocks]. rewrite map_app, IH.
  replace (S n * List.length assets)%nat
    with (List.length assets + n * List.length assets)%nat by lia.
  rewrite seq_app, map_app. f_equal.
  rewrite <- (map_seq_from h).
  rewrite (proj1 (mapi_map g (fun i => h (at_ + i)%nat) (fun _ => h O)
                    (dayPosition w day at_) assets 0%nat)
             (fun j a => Hg day at_ j a)).
  reflexivity.
Qed.

(** The generator as a whole, from the second reading of the clock on. *)
Lemma generatePositionsForTheMonth_run
    (fuel : nat) (assets : list Asset.t) (w : Boot.World F) :
  let today := Boot.readings w 0%nat in
  let now := Boot.readings w 1%nat in
  let endDay := Date.Day today in
  let startDay := Date.Day now - Gen.monthBack offset now in
  0 <= today <= now -> now < today + Date.msPerDay ->
  now <= Date.maxTime ->
  (forall day, startDay <= day <= endDay ->
               parse (DateObj.isoDateString day)
               = Some (day * Date.msPerDay)) ->
  (Z.to_nat (endDay - startDay) <= fuel)%nat ->
  let w2 := {| Boot.uuids := Boot.uuids w; Boot.randoms := Boot.randoms w;
               Boot.readings := fun k => Boot.readings w (S (S k)) |} in
  exists w',
    generatePositionsForTheMonth fuel assets w
    = Boot.Returns
        (dayBlocks w2 assets startDay (Z.to_nat (endDay - startDay)) 0)
        w'
    /\ Gen.drawn 0 (2 * (Z.to_nat (endDay - startDay) * List.length assets))
                 2 w w'
    /\ 27 <= endDay - startDay <= 31.
Proof.
  intros today now endDay startDay Hnow Hday Hmax Hparse Hfuel w2.
  destruct (@setMonth_getMonth_back LocalTZA LocalTZA_of_local offset
              tza_fixed tza_of_local_fixed now) as [Eback Hback].
  assert (Hdays : Date.Day today <= Date.Day now <= Date.Day today + 1).
  { unfold Date.Day, Date.msPerDay in *. Z.div_mod_to_equations; lia. }
  assert (Hlen : 27 <= endDay - startDay <= 31)
    by (unfold endDay, startDay; lia).
  assert (Htoday : 0 <= Date.Day today /\ Date.Day today * Date.msPerDay
                                          <= today).
  { unfold Date.Day, Date.msPerDay in *. Z.div_mod_to_equations; lia. }
  assert (Hvalid : - Date.maxTime <= startDay * Date.msPerDay
                   /\ endDay * Date.msPerDay <= Date.maxTime).
  { unfold endDay, startDay, Date.maxTime, Date.msPerDay in *. lia. }
  unfold Startup.generatePositionsForTheMonth.
  unfold Boot.bind at 1. unfold Boot.newDate at 1. cbv beta iota.
  unfold Boot.bind at 1. rewrite isoDay_run. fold today endDay.
  unfold Boot.bind at 1. unfold Boot.newDate at 1. cbv beta iota.
  cbn [Boot.readings]. fold now. rewrite Eback.
  rewrite DateFacts.TimeClip_value
    by (unfold Date.maxTime, Date.msPerDay in *; lia).
  unfold Boot.bind at 1. rewrite isoDay_run.
  replace (now - Gen.monthBack offset now * Date.msPerDay)
    with (now + - Gen.monthBack offset now * Date.msPerDay) by lia.
  rewrite CalendarFacts.Day_plus_days.
  replace (Date.Day now + - Gen.monthBack offset now) with startDay
    by (unfold startDay; lia).
  destruct (Z.to_nat (endDay - startDay)) as [|n] eqn:En; [lia|].
  destruct (@daily_run startDay endDay Hparse Hvalid assets w2 0 n fuel
              startDay 0%nat [] w2
              ltac:(lia) ltac:(lia) Hfuel (BootFacts.drawn_refl w2))
    as [w' [Erun Hdrawn]].
  exists w'. change (1 + Z.of_nat 0) with 1 in Erun.
  split; [exact Erun|]. split; [|exact Hlen].
  destruct Hdrawn as [Hu [Hr Hc]].
  repeat split; intros k; [rewrite Hu | rewrite Hr | rewrite Hc];
    reflexivity.
Qed.

(** X15: on a host at a fixed offset from UTC whose parser reads the ISO
    dates of the window, [generatePositionsForTheMonth] returns: for each
    day from the one a month before the second clock reading up to the eve
    of the day of the first reading, today left out, one position per asset
    in the order of [assets], dated midnight UTC of that day in ISO form
    and pointing at the asset's identifier.  The identifiers of the
    positions count up from 1, and the window has 27 to 31 days. *)
Theorem generatePositionsForTheMonth_daily
    (fuel : nat) (assets : list Asset.t) (w : Boot.World F) :
  let today := Boot.readings w 0%nat in
  let now := Boot.readings w 1%nat in
  let endDay := Date.Day today in
  let startDay := Date.Day now - Gen.monthBack offset now in
  let days := Z.to_nat (endDay - startDay) in
  0 <= today <= now -> now < today + Date.msPerDay ->
  now <= Date.maxTime ->
  (forall day, startDay <= day <= endDay ->
               parse (DateObj.isoDateString day)
               = Some (day * Date.msPerDay)) ->
  (days <= fuel)%nat ->
  exists positions w',
    generatePositionsForTheMonth fuel assets w = Boot.Returns positions w'
    /\ map (fun p => (Position.asOf p, Position.asset p)) positions
       = flat_map (fun j =>
                     map (fun a => (Date.toISOString
                                      ((startDay + Z.of_nat j)
                                       * Date.msPerDay),
                                    Asset.id a))
                         assets)
                  (seq 0 days)
    /\ map Position.id positions
       = map (fun k => Z.of_nat (S k)) (seq 0 (List.length positions))
    /\ List.length positions = (days * List.length assets)%nat
    /\ 27 <= endDay - startDay <= 31.
Proof.
  intros today now endDay startDay days Hnow Hday Hmax Hparse Hfuel.
  destruct (@generatePositionsForTheMonth_run fuel assets w
              Hnow Hday Hmax Hparse Hfuel) as [w' [Erun [_ Hlen]]].
  eexists. exists w'. split; [exact Erun|].
  split; [apply dayBlocks_asOf_asset|].
  rewrite dayBlocks_length. split; [|split; [reflexivity | exact Hlen]].
  rewrite (@dayBlocks_by_index _ Position.id (fun k => Z.of_nat (S k))).
  - reflexivity.
  - intros day at_ i a. cbn [GenForms.dayPosition Position.id]. lia.
Qed.


End PositionsGenerator.

(** * The loop of the positions on a host that changes its offset *)

Unset Implicit Arguments.

Section PositionsLoop.

Variable parse : string -> option Z.
Variable LocalTZA : Z -> Z.
Variable LocalTZA_of_local : Z -> Z.
Variable F : Type.
Variable F_of_Z : Z -> F.
Variable F_mul : F -> F -> F.
Variable F_floor : F -> Z.

Local Abbreviation forEachAsset :=
  (Startup.forEachAsset F_of_Z F_mul F_floor).
Local Abbreviation daily :=
  (Startup.daily parse LocalTZA LocalTZA_of_local F_of_Z F_mul F_floor).
Local Abbreviation getDate := (DateObj.getDate LocalTZA).
Local Abbreviation setDate := (DateObj.setDate LocalTZA LocalTZA_of_local).

Lemma forEachAsset_returns (t : Z) (assets : list Asset.t) :
  forall index positions w,
  exists state w',
    forEachAsset (Some t) assets index positions w = Boot.Returns state w'.
Proof.
  induction assets as [|asset rest IH]; intros index positions w;
    cbn [Startup.forEachAsset Startup.toISOString].
  - unfold Boot.ret. eauto.
  - unfold Boot.bind, Boot.random, Boot.ret. cbv beta iota. apply IH.
Qed.

(** One run of the body that does not reach the end date. *)
Lemma daily_step (endDate s : string) (t t' : Z) :
  Date_of_string parse s = Some t ->
  setDate (Some t) (DateObj.plus (getDate (Some t)) 1) = Some t' ->
  DateObj.isoDateString (Date.Day t') <> endDate ->
  forall fuel assets index positions w,
  exists index' positions' w',
    daily (S fuel) endDate assets s index positions w
    = daily fuel endDate assets (DateObj.isoDateString (Date.Day t'))
            index' positions' w'.
Proof.
  intros Hs Hnext Hne fuel assets index positions w.
  cbn [Startup.daily]. rewrite Hs.
  destruct (forEachAsset_returns t assets index positions w)
    as [[index' positions'] [w' E]].
  unfold Boot.bind at 1. rewrite E, Hnext.
  unfold Boot.bind at 1. rewrite isoDay_run.
  apply String.eqb_neq in Hne. rewrite Hne. cbn [negb fst snd].
  eauto.
Qed.

Lemma daily_stuck (endDate s : string) (t t' : Z) :
  Date_of_string parse s = Some t ->
  setDate (Some t) (DateObj.plus (getDate (Some t)) 1) = Some t' ->
  DateObj.isoDateString (Date.Day t') = s ->
  s <> endDate ->
  forall fuel assets index positions w,
    daily fuel endDate assets s index positions w = Boot.Unfinished.
Proof.
  intros Hs Hnext Hsame Hne.
  induction fuel as [|fuel IH]; intros assets index positions w;
    [reflexivity|].
  destruct (@daily_step endDate s t t' Hs Hnext
              ltac:(now rewrite Hsame) fuel assets index positions w)
    as [index' [positions' [w' ->]]].
  rewrite Hsame. apply IH.
Qed.

(** X17: the loop of the positions never ends once it meets a day from
    which [setDate(getDate() + 1)] lands on an instant of the same UTC day,
    as happens where the offset from UTC grows during that local day: the
    date string stays the same, so no number of runs of the body reaches
    the end date. *)
Theorem positions_loop_never_ends (endDate s : string) (t t' : Z) :
  Date_of_string parse s = Some t ->
  setDate (Some t) (DateObj.plus (getDate (Some t)) 1) = Some t' ->
  DateObj.isoDateString (Date.Day t') = s ->
  s <> endDate ->
  forall fuel assets index positions w,
    daily fuel endDate assets s index positions w = Boot.Unfinished.
Proof. exact (@daily_stuck endDate s t t'). Qed.

End PositionsLoop.

(** On Paris time, a server started on 2024-04-30 never gets its
    positions: the loop starts on 2024-03-30 and stays on 2024-03-31, the
    day the clocks go forward. *)
Example paris_positions_never_generated (fuel : nat) :
  HostParis.generatePositionsForTheMonth fuel HostBoot.twoAssets
    (HostBoot.world 1714478400000)
  = Boot.Unfinished.
Proof.
  unfold HostParis.generatePositionsForTheMonth,
    Startup.generatePositionsForTheMonth.
  unfold Boot.bind at 1. unfold Boot.newDate at 1. cbv beta iota.
  unfold Boot.bind at 1. rewrite isoDay_run.
  unfold Boot.bind at 1. unfold Boot.newDate at 1. cbv beta iota.
  match goal with
  | |- context [DateObj.setMonth ?a ?b ?c ?d] =>
      let v := eval vm_compute in (DateObj.setMonth a b c d) in
      change (DateObj.setMonth a b c d) with v
  end.
  unfold Boot.bind at 1. rewrite isoDay_run.
  match goal with
  | |- Startup.daily _ _ _ _ _ _ _ ?e _ ?s _ _ _ = _ =>
      let ve := eval vm_compute in e in
      let vs := eval vm_compute in s in
      change e with ve; change s with vs
  end.
  destruct fuel as [|fuel]; [reflexivity|].
  match goal with
  | |- Startup.daily _ _ _ _ _ _ _ _ _ _ _ _ ?w0 = _ =>
      destruct (@daily_step Host.parse HostParis.LocalTZA
                  HostParis.LocalTZA_of_local HostBoot.F HostBoot.F_of_Z
                  HostBoot.F_mul HostBoot.F_floor
                  "2024-04-30" "2024-03-30" 1711756800000 1711843200000
                  eq_refl eq_refl ltac:(vm_compute; discriminate)
                  fuel HostBoot.twoAssets 1 [] w0)
        as [index' [positions' [w' E]]]
  end.
  unfold HostParis.daily in *.
  rewrite E.
  apply (@daily_stuck Host.parse HostParis.LocalTZA
           HostParis.LocalTZA_of_local HostBoot.F HostBoot.F_of_Z
           HostBoot.F_mul HostBoot.F_floor
           "2024-04-30" "2024-03-31" 1711843200000 1711926000000).
  - reflexivity.
  - reflexivity.
  - vm_compute. reflexivity.
  - discriminate.
Qed.

(** * What a date string tells *)

Module DateStringFacts.

Lemma append_inj (a a' b b' : string) :
  String.length a = String.length a' ->
  (a ++ b = a' ++ b')%string -> a = a' /\ b = b'.
Proof.
  revert a'. induction a as [|c a IH]; intros [|c' a'] Hlen H;
    simpl in *; try discriminate.
  - now split.
  - injection H as -> H. injection Hlen as Hlen.
    destruct (IH a' Hlen H) as [-> ->]. now split.
Qed.

Lemma uint_of_string_zeros (j : nat) (s : string) :
  NilEmpty.uint_of_string (Date.zeros j ++ s)
  = option_map (Nat.iter j Decimal.D0) (NilEmpty.uint_of_string s).
Proof.
  induction j as [|j IH]; simpl.
  - now destruct (NilEmpty.uint_of_string s).
  - rewrite IH. now destruct (NilEmpty.uint_of_string s).
Qed.

Lemma of_uint_zeros (j : nat) (d : Decimal.uint) :
  N.of_uint (Nat.iter j Decimal.D0 d) = N.of_uint d.
Proof. induction j as [|j IH]; [reflexivity | exact IH]. Qed.

(** Reading a padded numeral back gives the number. *)
Lemma padded_read (n : Z) (k : nat) :
  option_map N.of_uint (NilEmpty.uint_of_string (Date.padded n k))
  = Some (Z.to_N n).
Proof.
  unfold Date.padded. rewrite uint_of_string_zeros.
  assert (E : option_map N.of_uint
                (NilEmpty.uint_of_string
                   (NilZero.string_of_uint (N.to_uint (Z.to_N n))))
              = Some (Z.to_N n)).
  { rewrite <- (DecimalN.Unsigned.of_to (Z.to_N n)) at 2.
    destruct (N.to_uint (Z.to_N n)) eqn:Eu;
      [reflexivity | unfold NilZero.string_of_uint; rewrite NilEmpty.usu;
                     reflexivity ..]. }
  destruct (NilEmpty.uint_of_string
              (NilZero.string_of_uint (N.to_uint (Z.to_N n)))) as [d|];
    [|discriminate].
  simpl in *. rewrite of_uint_zeros. exact E.
Qed.

Lemma padded_inj (n n' : Z) (k k' : nat) :
  0 <= n -> 0 <= n' -> Date.padded n k = Date.padded n' k' -> n = n'.
Proof.
  intros Hn Hn' E.
  pose proof (padded_read n k) as R. rewrite E in R.
  pose proof (padded_read n' k') as R'.
  assert (Z.to_N n = Z.to_N n') by congruence. lia.
Qed.

Lemma padded_not_minus (n : Z) (k : nat) (rest : string) :
  Date.padded n k <> String "-" rest.
Proof.
  intros E. pose proof (padded_read n k) as R. rewrite E in R.
  cbn [NilEmpty.uint_of_string] in R.
  destruct (NilEmpty.uint_of_string rest); discriminate R.
Qed.

Lemma padded_2_length (d : Z) :
  1 <= d <= 31 -> String.length (Date.padded d 2) = 2%nat.
Proof.
  intros H.
  assert (Hk : exists k, (k < 31)%nat /\ d = 1 + Z.of_nat k)
    by (exists (Z.to_nat (d - 1)); lia).
  destruct Hk as [k [Hk ->]].
  do 31 (destruct k as [|k]; [reflexivity|]). lia.
Qed.

Lemma weekdayName_length (w : Z) :
  String.length (Date.weekdayName w) = 3%nat.
Proof.
  unfold Date.weekdayName.
  repeat match goal with
         | |- context [if ?b then _ else _] => destruct b
         end; reflexivity.
Qed.

Lemma monthName_length (m : Z) : String.length (Date.monthName m) = 3%nat.
Proof.
  unfold Date.monthName.
  repeat match goal with
         | |- context [if ?b then _ else _] => destruct b
         end; reflexivity.
Qed.

Lemma monthName_inj (m m' : Z) :
  1 <= m <= 12 -> 1 <= m' <= 12 ->
  Date.monthName m = Date.monthName m' -> m = m'.
Proof.
  intros Hm Hm'.
  assert (Hk : exists k, (k < 12)%nat /\ m = 1 + Z.of_nat k)
    by (exists (Z.to_nat (m - 1)); lia).
  assert (Hk' : exists k, (k < 12)%nat /\ m' = 1 + Z.of_nat k)
    by (exists (Z.to_nat (m' - 1)); lia).
  destruct Hk as [k [Hk ->]]. destruct Hk' as [k' [Hk' ->]].
  do 12 (destruct k as [|k];
         [do 12 (destruct k' as [|k'];
                 [vm_compute; intros E; first [reflexivity | discriminate E]|]);
          lia|]).
  lia.
Qed.

(** The date string tells the day: two instants with the same
    [DateString] are of the same day number. *)
Lemma DateString_inj (a b : Z) :
  Date.DateString a = Date.DateString b -> Date.Day a = Date.Day b.
Proof.
  unfold Date.DateString, Date.YearFromTime, Date.MonthFromTime,
    Date.DateFromTime. cbv zeta.
  destruct (CalendarFacts.civil_from_days_range (Date.Day a)) as [Hm Hd].
  destruct (CalendarFacts.civil_from_days_range (Date.Day b)) as [Hm' Hd'].
  pose proof (CalendarFacts.days_from_civil_from_days (Date.Day a)) as Ra.
  pose proof (CalendarFacts.days_from_civil_from_days (Date.Day b)) as Rb.
  set (ca := Date.civil_from_days (Date.Day a)) in *.
  set (cb := Date.civil_from_days (Date.Day b)) in *.
  clearbody ca cb.
  intros E.
  apply append_inj in E as [_ E];
    [|now rewrite !weekdayName_length].
  injection E as E.
  apply append_inj in E as [Emon E];
    [|now rewrite !monthName_length].
  injection E as E.
  apply append_inj in E as [Eday E];
    [|now rewrite !padded_2_length].
  injection E as E.
  apply monthName_inj in Emon; [|assumption ..].
  apply padded_inj in Eday; [|lia ..].
  assert (Ey : fst (fst ca) = fst (fst cb)).
  { destruct (Z.ltb_spec (fst (fst ca)) 0) as [Ha|Ha];
      destruct (Z.ltb_spec (fst (fst cb)) 0) as [Hb|Hb];
      cbn [String.append] in E.
    - injection E as E. apply padded_inj in E; lia.
    - symmetry in E. now apply padded_not_minus in E.
    - now apply padded_not_minus in E.
    - apply padded_inj in E; lia. }
  rewrite <- Ra, <- Rb. now rewrite Emon, Eday, Ey.
Qed.

End DateStringFacts.

(** * Calendar days, exactly *)

Section LocalDayFacts.

Variable parse : string -> option Z.
Variable LocalTZA : Z -> Z.

Lemma toDateString_eqb_same (a b : Date.t) :
  (Date.toDateString LocalTZA a =? Date.toDateString LocalTZA b)%string
  = LocalDay.same LocalTZA a b.
Proof.
  destruct a as [ta|], b as [tb|]; unfold LocalDay.same;
    cbn [LocalDay.of_date Date.toDateString].
  - destruct (Z.eqb_spec (Date.Day (Date.LocalTime LocalTZA ta))
                         (Date.Day (Date.LocalTime LocalTZA tb))) as [E|E].
    + apply String.eqb_eq.
      exact (DateFacts.toDateString_same_Day LocalTZA ta tb E).
    + apply String.eqb_neq. intros H. apply E.
      now apply DateStringFacts.DateString_inj.
  - apply String.eqb_neq. apply DateFacts.DateString_not_Invalid.
  - apply String.eqb_neq. intros H. symmetry in H.
    now apply DateFacts.DateString_not_Invalid in H.
  - reflexivity.
Qed.

(** X18: the two calendar-day filters compare local day numbers and nothing
    else: the callback of line 148 keeps a price, and that of line 195 a
    position, exactly when its date and [asOfDate] are both valid and
    [floor((t + offset(t)) / 86400000)] is the same for both, or both are
    invalid. *)
Theorem calendar_day_filters_compare_local_days (asOfDate : Date.t) :
  (forall price,
      onDay LocalTZA asOfDate price
      = LocalDay.same LocalTZA (Date.of_number (Price.timestamp price))
                      asOfDate)
  /\ (forall position,
         positionOnDay parse LocalTZA asOfDate position
         = LocalDay.same LocalTZA
             (Date_of_string parse (Position.asOf position)) asOfDate).
Proof. split; intros x; apply toDateString_eqb_same. Qed.

End LocalDayFacts.

(** * The handlers on the generated data *)

Section FixedOffsetDays.

Variable LocalTZA : Z -> Z.
Variable offset : Z.
Hypothesis tza_fixed : forall t, LocalTZA t = offset.

Lemma same_fixed (a b : Z) :
  LocalDay.same LocalTZA (Some a) (Some b)
  = (Date.Day (a + offset) =? Date.Day (b + offset)).
Proof.
  unfold LocalDay.same, LocalDay.of_date, Date.LocalTime.
  now rewrite !tza_fixed.
Qed.

Lemma Day_midnight (d c : Z) :
  Date.Day (d * Date.msPerDay + c) = d + Date.Day c.
Proof.
  unfold Date.Day, Date.msPerDay. Z.div_mod_to_equations; lia.
Qed.

End FixedOffsetDays.

Section GeneratedPositions.

Variable parse : string -> option Z.
Variable LocalTZA : Z -> Z.
Variable LocalTZA_of_local : Z -> Z.
Variable F : Type.
Variable F_of_Z : Z -> F.
Variable F_mul : F -> F -> F.
Variable F_floor : F -> Z.
Variable offset : Z.
Hypothesis tza_fixed : forall t, LocalTZA t = offset.
Hypothesis tza_of_local_fixed : forall t, LocalTZA_of_local t = offset.

Local Abbreviation generatePositionsForTheMonth :=
  (Startup.generatePositionsForTheMonth parse LocalTZA LocalTZA_of_local
     F_of_Z F_mul F_floor).
Local Abbreviation dayPosition := (GenForms.dayPosition F_of_Z F_mul F_floor).
Local Abbreviation dayBlocks := (GenForms.dayBlocks F_of_Z F_mul F_floor).

Section OneDay.

(** The instant asked for, and the day whose midnight UTC falls on the
    same local day. *)
Variable t : Z.
Local Abbreviation day := (Date.Day (t + offset) - Date.Day offset).

Lemma positionOnDay_dayPosition (w : Boot.World F) (d : Z) (at_ i : nat)
    (a : Asset.t) :
  parse (Date.toISOString (d * Date.msPerDay)) = Some (d * Date.msPerDay) ->
  Z.abs (d * Date.msPerDay) <= Date.maxTime ->
  positionOnDay parse LocalTZA (Some t) (dayPosition w d at_ i a)
  = (d =? day).
Proof.
  intros Hparse Hvalid. unfold positionOnDay, toDateString.
  rewrite toDateString_eqb_same.
  cbn [GenForms.dayPosition Position.asOf]. unfold Date_of_string.
  rewrite Hparse, (@DateFacts.TimeClip_value _ Hvalid).
  rewrite (same_fixed LocalTZA offset tza_fixed), Day_midnight.
  destruct (Z.eqb_spec (d + Date.Day offset) (Date.Day (t + offset)));
    destruct (Z.eqb_spec d (Date.Day (t + offset) - Date.Day offset));
    first [reflexivity | lia].
Qed.

Lemma filter_day_block (w : Boot.World F) (d : Z) (at_ : nat) :
  parse (Date.toISOString (d * Date.msPerDay)) = Some (d * Date.msPerDay) ->
  Z.abs (d * Date.msPerDay) <= Date.maxTime ->
  forall assets i,
    filter (positionOnDay parse LocalTZA (Some t))
           (GenForms.mapi (dayPosition w d at_) i assets)
    = if d =? day then GenForms.mapi (dayPosition w d at_) i assets else [].
Proof.
  intros Hparse Hvalid. induction assets as [|a rest IH]; intros i.
  - now destruct (d =? day).
  - cbn [GenForms.mapi filter].
    rewrite (positionOnDay_dayPosition w d at_ i a Hparse Hvalid), IH.
    now destruct (d =? day).
Qed.

Lemma filter_dayBlocks (w : Boot.World F) (assets : list Asset.t) :
  forall n d0 at_,
    (forall d, d0 <= d < d0 + Z.of_nat n ->
               parse (Date.toISOString (d * Date.msPerDay))
               = Some (d * Date.msPerDay)
               /\ Z.abs (d * Date.msPerDay) <= Date.maxTime) ->
    filter (positionOnDay parse LocalTZA (Some t))
           (dayBlocks w assets d0 n at_)
    = if (d0 <=? day) && (day <? d0 + Z.of_nat n)
      then GenForms.mapi
             (dayPosition w day
                (at_ + Z.to_nat (day - d0) * List.length assets))
             0 assets
      else [].
Proof.
  induction n as [|n IH]; intros d0 at_ Hwin.
  - cbn [GenForms.dayBlocks filter].
    destruct (Z.leb_spec d0 day); destruct (Z.ltb_spec day (d0 + Z.of_nat 0));
      cbn [andb]; first [reflexivity | lia].
  - cbn [GenForms.dayBlocks]. rewrite filter_app.
    destruct (Hwin d0 ltac:(lia)) as [Hparse Hvalid].
    rewrite (filter_day_block w d0 at_ Hparse Hvalid assets 0%nat).
    rewrite IH by (intros d Hd; apply Hwin; lia).
    destruct (Z.eqb_spec d0 day) as [E|E].
    + subst d0.
      destruct (Z.leb_spec (day + 1) day); [lia|]. cbn [andb].
      destruct (Z.leb_spec day day); [|lia].
      destruct (Z.ltb_spec day (day + Z.of_nat (S n))); [|lia].
      cbn [andb]. rewrite app_nil_r, Z.sub_diag. cbn [Z.to_nat Nat.mul].
      now rewrite Nat.add_0_r.
    + cbn [app].
      destruct (Z.leb_spec (d0 + 1) day) as [H1|H1];
        destruct (Z.ltb_spec day (d0 + 1 + Z.of_nat n)) as [H2|H2];
        destruct (Z.leb_spec d0 day) as [H3|H3];
        destruct (Z.ltb_spec day (d0 + Z.of_nat (S n))) as [H4|H4];
        cbn [andb]; try reflexivity; try lia.
      replace (at_ + List.length assets
               + Z.to_nat (day - (d0 + 1)) * List.length assets)%nat
        with (at_ + Z.to_nat (day - d0) * List.length assets)%nat;
        [reflexivity|].
      replace (Z.to_nat (day - d0)) with (S (Z.to_nat (day - (d0 + 1))))
        by lia.
      cbn [Nat.mul]. lia.
Qed.

End OneDay.

Lemma slice_dayBlocks (w : Boot.World F) (assets : list Asset.t) :
  forall n j d0 at_,
    (j < n)%nat ->
    firstn (List.length assets)
           (skipn (j * List.length assets) (dayBlocks w assets d0 n at_))
    = GenForms.mapi
        (dayPosition w (d0 + Z.of_nat j) (at_ + j * List.length assets))
        0 assets.
Proof.
  induction n as [|n IH]; intros j d0 at_ Hj; [lia|].
  cbn [GenForms.dayBlocks].
  pose proof (@mapi_length _ _ (dayPosition w d0 at_) assets 0%nat) as Hlen.
  destruct j as [|j].
  - cbn [Nat.mul skipn]. rewrite firstn_app, Hlen, Nat.sub_diag.
    cbn [firstn]. rewrite app_nil_r, <- Hlen at 1.
    rewrite firstn_all, Z.add_0_r, Nat.add_0_r. reflexivity.
  - rewrite skipn_app, Hlen.
    rewrite skipn_all2 by (rewrite Hlen; cbn [Nat.mul]; lia).
    cbn [app].
    replace (S j * List.length assets - List.length assets)%nat
      with (j * List.length assets)%nat by (cbn [Nat.mul]; lia).
    rewrite IH by lia.
    replace (d0 + 1 + Z.of_nat j) with (d0 + Z.of_nat (S j)) by lia.
    replace (at_ + List.length assets + j * List.length assets)%nat
      with (at_ + S j * List.length assets)%nat by (cbn [Nat.mul]; lia).
    reflexivity.
Qed.

(** X19: a snapshot asked of the generated positions.  On a host at a
    fixed offset from UTC whose parser reads the ISO strings of the window,
    [GET /portfolios] with an [asOf] on the local day of midnight UTC of
    [day] returns, for a day of the window, the positions generated for it:
    the [n] consecutive ones from index [(day - startDay) * n], one per
    asset in the order of [assets]; for any other day, today included, it
    returns none. *)
Theorem generated_portfolio_of_day
    (fuel : nat) (assets : list Asset.t) (w : Boot.World F)
    (asOf : string) (t : Z) (u : Eff.World) :
  let today := Boot.readings w 0%nat in
  let now := Boot.readings w 1%nat in
  let endDay := Date.Day today in
  let startDay := Date.Day now - Gen.monthBack offset now in
  let day := Date.Day (t + offset) - Date.Day offset in
  let n := List.length assets in
  0 <= today <= now -> now < today + Date.msPerDay ->
  now <= Date.maxTime ->
  (forall d, startDay <= d <= endDay ->
             parse (DateObj.isoDateString d) = Some (d * Date.msPerDay)) ->
  (forall d, startDay <= d < endDay ->
             parse (Date.toISOString (d * Date.msPerDay))
             = Some (d * Date.msPerDay)) ->
  (Z.to_nat (endDay - startDay) <= fuel)%nat ->
  asOf <> "" -> Date_of_string parse asOf = Some t ->
  exists positions w' kept,
    generatePositionsForTheMonth fuel assets w = Boot.Returns positions w'
    /\ fst (Server.queryPortfolio parse LocalTZA positions (Some asOf) u)
       = Json {| Portfolio.id := Eff.entropy u 0%nat;
                 Portfolio.asOf := asOf;
                 Portfolio.positions := kept |}
    /\ if (startDay <=? day) && (day <? endDay)
       then kept = firstn n (skipn (Z.to_nat (day - startDay) * n) positions)
            /\ map (fun p => (Position.asOf p, Position.asset p)) kept
               = map (fun a => (Date.toISOString (day * Date.msPerDay),
                                Asset.id a))
                     assets
       else kept = [].
Proof.
  intros today now endDay startDay day n Hnow Hday Hmax Hdates Hiso Hfuel
    Hne Et.
  destruct (@generatePositionsForTheMonth_run parse LocalTZA
              LocalTZA_of_local F F_of_Z F_mul F_floor offset
              tza_fixed tza_of_local_fixed fuel assets w
              Hnow Hday Hmax Hdates Hfuel) as [w' [Erun [_ Hlen]]].
  fold today now endDay startDay in Erun, Hlen.
  set (w2 := {| Boot.uuids := Boot.uuids w; Boot.randoms := Boot.randoms w;
                Boot.readings := fun k => Boot.readings w (S (S k)) |})
    in Erun.
  set (days := Z.to_nat (endDay - startDay)) in *.
  exists (dayBlocks w2 assets startDay days 0), w'.
  assert (Hwin : forall d, startDay <= d < startDay + Z.of_nat days ->
             parse (Date.toISOString (d * Date.msPerDay))
             = Some (d * Date.msPerDay)
             /\ Z.abs (d * Date.msPerDay) <= Date.maxTime).
  { intros d Hd. split; [apply Hiso; lia|].
    assert (H0 : 0 <= endDay /\ endDay * Date.msPerDay <= today).
    { unfold endDay, Date.Day, Date.msPerDay in *.
      Z.div_mod_to_equations; lia. }
    unfold Date.maxTime, Date.msPerDay in *. lia. }
  pose proof (filter_dayBlocks t w2 assets days startDay 0 Hwin) as Hf.
  fold day in Hf. cbn [Nat.add] in Hf.
  replace (startDay + Z.of_nat days) with endDay in Hf by lia.
  eexists. split; [exact Erun|]. split.
  - unfold Server.queryPortfolio, Server.isValidDate.
    cbn [JS.truthy Server.Date_of_param].
    rewrite (@eqb_empty_false _ Hne), Et. cbn [negb Date.valid].
    rewrite respondPortfolio_Json. rewrite (@eqb_empty_false _ Hne).
    reflexivity.
  - fold n in Hf. rewrite Hf.
    destruct ((startDay <=? day) && (day <? endDay)) eqn:Ein;
      [|reflexivity].
    apply andb_true_iff in Ein as [H1 H2].
    apply Z.leb_le in H1. apply Z.ltb_lt in H2.
    split.
    + pose proof (slice_dayBlocks w2 assets days (Z.to_nat (day - startDay))
                    startDay 0 ltac:(lia)) as Hs.
      fold n in Hs. rewrite Hs. cbn [Nat.add].
      replace (startDay + Z.of_nat (Z.to_nat (day - startDay))) with day
        by lia.
      reflexivity.
    + apply (@mapi_map _ _ _
               (fun p => (Position.asOf p, Position.asset p))
               (fun _ => (EmptyString, EmptyString))
               (fun a => (Date.toISOString (day * Date.msPerDay),
                          Asset.id a))).
      intros j a. reflexivity.
Qed.

End GeneratedPositions.

Section GeneratedPrices.

Variable parse : string -> option Z.
Variable LocalTZA : Z -> Z.
Variable LocalTZA_of_local : Z -> Z.
Variable F : Type.
Variable F_of_Z : Z -> F.
Variable F_mul : F -> F -> F.
Variable F_add : F -> F -> F.
Variable F_floor : F -> Z.
Variable offset : Z.
Hypothesis tza_fixed : forall t, LocalTZA t = offset.
Hypothesis tza_of_local_fixed : forall t, LocalTZA_of_local t = offset.

Local Abbreviation generateHistoricalPrices :=
  (Startup.generateHistoricalPrices parse LocalTZA LocalTZA_of_local
     F_of_Z F_mul F_add F_floor).
Local Abbreviation weekBlocks :=
  (GenForms.weekBlocks F_of_Z F_mul F_add F_floor).

Lemma weekBlocks_In (price : F) (w : Boot.World F) (t0 : Z) (n : nat)
    (assets : list Asset.t) (at_ : nat) (r : Price.t) :
  In r (weekBlocks price w t0 n assets at_) ->
  exists a k,
    In a assets /\ (k < n)%nat /\ Price.asset r = Asset.name a
    /\ Price.timestamp r = t0 + Z.of_nat k * Gen.msPerWeek.
Proof.
  intros Hr.
  apply (in_map (fun r => (Price.asset r, Price.timestamp r))) in Hr.
  rewrite weekBlocks_assets_times in Hr.
  apply in_flat_map in Hr as [a [Ha Hr]].
  apply in_map_iff in Hr as [k [E Hk]]. apply in_seq in Hk.
  injection E as E1 E2. exists a, k. repeat split; auto; lia.
Qed.

Lemma weekBlocks_has (price : F) (w : Boot.World F) (t0 : Z) (n : nat)
    (assets : list Asset.t) (at_ : nat) (a : Asset.t) (k : nat) :
  In a assets -> (k < n)%nat ->
  exists r,
    In r (weekBlocks price w t0 n assets at_)
    /\ Price.asset r = Asset.name a
    /\ Price.timestamp r = t0 + Z.of_nat k * Gen.msPerWeek.
Proof.
  intros Ha Hk.
  assert (H : In (Asset.name a, t0 + Z.of_nat k * Gen.msPerWeek)
                 (map (fun r => (Price.asset r, Price.timestamp r))
                      (weekBlocks price w t0 n assets at_))).
  { rewrite weekBlocks_assets_times. apply in_flat_map. exists a.
    split; [assumption|]. apply in_map_iff. exists k.
    split; [reflexivity|]. apply in_seq. lia. }
  apply in_map_iff in H as [r [E Hr]]. injection E as E1 E2. eauto.
Qed.

Lemma onDay_week (t : Z) (r : Price.t) (k : nat) :
  Price.timestamp r = Gen.firstWeek + Z.of_nat k * Gen.msPerWeek ->
  Price.timestamp r <= Date.maxTime ->
  onDay LocalTZA (Some t) r
  = (Date.Day Gen.firstWeek + 7 * Z.of_nat k
     =? Date.Day (t + offset) - Date.Day offset).
Proof.
  intros Ets Hmax. unfold onDay, toDateString.
  rewrite toDateString_eqb_same. unfold Date.of_number.
  rewrite DateFacts.TimeClip_value
    by (rewrite Ets in *; unfold Gen.firstWeek, Gen.msPerWeek,
          Date.msPerDay, Date.maxTime in *; lia).
  rewrite (same_fixed LocalTZA offset tza_fixed), Ets.
  replace (Gen.firstWeek + Z.of_nat k * Gen.msPerWeek)
    with ((Date.Day Gen.firstWeek + 7 * Z.of_nat k) * Date.msPerDay)
    by (change (Date.Day Gen.firstWeek) with 19358;
        unfold Gen.firstWeek, Gen.msPerWeek, Date.msPerDay; lia).
  rewrite Day_midnight.
  destruct (Z.eqb_spec (Date.Day Gen.firstWeek + 7 * Z.of_nat k
                        + Date.Day offset) (Date.Day (t + offset)));
    destruct (Z.eqb_spec (Date.Day Gen.firstWeek + 7 * Z.of_nat k)
                         (Date.Day (t + offset) - Date.Day offset));
    first [reflexivity | lia].
Qed.

(** X20: a day's prices asked of the generated store.  On a host at a
    fixed offset from UTC, [GET /prices] with a valid [asOf] and no complete
    range finds a stored record only on the days that are a whole number of
    weeks after 2023-01-01 and not after the clock reading of the start:
    for such a day, every requested name of [assets] gets its record of
    that day, timestamped midnight UTC; on any other day, and for any other
    name, the entry is a placeholder of price 0. *)
Theorem generated_prices_of_day
    (fuel : nat) (assets : list Asset.t) (w : Boot.World F)
    (ids : string) (asOf from to : JS.QueryParam) (t : Z) (u : Eff.World) :
  let n := Gen.weeksUntil Gen.firstWeek (Boot.readings w 0%nat) in
  let day := Date.Day (t + offset) - Date.Day offset in
  let weekly := ((day - Date.Day Gen.firstWeek) mod 7 =? 0)
                && (Date.Day Gen.firstWeek <=? day)
                && (day <? Date.Day Gen.firstWeek + 7 * Z.of_nat n) in
  parse "2023-01-01" = Some Gen.firstWeek ->
  Boot.readings w 0%nat <= Date.maxTime ->
  (n < fuel)%nat ->
  ids <> "" -> JS.truthy asOf = true ->
  Date_of_param parse asOf = Some t ->
  JS.truthy from && JS.truthy to = false ->
  exists prices w' latest,
    generateHistoricalPrices fuel assets w = Boot.Returns prices w'
    /\ fst (Server.queryPrices parse LocalTZA prices (Some ids)
                               asOf from to u)
       = Json latest
    /\ Forall2 (fun name entry =>
                  match entry with
                  | Stored r =>
                      In r prices /\ Price.asset r = name
                      /\ Price.timestamp r = day * Date.msPerDay
                      /\ weekly = true
                  | Placeholder _ a p =>
                      a = name /\ p = 0
                      /\ (weekly = false
                          \/ ~ In name (map Asset.name assets))
                  end)
               (JS.split "," ids) latest.
Proof.
  intros n day weekly Hparse Hmax Hfuel Hids Ha Et Hr.
  destruct (@generateHistoricalPrices_run parse LocalTZA LocalTZA_of_local
              F F_of_Z F_mul F_add F_floor offset tza_fixed
              tza_of_local_fixed fuel assets w Hparse Hmax Hfuel)
    as [w' [Erun _]].
  fold n in Erun.
  set (prices := GenForms.weekBlocks _ _ _ _ _ _ _ _ _ _) in Erun.
  assert (Hd : Vocab.datesAccepted parse asOf from to = true).
  { unfold Vocab.datesAccepted, Server.isValidDate.
    now rewrite Hr, Ha, Et. }
  assert (Hfilter : forall r, Further.dateFilter parse LocalTZA asOf from to r
                              = onDay LocalTZA (Some t) r).
  { intros r. unfold Further.dateFilter. now rewrite Hr, Ha, Et. }
  assert (Hfirst : Date.Day Gen.firstWeek = 19358) by reflexivity.
  set (candidates :=
         filter (Further.dateFilter parse LocalTZA asOf from to) prices).
  assert (Hvalid : Forall validTimestamp candidates).
  { apply Forall_forall. intros r Hin. apply filter_In in Hin as [_ Hin].
    apply (@dateFilter_valid parse LocalTZA asOf from to r Hd); auto. }
  assert (H : Forall2
                (fun name entry =>
                   match entry with
                   | Stored r =>
                       In r prices /\ Price.asset r = name
                       /\ Price.timestamp r = day * Date.msPerDay
                       /\ weekly = true
                   | Placeholder _ a p =>
                       a = name /\ p = 0
                       /\ (weekly = false
                           \/ ~ In name (map Asset.name assets))
                   end)
                (JS.split "," ids)
                (fst (Eff.mapM (latestPrice candidates)
                               (JS.split "," ids) u))).
  { apply EffFacts.mapM_Forall2. intros name v.
    pose proof (@latestPrice_isLatest parse candidates name v Hvalid)
      as Hlatest.
    destruct (fst (latestPrice candidates name v))
      as [r | id a p]; cbn [Vocab.isLatest] in Hlatest.
    - destruct Hlatest as [Hin [Hasset _]].
      apply filter_In in Hin as [Hin Hon]. rewrite Hfilter in Hon.
      destruct (weekBlocks_In _ _ _ _ _ _ _ Hin)
        as [a0 [k [Ha0 [Hk [_ Ets]]]]].
      pose proof (@week_not_after F F_of_Z F_mul F_add F_floor _ _ _ Hk) as Hle.
      rewrite (onDay_week t r k Ets ltac:(lia)) in Hon.
      apply Z.eqb_eq in Hon. fold day in Hon.
      split; [exact Hin|]. split; [exact Hasset|]. split.
      + rewrite Ets, <- Hon, Hfirst.
        unfold Gen.firstWeek, Gen.msPerWeek, Date.msPerDay. lia.
      + unfold weekly. rewrite <- Hon, Hfirst.
        apply andb_true_iff. split; [apply andb_true_iff; split|].
        * apply Z.eqb_eq. Z.div_mod_to_equations; lia.
        * apply Z.leb_le. lia.
        * apply Z.ltb_lt. fold n in Hk. lia.
    - destruct Hlatest as [-> [-> Hnone]].
      split; [reflexivity|]. split; [reflexivity|].
      destruct weekly eqn:Ew; [right | now left].
      intros Hname. apply in_map_iff in Hname as [a0 [Ename Ha0]].
      unfold weekly in Ew. rewrite Hfirst in Ew.
      apply andb_true_iff in Ew as [Ew H3].
      apply andb_true_iff in Ew as [H1 H2].
      apply Z.eqb_eq in H1. apply Z.leb_le in H2. apply Z.ltb_lt in H3.
      assert (Hk : (Z.to_nat ((day - 19358) / 7) < n)%nat)
        by (Z.div_mod_to_equations; lia).
      destruct (weekBlocks_has
                  (F_mul (Boot.randoms w 0%nat) (F_of_Z 10000))
                  {| Boot.uuids := Boot.uuids w;
                     Boot.randoms := fun k => Boot.randoms w (S k);
                     Boot.readings := fun k => Boot.readings w (S k) |}
                  Gen.firstWeek n assets 0 a0 _ Ha0 Hk)
        as [r [Hin [Hasset Ets]]].
      apply (Hnone r); [|congruence].
      apply filter_In. split; [exact Hin|]. rewrite Hfilter.
      pose proof (@week_not_after F F_of_Z F_mul F_add F_floor _ _ _ Hk) as Hle.
      rewrite (onDay_week t r _ Ets ltac:(lia)). fold day.
      apply Z.eqb_eq. rewrite Hfirst. Z.div_mod_to_equations; lia. }
  exists prices, w'.
  exists (fst (Eff.mapM (latestPrice candidates)
                        (JS.split "," ids) u)).
  split; [exact Erun|]. split; [|exact H].
  rewrite (@queryPrices_reduced_run parse LocalTZA prices ids asOf from to u
             Hids Ha Hd).
  fold candidates.
  now destruct (Eff.mapM (latestPrice candidates)
                         (JS.split "," ids) u).
Qed.

End GeneratedPrices.

(** * The module-level code as a whole *)

Section StartupFacts.

Variable parse : string -> option Z.
Variable LocalTZA : Z -> Z.
Variable LocalTZA_of_local : Z -> Z.
Variable F : Type.
Variable F_of_Z : Z -> F.
Variable F_mul : F -> F -> F.
Variable F_add : F -> F -> F.
Variable F_floor : F -> Z.
Variable offset : Z.
Hypothesis tza_fixed : forall t, LocalTZA t = offset.
Hypothesis tza_of_local_fixed : forall t, LocalTZA_of_local t = offset.

Local Abbreviation startup :=
  (Startup.startup parse LocalTZA LocalTZA_of_local
     F_of_Z F_mul F_add F_floor).

Lemma dayBlocks_asset_In (w : Boot.World F) (assets : list Asset.t)
    (n : nat) (day : Z) (at_ : nat) (p : Position.t) :
  In p (GenForms.dayBlocks F_of_Z F_mul F_floor w assets day n at_) ->
  In (Position.asset p) (map Asset.id assets).
Proof.
  intros Hp.
  apply (in_map (fun p => (Position.asOf p, Position.asset p))) in Hp.
  rewrite dayBlocks_asOf_asset in Hp.
  apply in_flat_map in Hp as [j [_ Hp]].
  apply in_map_iff in Hp as [a [E Ha]]. injection E as _ E.
  rewrite <- E. now apply in_map.
Qed.

(** X21: the module-level code as a whole, on a host at a fixed offset
    from UTC.  It builds the table of the six assets with the first six
    [uuidv4()] draws, then the prices, whose identifiers are the draws that
    follow and whose asset is always a name of the table, then the
    positions, whose asset is always an identifier of the table.  It reads
    the clock three times in all. *)
Theorem startup_stores (fuel : nat) (w : Boot.World F) :
  let n := Gen.weeksUntil Gen.firstWeek (Boot.readings w 0%nat) in
  let today := Boot.readings w 1%nat in
  let now := Boot.readings w 2%nat in
  let endDay := Date.Day today in
  let startDay := Date.Day now - Gen.monthBack offset now in
  let days := Z.to_nat (endDay - startDay) in
  parse "2023-01-01" = Some Gen.firstWeek ->
  Boot.readings w 0%nat <= Date.maxTime ->
  (n < fuel)%nat ->
  0 <= today <= now -> now < today + Date.msPerDay ->
  now <= Date.maxTime ->
  (forall day, startDay <= day <= endDay ->
               parse (DateObj.isoDateString day)
               = Some (day * Date.msPerDay)) ->
  (days <= fuel)%nat ->
  exists assets historicalPrices positions w',
    startup fuel w
    = Boot.Returns (assets, historicalPrices, positions) w'
    /\ map (fun a => (Asset.id a, Asset.name a, Asset.type a)) assets
       = [ (Boot.uuids w 0%nat, "Bitcoin", "crypto");
           (Boot.uuids w 1%nat, "Ethereum", "crypto");
           (Boot.uuids w 2%nat, "Apple Inc.", "stock");
           (Boot.uuids w 3%nat, "Google", "stock");
           (Boot.uuids w 4%nat, "US Dollar", "fiat");
           (Boot.uuids w 5%nat, "British Pound", "fiat") ]
    /\ List.length historicalPrices = (6 * n)%nat
    /\ map Price.id historicalPrices
       = map (fun k => Boot.uuids w (6 + k)%nat) (seq 0 (6 * n))
    /\ Forall (fun price => In (Price.asset price) (map Asset.name assets))
              historicalPrices
    /\ List.length positions = (6 * days)%nat
    /\ Forall (fun position =>
                 In (Position.asset position) (map Asset.id assets))
              positions
    /\ Gen.drawn (6 + 6 * n) (1 + 6 * n + 12 * days) 3 w w'.
Proof.
  intros n today now endDay startDay days Hparse Hmax0 Hfuel Hnow Hday Hmax
    Hdates Hfuel'.
  set (wa := {| Boot.uuids := fun k => Boot.uuids w (6 + k)%nat;
                Boot.randoms := Boot.randoms w;
                Boot.readings := Boot.readings w |}).
  set (assets :=
         [ {| Asset.id := Boot.uuids w 0%nat; Asset.name := "Bitcoin";
              Asset.type := "crypto" |};
           {| Asset.id := Boot.uuids w 1%nat; Asset.name := "Ethereum";
              Asset.type := "crypto" |};
           {| Asset.id := Boot.uuids w 2%nat; Asset.name := "Apple Inc.";
              Asset.type := "stock" |};
           {| Asset.id := Boot.uuids w 3%nat; Asset.name := "Google";
              Asset.type := "stock" |};
           {| Asset.id := Boot.uuids w 4%nat; Asset.name := "US Dollar";
              Asset.type := "fiat" |};
           {| Asset.id := Boot.uuids w 5%nat; Asset.name := "British Pound";
              Asset.type := "fiat" |} ]).
  assert (Ea : Startup.assets w = Boot.Returns assets wa) by reflexivity.
  destruct (@generateHistoricalPrices_run parse LocalTZA LocalTZA_of_local
              F F_of_Z F_mul F_add F_floor offset tza_fixed
              tza_of_local_fixed fuel assets wa Hparse Hmax0 Hfuel)
    as [wp [Ep [Hu [Hr Hc]]]].
  change (Gen.weeksUntil Gen.firstWeek (Boot.readings wa 0%nat)) with n
    in Ep, Hu, Hr, Hc.
  set (prices := GenForms.weekBlocks _ _ _ _ _ _ _ _ _ _) in Ep.
  assert (E0 : Boot.readings wp 0%nat = today) by (rewrite Hc; reflexivity).
  assert (E1 : Boot.readings wp 1%nat = now) by (rewrite Hc; reflexivity).
  pose proof (@generatePositionsForTheMonth_run parse LocalTZA
                LocalTZA_of_local F F_of_Z F_mul F_floor offset tza_fixed
                tza_of_local_fixed fuel assets wp) as Hq.
  cbv zeta in Hq. rewrite E0, E1 in Hq.
  destruct (Hq Hnow Hday Hmax Hdates Hfuel') as [w' [Eq [Hd _]]].
  clear Hq. fold endDay startDay days in Eq, Hd.
  set (positions := GenForms.dayBlocks _ _ _ _ _ _ _ _) in Eq.
  exists assets, prices, positions, w'.
  split; [|split; [reflexivity|]].
  { unfold Startup.startup, Boot.bind. rewrite Ea. cbv beta iota.
    rewrite Ep. cbv beta iota. rewrite Eq. reflexivity. }
  split; [unfold prices; rewrite weekBlocks_length; reflexivity|].
  split; [unfold prices; rewrite weekBlocks_ids; reflexivity|].
  split.
  { apply Forall_forall. intros r Hin.
    destruct (weekBlocks_In _ _ _ _ _ _ _ _ _ _ _ _ Hin)
      as [a [k [Ha [_ [-> _]]]]].
    now apply in_map. }
  split;
    [unfold positions; rewrite dayBlocks_length;
     change (List.length assets) with 6%nat; lia|].
  split.
  { apply Forall_forall. intros p Hin.
    exact (dayBlocks_asset_In _ _ _ _ _ _ Hin). }
  destruct Hd as [Hu' [Hr' Hc']].
  change (List.length assets) with 6%nat in Hu, Hr, Hc, Hu', Hr', Hc'.
  repeat split; intros k.
  - rewrite Hu', Hu. cbn [wa Boot.uuids]. f_equal. lia.
  - rewrite Hr', Hr. cbn [wa Boot.randoms]. f_equal. lia.
  - rewrite Hc', Hc. cbn [wa Boot.readings]. f_equal.
Qed.

End StartupFacts.

(** * The startup code on the example hosts *)

(** The example UTC host reads the ISO dates of the days from 2022-12-20
    to 2023-01-20. *)
Lemma host_parse_window (day : Z) :
  19346 <= day <= 19377 ->
  Host.parse (DateObj.isoDateString day) = Some (day * Date.msPerDay).
Proof.
  intros H.
  assert (Hk : exists k, (k < 32)%nat /\ day = 19346 + Z.of_nat k)
    by (exists (Z.to_nat (day - 19346)); lia).
  destruct Hk as [k [Hk ->]].
  do 32 (destruct k as [|k]; [vm_compute; reflexivity|]). lia.
Qed.

Lemma generateHistoricalPrices_weekly_witness :
  exists prices w',
    HostBoot.generateHistoricalPrices 10 HostBoot.twoAssets
      (HostBoot.world 1674216000000)
    = Boot.Returns prices w'
    /\ List.length prices = 6%nat.
Proof.
  destruct (@generateHistoricalPrices_weekly Host.parse Host.LocalTZA
              HostBoot.LocalTZA_of_local HostBoot.F HostBoot.F_of_Z
              HostBoot.F_mul HostBoot.F_add HostBoot.F_floor 0
              (fun _ => eq_refl) (fun _ => eq_refl)
              10%nat HostBoot.twoAssets (HostBoot.world 1674216000000)
              eq_refl ltac:(vm_compute; discriminate)
              ltac:(vm_compute; lia))
    as [prices [w' [E [_ [Hlen _]]]]].
  exists prices, w'. split; [exact E | exact Hlen].
Defined.


Lemma generatePositionsForTheMonth_daily_witness :
  exists positions w',
    HostBoot.generatePositionsForTheMonth 40 HostBoot.twoAssets
      (HostBoot.world 1674216000000)
    = Boot.Returns positions w'
    /\ List.length positions = 62%nat.
Proof.
  destruct (@generatePositionsForTheMonth_daily Host.parse Host.LocalTZA
              HostBoot.LocalTZA_of_local HostBoot.F HostBoot.F_of_Z
              HostBoot.F_mul HostBoot.F_floor 0
              (fun _ => eq_refl) (fun _ => eq_refl)
              40%nat HostBoot.twoAssets (HostBoot.world 1674216000000)
              ltac:(vm_compute; split; discriminate)
              ltac:(vm_compute; reflexivity)
              ltac:(vm_compute; discriminate)
              (fun day H => host_parse_window day
                              ltac:(vm_compute in H; vm_compute; exact H))
              ltac:(vm_compute; lia))
    as [positions [w' [E [_ [_ [Hlen _]]]]]].
  exists positions, w'. split; [exact E | exact Hlen].
Defined.


Lemma positions_loop_never_ends_witness :
  HostParis.daily 1000 "2024-04-30" HostBoot.twoAssets "2024-03-31" 1 []
    (HostBoot.world 1714478400000)
  = Boot.Unfinished.
Proof.
  assert (H : "2024-03-31" <> "2024-04-30") by discriminate.
  exact (@positions_loop_never_ends Host.parse HostParis.LocalTZA
           HostParis.LocalTZA_of_local HostBoot.F HostBoot.F_of_Z
           HostBoot.F_mul HostBoot.F_floor
           "2024-04-30" "2024-03-31" 1711843200000 1711926000000
           eq_refl eq_refl eq_refl H
           1000%nat HostBoot.twoAssets 1 [] (HostBoot.world 1714478400000)).
Defined.

(** The example UTC host reads the ISO strings of midnight of the days
    from 2022-12-20 to 2023-01-19. *)
Lemma host_parse_iso_window (day : Z) :
  19346 <= day < 19377 ->
  Host.parse (Date.toISOString (day * Date.msPerDay))
  = Some (day * Date.msPerDay).
Proof.
  intros H.
  assert (Hk : exists k, (k < 31)%nat /\ day = 19346 + Z.of_nat k)
    by (exists (Z.to_nat (day - 19346)); lia).
  destruct Hk as [k [Hk ->]].
  do 31 (destruct k as [|k]; [vm_compute; reflexivity|]). lia.
Qed.

Lemma generated_portfolio_of_day_witness :
  exists positions w' kept,
    HostBoot.generatePositionsForTheMonth 40 HostBoot.twoAssets
      (HostBoot.world 1674216000000)
    = Boot.Returns positions w'
    /\ fst (Server.queryPortfolio Host.parse Host.LocalTZA positions
                                  (Some "2023-01-10") (Host.world 0))
       = Json {| Portfolio.id := "id-0";
                 Portfolio.asOf := "2023-01-10";
                 Portfolio.positions := kept |}
    /\ map (fun p => (Position.asOf p, Position.asset p)) kept
       = [("2023-01-10T00:00:00.000Z", "a-1");
          ("2023-01-10T00:00:00.000Z", "a-2")].
Proof.
  assert (Hne : "2023-01-10" <> "") by discriminate.
  destruct (generated_portfolio_of_day Host.parse Host.LocalTZA
              HostBoot.LocalTZA_of_local HostBoot.F HostBoot.F_of_Z
              HostBoot.F_mul HostBoot.F_floor 0
              (fun _ => eq_refl) (fun _ => eq_refl)
              40%nat HostBoot.twoAssets (HostBoot.world 1674216000000)
              "2023-01-10" 1673308800000 (Host.world 0)
              ltac:(vm_compute; split; discriminate)
              ltac:(vm_compute; reflexivity)
              ltac:(vm_compute; discriminate)
              (fun day H => host_parse_window day
                              ltac:(vm_compute in H; vm_compute; exact H))
              (fun day H => host_parse_iso_window day
                              ltac:(vm_compute in H; vm_compute; exact H))
              ltac:(vm_compute; lia) Hne eq_refl)
    as [positions [w' [kept [E [Eq Hkept]]]]].
  exists positions, w', kept. split; [exact E|]. split; [exact Eq|].
  lazymatch type of Hkept with
  | if ?c then _ else _ =>
      replace c with true in Hkept by (vm_compute; reflexivity)
  end.
  destruct Hkept as [_ Hmap]. rewrite Hmap. vm_compute. reflexivity.
Defined.

Lemma generated_prices_of_day_witness :
  exists prices w' latest,
    HostBoot.generateHistoricalPrices 10 HostBoot.twoAssets
      (HostBoot.world 1674216000000)
    = Boot.Returns prices w'
    /\ fst (Server.queryPrices Host.parse Host.LocalTZA prices
                               (Some "Bitcoin,Ethereum")
                               (Some "2023-01-08") None None (Host.world 0))
       = Json latest
    /\ Forall2 (fun name entry =>
                  match entry with
                  | Stored r =>
                      In r prices /\ Price.asset r = name
                      /\ Price.timestamp r = 1673136000000
                      /\ true = true
                  | Placeholder _ a p =>
                      a = name /\ p = 0
                      /\ (true = false
                          \/ ~ In name ["Bitcoin"; "Google"])
                  end)
               ["Bitcoin"; "Ethereum"] latest.
Proof.
  assert (Hne : "Bitcoin,Ethereum" <> "") by discriminate.
  exact (generated_prices_of_day Host.parse Host.LocalTZA
           HostBoot.LocalTZA_of_local HostBoot.F HostBoot.F_of_Z
           HostBoot.F_mul HostBoot.F_add HostBoot.F_floor 0
           (fun _ => eq_refl) (fun _ => eq_refl)
           10%nat HostBoot.twoAssets (HostBoot.world 1674216000000)
           "Bitcoin,Ethereum" (Some "2023-01-08") None None
           1673136000000 (Host.world 0)
           eq_refl ltac:(vm_compute; discriminate) ltac:(vm_compute; lia)
           Hne eq_refl eq_refl eq_refl).
Defined.

Lemma startup_stores_witness :
  exists assets historicalPrices positions w',
    Startup.startup Host.parse Host.LocalTZA HostBoot.LocalTZA_of_local
      HostBoot.F_of_Z HostBoot.F_mul HostBoot.F_add HostBoot.F_floor
      40 (HostBoot.world 1674216000000)
    = Boot.Returns (assets, historicalPrices, positions) w'
    /\ List.length assets = 6%nat
    /\ List.length historicalPrices = 18%nat
    /\ List.length positions = 186%nat.
Proof.
  destruct (startup_stores Host.parse Host.LocalTZA
              HostBoot.LocalTZA_of_local HostBoot.F HostBoot.F_of_Z
              HostBoot.F_mul HostBoot.F_add HostBoot.F_floor 0
              (fun _ => eq_refl) (fun _ => eq_refl)
              40%nat (HostBoot.world 1674216000000)
              eq_refl ltac:(vm_compute; discriminate)
              ltac:(vm_compute; lia)
              ltac:(vm_compute; split; discriminate)
              ltac:(vm_compute; reflexivity)
              ltac:(vm_compute; discriminate)
              (fun day H => host_parse_window day
                              ltac:(vm_compute in H; vm_compute; exact H))
              ltac:(vm_compute; lia))
    as [assets [prices [positions [w' [E [Ha [Hp [_ [_ [Hq _]]]]]]]]]].
  exists assets, prices, positions, w'. split; [exact E|].
  split; [|split].
  - rewrite <- (length_map (fun a => (Asset.id a, Asset.name a,
                                      Asset.type a))), Ha.
    reflexivity.
  - rewrite Hp. vm_compute. reflexivity.
  - rewrite Hq. vm_compute. reflexivity.
Defined.
